(** * bmslib/jikong.py: the JK BMS bluetooth protocol driver

    A shallow embedding of [src/bmslib/jikong.py] and the properties of its
    protocol engine: the codec ([calc_crc], [_jk_command], the little-endian
    field decoders of [fetch]), the frame assembler
    ([JKBt._notification_handler]), the response router ([JKBt._decode_msg]),
    the table of pending requests ([JKBt._fetch_futures]), the connect loop
    and the telemetry decoder.

    Conventions of the embedding.
    - [bytes] and [bytearray] values are lists of [byte]; Python integers
      are [Z]; a Python dict is a [gmap].
    - A Python [float] that the driver computes as [n * 0.001], [n / 10] or
      [n / 1000] from an integer [n] is the exact rational it stands for
      (type [Q]); the test [==] on two such values is [Qeq_bool].
    - The argument of [asyncio.sleep], [0.2 * (1.5 ** attempt)], is the
      binary64 value that Python computes (type [float], with the IEEE 754
      multiplication of the kernel); [float_value] gives the rational that
      such a value is.
    - An [asyncio.Future] is a reference: the event loop's futures live in
      a heap indexed by identifiers, and the dict [_fetch_futures] stores
      identifiers, so that a waiter and the table can alias one future.
    - A coroutine is cut at its [await]s into the synchronous pieces that
      run between them; what the transport and the clock do at an [await]
      is an argument of the model. *)

From Stdlib Require Import ZArith QArith Qabs List Lia Bool.
From Stdlib Require Import Floats.PrimFloat.
From Stdlib Require Floats.SpecFloat Floats.FloatOps.
From Stdlib Require Import Strings.Byte.
From Stdlib Require Import Strings.Ascii.
From Stdlib Require Strings.String.
From stdpp Require Import base option list gmap.
From Equations Require Import Equations.
Import ListNotations.

Local Open Scope Z_scope.

(** ** Python values *)

Abbreviation bytes := (list byte).

#[global] Instance byte_eq_decision : EqDecision byte := Byte.byte_eq_dec.

(** The integer a byte stands for, in [0, 256). *)
Definition byte_val (b : byte) : Z := Z.of_N (Byte.to_N b).

(** Messages of the three [assert] statements of the module. *)
Inductive assertion : Type :=
| AlreadyWaiting (cmd : Z)              (* "%s already waiting" *)
| NumCellsUnexpected (n : Z)            (* "num_cells unexpected %s" *)
| CapacityMismatch (got expected : Q).  (* "capacity mismatch %s != %s" *)

(** Exceptions the modelled code can raise. *)
Inductive exn : Type :=
| IndexError
| KeyError (key : Z)
| ValueError
| AttributeError
| AssertionError (a : assertion)
| InvalidStateError          (* asyncio: set_result on a future that is done *)
| TimeoutError               (* asyncio.wait_for *)
| CancelledError
| DeviceNotDiscovered        (* Exception('Device %s not discovered (%s)') *)
| TransportError (code : nat).

Inductive result (A : Type) : Type :=
| Ok (a : A)
| Raise (e : exn).
Arguments Ok {A} a.
Arguments Raise {A} e.

(** Sequencing: the first exception raised ends the computation. *)
#[global] Instance result_ret : MRet result := fun A a => Ok a.
#[global] Instance result_bind : MBind result := fun A B k r =>
  match r with
  | Ok a => k a
  | Raise e => Raise e
  end.

(** [l[i]] for a non-negative index. *)
Definition py_index (l : bytes) (i : nat) : result byte :=
  match l !! i with
  | Some b => Ok b
  | None => Raise IndexError
  end.

(** [l[i:j]] for non-negative bounds: never raises, clamps to the list. *)
Definition py_slice (l : bytes) (i j : nat) : bytes :=
  take (j - i) (drop i l).

(** [bytes([z])]: an integer outside [range(256)] raises [ValueError]. *)
Definition py_byte (z : Z) : result byte :=
  match z with
  | Zneg _ => Raise ValueError
  | _ => match Byte.of_N (Z.to_N z) with
         | Some b => Ok b
         | None => Raise ValueError
         end
  end.

(** [sum(bs)]: left to right from 0. *)
Definition py_sum (bs : bytes) : Z :=
  fold_left (fun acc b => acc + byte_val b) bs 0.

(** [int.from_bytes(bs, byteorder='little', signed=False)]. *)
Fixpoint from_bytes_le (bs : bytes) : Z :=
  match bs with
  | [] => 0
  | b :: rest => byte_val b + 256 * from_bytes_le rest
  end.

(** [int.from_bytes(bs, byteorder='little', signed=True)]: two's
    complement on [8 * len(bs)] bits. *)
Definition from_bytes_le_signed (bs : bytes) : Z :=
  let u := from_bytes_le bs in
  let w := 8 * Z.of_nat (length bs) in
  if Z.testbit u (w - 1) then u - 2 ^ w else u.

(** ** Codec *)

Definition calc_crc (message_bytes : bytes) : Z :=
  Z.land (py_sum message_bytes) 255.

Definition x00 : byte := Byte.x00.

Definition _jk_command (address : Z) (value : bytes) (length : Z) : result bytes :=
  v0 ← py_index value 0;
  v1 ← py_index value 1;
  v2 ← py_index value 2;
  v3 ← py_index value 3;
  a ← py_byte address;
  n ← py_byte length;
  let frame := [Byte.xaa; Byte.x55; Byte.x90; Byte.xeb; a; n; v0; v1; v2; v3]
               ++ replicate 9 x00 in
  c ← py_byte (calc_crc frame);
  Ok (frame ++ [c]).

Definition MIN_RESPONSE_SIZE : nat := 300.

(** ** The driver object and the event loop *)

(** State of an [asyncio.Future]. *)
Inductive future : Type :=
| Pending
| Finished (res : bytes)
| Failed (e : exn)
| Cancelled.

(** The fields of a [JKBt] instance that the module reads and writes,
    with the futures of the event loop it runs on. [_fetch_futures] holds
    references into [futures]. [num_cells] and [capacity] are attributes
    that exist only once [connect] has assigned them. *)
Record JKBt : Type := mkJKBt {
  _buffer : bytes;
  _fetch_futures : gmap Z nat;
  _resp_table : gmap Z bytes;
  num_cells : option Z;
  capacity : option Q;
  futures : gmap nat future;
}.

(** [JKBt.__init__] on a fresh event loop. *)
Definition __init__ : JKBt :=
  mkJKBt [] ∅ ∅ None None ∅.

Definition with_buffer (b : bytes) (self : JKBt) : JKBt :=
  mkJKBt b (_fetch_futures self) (_resp_table self)
         (num_cells self) (capacity self) (futures self).

Definition with_fetch_futures (t : gmap Z nat) (self : JKBt) : JKBt :=
  mkJKBt (_buffer self) t (_resp_table self)
         (num_cells self) (capacity self) (futures self).

Definition with_resp_table (t : gmap Z bytes) (self : JKBt) : JKBt :=
  mkJKBt (_buffer self) (_fetch_futures self) t
         (num_cells self) (capacity self) (futures self).

Definition with_num_cells (n : Z) (self : JKBt) : JKBt :=
  mkJKBt (_buffer self) (_fetch_futures self) (_resp_table self)
         (Some n) (capacity self) (futures self).

Definition with_capacity (c : Q) (self : JKBt) : JKBt :=
  mkJKBt (_buffer self) (_fetch_futures self) (_resp_table self)
         (num_cells self) (Some c) (futures self).

Definition with_futures (h : gmap nat future) (self : JKBt) : JKBt :=
  mkJKBt (_buffer self) (_fetch_futures self) (_resp_table self)
         (num_cells self) (capacity self) h.

(** What the driver does to the outside: calls on the transport, the
    scanner and the clock, the error log, and the hand-over of a verified
    frame from the assembler to the router. *)
Inductive event : Type :=
| CrcCheckFailed (crc_comp crc_expected : Z) (buf : bytes)
| FrameDecoded (buf : bytes)
| WriteGattChar (data : bytes)
| ScannerStart
| ScannerStop
| ConnectAttempt (attempt : nat)
| ClientDisconnect
| Sleep (seconds : float)
| StartNotify
| StopNotify.

(** A piece of driver code: from the object before to a value or an
    exception, the object after (mutations made before an exception stay)
    and the events in order. *)
Definition io (A : Type) : Type := JKBt -> result A * JKBt * list event.

#[global] Instance io_ret : MRet io := fun A a self => (Ok a, self, []).
#[global] Instance io_bind : MBind io := fun A B k m self =>
  match m self with
  | (Ok a, self1, evs1) =>
      match k a self1 with
      | (r, self2, evs2) => (r, self2, evs1 ++ evs2)
      end
  | (Raise e, self1, evs1) => (Raise e, self1, evs1)
  end.

Definition raise {A} (e : exn) : io A := fun self => (Raise e, self, []).
Definition lift {A} (r : result A) : io A := fun self => (r, self, []).
Definition get : io JKBt := fun self => (Ok self, self, []).
Definition modify (f : JKBt -> JKBt) : io unit := fun self => (Ok tt, f self, []).
Definition emit (e : event) : io unit := fun self => (Ok tt, self, [e]).

(** Code that does not touch the object. *)
Definition outside {A} (o : result A * list event) : io A :=
  fun self => (fst o, self, snd o).

Definition state_of {A} (o : result A * JKBt * list event) : JKBt := snd (fst o).
Definition value_of {A} (o : result A * JKBt * list event) : result A := fst (fst o).
Definition events_of {A} (o : result A * JKBt * list event) : list event := snd o.

(** [asyncio.Future()]: a new pending future, distinct from all others. *)
Definition new_future : io nat := fun self =>
  let fut := fresh (dom (futures self)) in
  (Ok fut, with_futures (<[fut := Pending]> (futures self)) self, []).

(** [fut.set_result(res)]: only a pending future accepts a result. *)
Definition set_result (fut : nat) (res : bytes) : io unit := fun self =>
  match futures self !! fut with
  | Some Pending =>
      (Ok tt, with_futures (<[fut := Finished res]> (futures self)) self, [])
  | _ => (Raise InvalidStateError, self, [])
  end.

(** What [await asyncio.wait_for(fut, timeout)] does when the caller
    resumes: a finished future yields its result; a future still pending
    at that moment means the timeout has elapsed, and [wait_for] cancels
    it and raises [TimeoutError]. *)
Definition wait_for_resume (fut : nat) : io bytes := fun self =>
  match futures self !! fut with
  | Some (Finished res) => (Ok res, self, [])
  | Some (Failed e) => (Raise e, self, [])
  | Some Pending =>
      (Raise TimeoutError,
       with_futures (<[fut := Cancelled]> (futures self)) self, [])
  | _ => (Raise CancelledError, self, [])
  end.

(** ** Frame assembler and response router *)

Definition preamble : bytes := [Byte.x55; Byte.xaa; Byte.xeb; Byte.x90].

Definition _decode_msg (buf : bytes) : io unit :=
  b ← lift (py_index buf 4);
  let resp_type := byte_val b in
  modify (fun self => with_resp_table (<[resp_type := buf]> (_resp_table self)) self);;
  self ← get;
  match _fetch_futures self !! resp_type with
  | Some fut =>
      modify (with_fetch_futures (delete resp_type (_fetch_futures self)));;
      set_result fut (_buffer self)
  | None => mret tt
  end.

Definition _notification_handler (data : bytes) : io unit :=
  (if bool_decide (py_slice data 0 4 = preamble)
   then modify (with_buffer [])
   else mret tt);;
  modify (fun self => with_buffer (_buffer self ++ data) self);;
  self ← get;
  if decide (MIN_RESPONSE_SIZE <= length (_buffer self))%nat then
    let crc_comp := calc_crc (py_slice (_buffer self) 0 (MIN_RESPONSE_SIZE - 1)) in
    b ← lift (py_index (_buffer self) (MIN_RESPONSE_SIZE - 1));
    let crc_expected := byte_val b in
    (if bool_decide (crc_comp ≠ crc_expected)
     then emit (CrcCheckFailed crc_comp crc_expected (_buffer self))
     else emit (FrameDecoded (_buffer self));; _decode_msg (_buffer self));;
    modify (with_buffer [])
  else mret tt.

(** The transport calls the handler once per fragment, one call after the
    other; an exception of one call ends that call only. *)
Fixpoint deliver (fragments : list bytes) (self : JKBt) : JKBt * list event :=
  match fragments with
  | [] => (self, [])
  | data :: rest =>
      match _notification_handler data self with
      | (_, self1, evs1) =>
          match deliver rest self1 with
          | (self2, evs2) => (self2, evs1 ++ evs2)
          end
      end
  end.

(** An [await] on the transport or on a future: the caller is suspended
    while the fragments that arrive meanwhile are handled. *)
Definition suspended (fragments : list bytes) : io unit := fun self =>
  match deliver fragments self with
  | (self1, evs) => (Ok tt, self1, evs)
  end.

(** The frames handed to the router, in order. *)
Definition decoded (evs : list event) : list bytes :=
  omap (fun e => match e with FrameDecoded buf => Some buf | _ => None end) evs.

(** ** Requests, connection and telemetry *)

Definition fetch_futures_get (key : Z) : io nat := fun self =>
  match _fetch_futures self !! key with
  | Some fut => (Ok fut, self, [])
  | None => (Raise (KeyError key), self, [])
  end.

Definition resp_table_get (key : Z) : io bytes := fun self =>
  match _resp_table self !! key with
  | Some buf => (Ok buf, self, [])
  | None => (Raise (KeyError key), self, [])
  end.

Definition TIMEOUT : Z := 8.

(** [JKBt._q]. [during_write] and [during_wait] are the fragments that the
    transport delivers while the coroutine is suspended in
    [write_gatt_char] and in [wait_for]. *)
Definition _q (cmd resp : Z) (during_write during_wait : list bytes) : io bytes :=
  self ← get;
  (if bool_decide (is_Some (_fetch_futures self !! cmd))
   then raise (AssertionError (AlreadyWaiting cmd))
   else mret tt);;
  fut ← new_future;
  modify (fun self => with_fetch_futures (<[resp := fut]> (_fetch_futures self)) self);;
  frame ← lift (_jk_command cmd [x00; x00; x00; x00] 0);
  emit (WriteGattChar frame);;
  suspended during_write;;
  waited ← fetch_futures_get resp;
  suspended during_wait;;
  wait_for_resume waited.

(** [JKBt.disconnect]. *)
Definition disconnect : io unit :=
  emit StopNotify;;
  modify (with_fetch_futures ∅);;
  emit ClientDisconnect.

(** The keyword arguments [fetch] passes to [BmsSample]. *)
Record BmsSample : Type := mkBmsSample {
  voltage : Q;
  current : Q;
  charge_full : Q;
  temperatures : list Q;
  mos_temperature : Q;
  balance_current : Q;
  charge : Q;
  num_cycles : Z;
}.

Definition get_capacity : io Q := fun self =>
  match capacity self with
  | Some c => (Ok c, self, [])
  | None => (Raise AttributeError, self, [])
  end.

(** [JKBt.fetch] from the line [buf = self._resp_table[0x02]] on. *)
Definition fetch_decode : io BmsSample :=
  buf ← resp_table_get 0x02;
  let i16 (i : nat) := from_bytes_le (py_slice buf i (i + 2)) in
  let u32 (i : nat) := from_bytes_le (py_slice buf i (i + 2)) in
  let f32u (i : nat) := (inject_Z (from_bytes_le (py_slice buf i (i + 4))) * 1e-3)%Q in
  let f32s (i : nat) := (inject_Z (from_bytes_le_signed (py_slice buf i (i + 4))) * 1e-3)%Q in
  cap ← get_capacity;
  if Qeq_bool (f32u 146%nat) cap then
    mret {| voltage := f32u 118%nat;
            current := f32s 126%nat;
            charge_full := cap;
            temperatures := [inject_Z (i16 130%nat) / 10; inject_Z (i16 132%nat) / 10]%Q;
            mos_temperature := (inject_Z (i16 134%nat) / 10)%Q;
            balance_current := (inject_Z (i16 138%nat) / 1000)%Q;
            charge := f32u 142%nat;
            num_cycles := u32 150%nat |}
  else raise (AssertionError (CapacityMismatch (f32u 146%nat) cap)).

(** [JKBt.fetch]. *)
Definition fetch (wait : bool) (during_wait : list bytes) : io BmsSample :=
  (if wait then
     fut ← new_future;
     modify (fun self => with_fetch_futures (<[0x02 := fut]> (_fetch_futures self)) self);;
     waited ← fetch_futures_get 0x02;
     suspended during_wait;;
     wait_for_resume waited;;
     mret tt
   else mret tt);;
  fetch_decode.

(** One pass through the [try] block of [connect]: what discovery and the
    transport answer on that attempt. *)
Inductive attempt_outcome : Type :=
| NotDiscovered
| ConnectError (e : exn)
| Connected.

Definition try_connect (o : attempt_outcome) (attempt : nat) : result unit * list event :=
  match o with
  | NotDiscovered => (Raise DeviceNotDiscovered, [])
  | ConnectError e => (Raise e, [ConnectAttempt attempt])
  | Connected => (Ok tt, [ConnectAttempt attempt])
  end.

(** [x ** n] for a float [x] and an integer [n >= 0]. Python calls C's
    [pow]; a correctly rounded [pow] returns the power itself when that is
    a binary64 value, as the powers of 1.5 up to the 33rd are, and the
    products below are then exact too. The loop of [connect] uses the
    exponents 1 to 7. *)
Fixpoint float_pow (x : float) (n : nat) : float :=
  match n with
  | O => 1%float
  | S n' => (x * float_pow x n')%float
  end.

(** [0.2 * (1.5 ** attempt)]: the literal [0.2] is the binary64 value
    nearest to one fifth, and the product is rounded to nearest. *)
Definition backoff (attempt : nat) : float :=
  (0x1.999999999999ap-3 * float_pow 0x1.8p+0 attempt)%float.

(** [except Exception] catches every exception of the model except
    [asyncio.CancelledError], which derives from [BaseException]. *)
Definition is_exception (e : exn) : bool :=
  match e with
  | CancelledError => false
  | _ => true
  end.

(** The [while True] loop of [connect], entered with [attempt]. It ends:
    a failed pass either increments [attempt] below 8 or raises. *)
Equations? connect_retry (transport : nat -> attempt_outcome) (attempt : nat)
  : result unit * list event by wf (8 - attempt)%nat lt :=
  connect_retry transport attempt with try_connect (transport attempt) attempt := {
    | (Ok _, evs) => (Ok tt, evs);
    | (Raise e, evs) with is_exception e := {
        | false => (Raise e, evs);
        | true with lt_dec attempt 8 := {
            | left _ =>
                let rest := connect_retry transport (S attempt) in
                (fst rest, evs ++ [ClientDisconnect; Sleep (backoff attempt)] ++ snd rest);
            | right _ => (Raise e, evs ++ [ClientDisconnect; ScannerStop]) } } }.
Proof. lia. Qed.

(** The end of [connect]: Device Identity from the stored frame. *)
Definition connect_identity : io unit :=
  buf ← resp_table_get 0x01;
  b ← lift (py_index buf 114);
  modify (with_num_cells (byte_val b));;
  (if (0 <? byte_val b) && (byte_val b <=? 48)
   then mret tt
   else raise (AssertionError (NumCellsUnexpected (byte_val b))));;
  modify (with_capacity (inject_Z (from_bytes_le (py_slice buf 130 134)) * 0.001)%Q).

(** [JKBt.connect]. [transport] answers the connect attempts; the four
    lists are the fragments delivered during the awaits of the two
    bootstrap queries. *)
Definition connect (transport : nat -> attempt_outcome)
    (w1 w2 w3 w4 : list bytes) : io unit :=
  emit ScannerStart;;
  outside (connect_retry transport 1);;
  emit ScannerStop;;
  emit StartNotify;;
  _q 0x97 0x03 w1 w2;;
  _q 0x96 0x02 w3 w4;;
  connect_identity.

(** [JKBt.connect] as far as the second bootstrap query: all of it but
    the lines that derive Device Identity. *)
Definition connect_queries (transport : nat -> attempt_outcome)
    (w1 w2 w3 w4 : list bytes) : io unit :=
  emit ScannerStart;;
  outside (connect_retry transport 1);;
  emit ScannerStop;;
  emit StartNotify;;
  _q 0x97 0x03 w1 w2;;
  _q 0x96 0x02 w3 w4;;
  mret tt.

Definition get_num_cells : io Z := fun self =>
  match num_cells self with
  | Some n => (Ok n, self, [])
  | None => (Raise AttributeError, self, [])
  end.

(** [JKBt.fetch_voltages]. *)
Definition fetch_voltages : io (list Q) :=
  buf ← resp_table_get 0x02;
  n ← get_num_cells;
  mret (map (fun i : nat =>
               (inject_Z (from_bytes_le (py_slice buf (6 + i * 2) (6 + i * 2 + 2)))
                / 1000)%Q)
            (seq 0 (Z.to_nat n))).

(** The digit of [hex] for a value below 16. *)
Definition hex_digit (d : N) : Ascii.ascii :=
  match d with
  | 0%N => "0" | 1%N => "1" | 2%N => "2" | 3%N => "3"
  | 4%N => "4" | 5%N => "5" | 6%N => "6" | 7%N => "7"
  | 8%N => "8" | 9%N => "9" | 10%N => "a" | 11%N => "b"
  | 12%N => "c" | 13%N => "d" | 14%N => "e" | _ => "f"
  end%char.

(** [hex(b)[2:]] for a byte: one or two lower-case digits, no padding. *)
Definition py_hex (b : byte) : String.string :=
  let n := Byte.to_N b in
  if (n <? 16)%N then String.String (hex_digit n) String.EmptyString
  else String.String (hex_digit (n / 16))
         (String.String (hex_digit (n mod 16)) String.EmptyString).

(** [to_hex_str]: [" ".join(map(lambda b: hex(b)[2:], data))]. *)
Definition to_hex_str (data : bytes) : String.string :=
  String.concat (String.String " "%char String.EmptyString) (map py_hex data).

(** The value of a string of hexadecimal digits. *)
Definition digit_value (c : ascii) : N :=
  let n := N_of_ascii c in
  if (n <? 58)%N then (n - 48)%N else (n - 87)%N.

Fixpoint hex_value (acc : N) (s : String.string) : N :=
  match s with
  | String.EmptyString => acc
  | String.String c rest => hex_value (16 * acc + digit_value c) rest
  end.

Definition space : ascii := " "%char.

(** What follows the first byte in the dump. *)
Definition dump_rest (data : bytes) : String.string :=
  match data with
  | [] => String.EmptyString
  | _ => String.String space (to_hex_str data)
  end.

(** The arithmetic sum of the bytes, by recursion on the sequence: what
    the protocol description calls the checksum before reduction. *)
Fixpoint byte_sum (bs : bytes) : Z :=
  match bs with
  | [] => 0
  | b :: rest => byte_val b + byte_sum rest
  end.

(** ** Notions used to state the properties *)

(** The buffer once the handler has appended [data]: emptied first when
    [data] opens with the preamble. *)
Definition received (data : bytes) (self : JKBt) : bytes :=
  (if bool_decide (py_slice data 0 4 = preamble) then [] else _buffer self) ++ data.

(** The trailer of a response frame is the checksum of the bytes before. *)
Definition check_crc (frame : bytes) : bool :=
  match frame !! (MIN_RESPONSE_SIZE - 1)%nat with
  | Some b => bool_decide (calc_crc (py_slice frame 0 (MIN_RESPONSE_SIZE - 1)) = byte_val b)
  | None => false
  end.

(** A response frame: 300 bytes, the preamble first, the checksum last. *)
Definition valid_frame (frame : bytes) : Prop :=
  length frame = MIN_RESPONSE_SIZE /\
  py_slice frame 0 4 = preamble /\
  check_crc frame = true.

(** The response type tag of a frame. *)
Definition frame_tag (frame : bytes) : Z :=
  match frame !! 4%nat with
  | Some b => byte_val b
  | None => 0
  end.

(** No fragment opens with the preamble while bytes are buffered. *)
Fixpoint no_resync (buf : bytes) (fragments : list bytes) : Prop :=
  match fragments with
  | [] => True
  | f :: rest =>
      (buf = [] \/ py_slice f 0 4 ≠ preamble) /\ no_resync (buf ++ f) rest
  end.

(** A sequence of fragments reassembles to [frame] when, delivered to a
    handler whose buffer is empty, it hands exactly [frame] to the router. *)
Definition reassembles (frame : bytes) (fragments : list bytes) : Prop :=
  forall self, _buffer self = [] ->
    decoded (snd (deliver fragments self)) = [frame].

(** Every registered request is outstanding: its future is pending. *)
Definition requests_outstanding (self : JKBt) : Prop :=
  forall tag fut, _fetch_futures self !! tag = Some fut ->
    futures self !! fut = Some Pending.

(** The handler raises no error, whatever the fragment and the driver. *)
Definition handler_never_raises : Prop :=
  forall (data : bytes) (self : JKBt),
    value_of (_notification_handler data self) = Ok tt.

(** Append the checksum trailer to the first 299 bytes of a frame. *)
Definition seal (body : bytes) : bytes :=
  body ++ match py_byte (calc_crc body) with
          | Ok c => [c]
          | Raise _ => []
          end.

(** A telemetry frame (tag 0x02) whose first two cell-voltage fields hold
    the bytes 55 AA EB 90, cut after its sixth byte. *)
Definition resync_frame : bytes :=
  seal (preamble ++ [Byte.x02; x00] ++ preamble ++ replicate 289 x00).

Definition resync_fragments : list bytes :=
  [take 6 resync_frame; drop 6 resync_frame].

(** A telemetry frame with an all-zero payload, in three fragments of 2,
    128 and 170 bytes. *)
Definition plain_frame : bytes :=
  seal (preamble ++ [Byte.x02; x00] ++ replicate 293 x00).

Definition plain_fragments : list bytes :=
  [take 2 plain_frame; take 128 (drop 2 plain_frame); drop 130 plain_frame].

(** A driver with one request outstanding, for tag 0x02. *)
Definition waiting_state : JKBt :=
  mkJKBt [] {[ 2 := 0%nat ]} ∅ None None {[ 0%nat := Pending ]}.

(** The registration of a request: what [_q] and [fetch] do with
    [self._fetch_futures[tag] = asyncio.Future()]. *)
Definition register (tag : Z) (self : JKBt) : JKBt :=
  let fut := fresh (dom (futures self)) in
  with_fetch_futures (<[tag := fut]> (_fetch_futures self))
    (with_futures (<[fut := Pending]> (futures self)) self).

(** Every reference of the table is to a future of the event loop. *)
Definition references_allocated (self : JKBt) : Prop :=
  forall tag fut, _fetch_futures self !! tag = Some fut ->
    is_Some (futures self !! fut).

(** [fut] is the pending future registered under [resp], and under no
    other tag. *)
Definition waits (resp : Z) (fut : nat) (self : JKBt) : Prop :=
  _fetch_futures self !! resp = Some fut /\
  futures self !! fut = Some Pending /\
  forall tag, tag ≠ resp -> _fetch_futures self !! tag ≠ Some fut.

(** No frame of tag [resp] is handed to the router in [evs]. *)
Definition no_frame_of (resp : Z) (evs : list event) : Prop :=
  Forall (fun f => frame_tag f ≠ resp) (decoded evs).

(** A device-info frame (tag 0x03) with an all-zero payload. *)
Definition info_frame : bytes :=
  seal (preamble ++ [Byte.x03; x00] ++ replicate 293 x00).

(** A driver with one request outstanding, for tag 0x03. *)
Definition query_waiting_state : JKBt :=
  mkJKBt [] {[ 3 := 0%nat ]} ∅ None None {[ 0%nat := Pending ]}.

(** Disconnecting wakes the waiters: every outstanding request ends with
    a failure. *)
Definition disconnect_wakes_waiters (self : JKBt) : Prop :=
  forall tag fut,
    _fetch_futures self !! tag = Some fut ->
    futures self !! fut = Some Pending ->
    exists e, futures (state_of (disconnect self)) !! fut = Some (Failed e).

(** A query that times out removes its pending request. *)
Definition timeout_removes_request
    (cmd resp : Z) (w1 w2 : list bytes) (self : JKBt) : Prop :=
  no_frame_of resp (events_of (_q cmd resp w1 w2 self)) ->
  value_of (_q cmd resp w1 w2 self) = Raise TimeoutError /\
  _fetch_futures (state_of (_q cmd resp w1 w2 self)) !! resp = None /\
  _fetch_futures (state_of (_q cmd resp w1 w2 self)) = ∅.

(** The connect attempts and the sleeps of a trace, in order. *)
Definition attempts (evs : list event) : list nat :=
  omap (fun e => match e with ConnectAttempt k => Some k | _ => None end) evs.

Definition sleeps (evs : list event) : list float :=
  omap (fun e => match e with Sleep d => Some d | _ => None end) evs.

(** A failed attempt that is followed by another one. *)
Definition failed_attempt (k : nat) : list event :=
  [ConnectAttempt k; ClientDisconnect; Sleep (backoff k)].

(** The rational number that a finite binary64 value is. *)
Definition float_value (d : float) : Q :=
  match FloatOps.Prim2SF d with
  | SpecFloat.S754_finite sign mantissa exponent =>
      let v := (inject_Z (Z.pos mantissa) * 2 ^ exponent)%Q in
      if sign then (- v)%Q else v
  | _ => 0%Q
  end.

(** The delay of the retry policy after the failed attempt [k], as a real
    number of seconds. *)
Definition specified_delay (k : nat) : Q := (0.2 * 1.5 ^ Z.of_nat k)%Q.

(** A binary64 value within [1e-15] of a rational. *)
Definition approximates (d : float) (q : Q) : Prop :=
  (Qabs (float_value d - q) <= 1e-15)%Q.

(** The seven delays that Python computes for the attempts 1 to 7; it
    prints them as 0.30000000000000004, 0.45, 0.675, 1.0125, 1.51875,
    2.278125 and 3.4171875000000003. *)
Definition retry_delays : list float :=
  [0x1.3333333333334p-2; 0x1.ccccccccccccdp-2; 0x1.599999999999ap-1;
   0x1.0333333333333p+0; 0x1.84ccccccccccdp+0; 0x1.239999999999ap+1;
   0x1.b566666666667p+1]%float.

(** Eight failed attempts: seven with a disconnect and a sleep after
    them, the eighth followed by a disconnect and the end of discovery. *)
Definition retry_trace : list event :=
  [ConnectAttempt 1; ClientDisconnect; Sleep 0x1.3333333333334p-2;
   ConnectAttempt 2; ClientDisconnect; Sleep 0x1.ccccccccccccdp-2;
   ConnectAttempt 3; ClientDisconnect; Sleep 0x1.599999999999ap-1;
   ConnectAttempt 4; ClientDisconnect; Sleep 0x1.0333333333333p+0;
   ConnectAttempt 5; ClientDisconnect; Sleep 0x1.84ccccccccccdp+0;
   ConnectAttempt 6; ClientDisconnect; Sleep 0x1.239999999999ap+1;
   ConnectAttempt 7; ClientDisconnect; Sleep 0x1.b566666666667p+1;
   ConnectAttempt 8; ClientDisconnect; ScannerStop].

(** A transport on which every connect attempt is refused. *)
Definition refusing_transport (attempt : nat) : attempt_outcome :=
  ConnectError (TransportError attempt).

(** The integer of the byte at [offset] of a frame; 0 beyond its end. *)
Definition byte_at (frame : bytes) (offset : nat) : Z :=
  byte_val (nth offset frame x00).

(** The little-endian fields of the protocol description. *)
Definition u16_le (frame : bytes) (offset : nat) : Z :=
  byte_at frame offset + 256 * byte_at frame (offset + 1).

Definition u32_le (frame : bytes) (offset : nat) : Z :=
  byte_at frame offset + 256 * byte_at frame (offset + 1)
  + 65536 * byte_at frame (offset + 2) + 16777216 * byte_at frame (offset + 3).

Definition s16_le (frame : bytes) (offset : nat) : Z :=
  if u16_le frame offset <? 32768 then u16_le frame offset
  else u16_le frame offset - 65536.

Definition s32_le (frame : bytes) (offset : nat) : Z :=
  if u32_le frame offset <? 2147483648 then u32_le frame offset
  else u32_le frame offset - 4294967296.

(** The sample the protocol description specifies for a telemetry frame. *)
Definition specified_sample (frame : bytes) (cap : Q) : BmsSample :=
  {| voltage := (inject_Z (u32_le frame 118) * 0.001)%Q;
     current := (inject_Z (s32_le frame 126) * 0.001)%Q;
     charge_full := cap;
     temperatures := [inject_Z (s16_le frame 130) / 10;
                      inject_Z (s16_le frame 132) / 10]%Q;
     mos_temperature := (inject_Z (s16_le frame 134) / 10)%Q;
     balance_current := (inject_Z (s16_le frame 138) / 1000)%Q;
     charge := (inject_Z (u32_le frame 142) * 0.001)%Q;
     num_cycles := u32_le frame 150 |}.

(** The sample [fetch] builds: the two-byte fields unsigned, and two bytes
    of the cycle count. *)
Definition fetched_sample (frame : bytes) (cap : Q) : BmsSample :=
  {| voltage := (inject_Z (u32_le frame 118) * 0.001)%Q;
     current := (inject_Z (s32_le frame 126) * 0.001)%Q;
     charge_full := cap;
     temperatures := [inject_Z (u16_le frame 130) / 10;
                      inject_Z (u16_le frame 132) / 10]%Q;
     mos_temperature := (inject_Z (u16_le frame 134) / 10)%Q;
     balance_current := (inject_Z (u16_le frame 138) / 1000)%Q;
     charge := (inject_Z (u32_le frame 142) * 0.001)%Q;
     num_cycles := u16_le frame 150 |}.

(** A telemetry frame of a 100 Ah pack at -0.1 degrees after 65536
    cycles: FF FF at offset 130, A0 86 01 00 at 146, 00 00 01 00 at 150. *)
Definition cold_frame : bytes :=
  seal (preamble ++ [Byte.x02; x00] ++ replicate 124 x00
        ++ [Byte.xff; Byte.xff] ++ replicate 14 x00
        ++ [Byte.xa0; Byte.x86; Byte.x01; x00]
        ++ [x00; x00; Byte.x01; x00] ++ replicate 145 x00).

(** A connected driver whose Device Identity is 16 cells and 100 Ah, with
    [cold_frame] as last known telemetry frame. *)
Definition cold_state : JKBt :=
  mkJKBt [] ∅ {[ 2 := cold_frame ]} (Some 16) (Some 100%Q) ∅.

(** A device-info frame as [connect] reads it (tag 0x01): 16 cells at
    offset 114, and A0 86 01 00, that is 100 Ah, at offset 130. *)
Definition identity_frame : bytes :=
  seal (preamble ++ [Byte.x01; x00] ++ replicate 108 x00
        ++ [Byte.x10] ++ replicate 15 x00
        ++ [Byte.xa0; Byte.x86; Byte.x01; x00] ++ replicate 165 x00).

(** A driver that has received [identity_frame]. *)
Definition bootstrapping_state : JKBt :=
  mkJKBt [] ∅ {[ 1 := identity_frame ]} None None ∅.

(** A telemetry frame whose full-charge field is 99.5 Ah (AC 84 01 00 at
    offset 146), and a driver of a 100 Ah pack that holds it. *)
Definition mismatch_frame : bytes :=
  seal (preamble ++ [Byte.x02; x00] ++ replicate 140 x00
        ++ [Byte.xac; Byte.x84; Byte.x01; x00] ++ replicate 149 x00).

Definition mismatch_state : JKBt :=
  mkJKBt [] ∅ {[ 2 := mismatch_frame ]} (Some 16) (Some 100%Q) ∅.

(** Every stored frame has the size of a response. *)
Definition frames_sized (self : JKBt) : Prop :=
  forall tag buf, _resp_table self !! tag = Some buf ->
    (MIN_RESPONSE_SIZE <= length buf)%nat.

(** Every stored frame went through the checks of the handler: it has at
    least 300 bytes, the checksum of its first 299 bytes is its 300th
    byte, and it is stored under its own tag. *)
Definition store_verified (self : JKBt) : Prop :=
  forall tag buf, _resp_table self !! tag = Some buf ->
    (MIN_RESPONSE_SIZE <= length buf)%nat /\
    check_crc buf = true /\
    frame_tag buf = tag.

(** The cell voltages of a telemetry frame: unsigned two bytes from
    offset 6 on, in millivolts. *)
Definition cell_voltages (frame : bytes) (cells : nat) : list Q :=
  map (fun i : nat => (inject_Z (u16_le frame (6 + 2 * i)) / 1000)%Q) (seq 0 cells).

(** A connected driver of 2 cells whose telemetry frame holds 3.300 V and
    3.295 V (E4 0C and DF 0C at offsets 6 and 8). *)
Definition two_cell_frame : bytes :=
  seal (preamble ++ [Byte.x02; x00]
        ++ [Byte.xe4; Byte.x0c; Byte.xdf; Byte.x0c] ++ replicate 289 x00).

Definition two_cell_state : JKBt :=
  mkJKBt [] ∅ {[ 2 := two_cell_frame ]} (Some 2) (Some 0%Q) ∅.

(** The seconds slept in a trace. *)
Definition total_sleep (evs : list event) : Q :=
  fold_right Qplus 0%Q (map float_value (sleeps evs)).

(** A transport that refuses two attempts and accepts the third. *)
Definition third_time_transport (attempt : nat) : attempt_outcome :=
  if (attempt <? 3)%nat then ConnectError (TransportError attempt) else Connected.

(** A transport on which the device is discovered now and then, and never
    accepts. *)
Definition flaky_transport (attempt : nat) : attempt_outcome :=
  if Nat.even attempt then NotDiscovered else ConnectError (TransportError attempt).

(** A transport that accepts the first attempt. *)
Definition willing_transport (attempt : nat) : attempt_outcome := Connected.

(** A transport that refuses the first attempt and on which the second is
    cancelled. *)
Definition cancelled_transport (attempt : nat) : attempt_outcome :=
  if (attempt <? 2)%nat then ConnectError (TransportError attempt)
  else ConnectError CancelledError.

(** What the handler calls of a delivery return, in order. *)
Fixpoint deliver_results (fragments : list bytes) (self : JKBt) : list (result unit) :=
  match fragments with
  | [] => []
  | data :: rest =>
      value_of (_notification_handler data self)
      :: deliver_results rest (state_of (_notification_handler data self))
  end.

(** The table of pending requests is in order: every registered future is
    pending, and no future is registered under two tags. *)
Definition table_in_order (self : JKBt) : Prop :=
  requests_outstanding self /\
  forall tag1 tag2 fut,
    _fetch_futures self !! tag1 = Some fut ->
    _fetch_futures self !! tag2 = Some fut ->
    tag1 = tag2.

(** * Properties *)

(** ** Facts about bytes and the checksum *)

Lemma byte_val_range (b : byte) : 0 <= byte_val b < 256.
Proof.
  unfold byte_val. pose proof (Byte.to_N_bounded b). lia.
Qed.

Lemma fold_sum_shift (bs : bytes) (a : Z) :
  fold_left (fun acc b => acc + byte_val b) bs a = a + byte_sum bs.
Proof.
  revert a. induction bs as [|b bs IH]; intros a; simpl.
  - lia.
  - rewrite IH. lia.
Qed.

Lemma py_sum_byte_sum (bs : bytes) : py_sum bs = byte_sum bs.
Proof. unfold py_sum. rewrite fold_sum_shift. lia. Qed.

Lemma calc_crc_mod (bs : bytes) : calc_crc bs = byte_sum bs mod 256.
Proof.
  unfold calc_crc. rewrite py_sum_byte_sum.
  change 255 with (Z.ones 8). rewrite Z.land_ones by lia. reflexivity.
Qed.

Lemma calc_crc_range (bs : bytes) : 0 <= calc_crc bs < 256.
Proof. rewrite calc_crc_mod. apply Z.mod_pos_bound. lia. Qed.

(** C9. For every byte sequence, [calc_crc] is the arithmetic sum of the
    bytes modulo 256, and the result fits in one byte. *)
Theorem calc_crc_sum_mod_256 (B : bytes) :
  calc_crc B = byte_sum B mod 256 /\ 0 <= calc_crc B < 256.
Proof. split; [apply calc_crc_mod | apply calc_crc_range]. Qed.

(** ** The monadic definitions, unfolded *)

Ltac io_unfold :=
  unfold mbind, mret, io_bind, io_ret, raise, lift, get, modify, emit, outside.

Lemma io_state {A : Type} (r : result A) (s : JKBt) (evs : list event) :
  state_of (r, s, evs) = s.
Proof. reflexivity. Qed.

Lemma io_value {A : Type} (r : result A) (s : JKBt) (evs : list event) :
  value_of (r, s, evs) = r.
Proof. reflexivity. Qed.

Lemma _decode_msg_eq (buf : bytes) (self : JKBt) :
  _decode_msg buf self =
  match py_index buf 4 with
  | Raise e => (Raise e, self, [])
  | Ok b =>
      let self1 := with_resp_table (<[byte_val b := buf]> (_resp_table self)) self in
      match _fetch_futures self !! byte_val b with
      | None => (Ok tt, self1, [])
      | Some fut =>
          let self2 :=
            with_fetch_futures (delete (byte_val b) (_fetch_futures self)) self1 in
          match futures self !! fut with
          | Some Pending =>
              (Ok tt,
               with_futures (<[fut := Finished (_buffer self)]> (futures self)) self2,
               [])
          | _ => (Raise InvalidStateError, self2, [])
          end
      end
  end.
Proof.
  unfold _decode_msg. io_unfold. unfold set_result.
  destruct (py_index buf 4) as [b|e]; [|reflexivity].
  cbn [_fetch_futures with_resp_table].
  destruct (_fetch_futures self !! byte_val b) as [fut|]; [|reflexivity].
  cbn [futures with_fetch_futures with_resp_table].
  destruct (futures self !! fut) as [[| | |]|]; reflexivity.
Qed.

Lemma _notification_handler_eq (data : bytes) (self : JKBt) :
  _notification_handler data self =
  let buf := received data self in
  let self1 := with_buffer buf self in
  if decide (MIN_RESPONSE_SIZE <= length buf)%nat then
    match py_index buf (MIN_RESPONSE_SIZE - 1) with
    | Raise e => (Raise e, self1, [])
    | Ok b =>
        let crc_comp := calc_crc (py_slice buf 0 (MIN_RESPONSE_SIZE - 1)) in
        if bool_decide (crc_comp ≠ byte_val b)
        then (Ok tt, with_buffer [] self1, [CrcCheckFailed crc_comp (byte_val b) buf])
        else match _decode_msg buf self1 with
             | (Ok _, self2, evs) => (Ok tt, with_buffer [] self2, FrameDecoded buf :: evs)
             | (Raise e, self2, evs) => (Raise e, self2, FrameDecoded buf :: evs)
             end
    end
  else (Ok tt, self1, []).
Proof.
  unfold _notification_handler, received. io_unfold.
  case_bool_decide; cbn [_buffer with_buffer app fst snd];
    (destruct (decide _) as [Hge|Hlt]; [|reflexivity]);
    (destruct (py_index _ _) as [b|e]; [|reflexivity]);
    (case_bool_decide; [reflexivity|]);
    (destruct (_decode_msg _ _) as [[[[]|e] self2] evs]; cbn;
     rewrite ?app_nil_r; reflexivity).
Qed.

(** ** Frame assembler *)

Lemma with_buffer_same (self : JKBt) : with_buffer (_buffer self) self = self.
Proof. destruct self; reflexivity. Qed.

Lemma py_index_lookup (l : bytes) (i : nat) (b : byte) :
  l !! i = Some b -> py_index l i = Ok b.
Proof. unfold py_index. intros ->. reflexivity. Qed.

Lemma py_index_in_range (l : bytes) (i : nat) :
  (i < length l)%nat -> exists b, l !! i = Some b /\ py_index l i = Ok b.
Proof.
  intros Hlt. destruct (lookup_lt_is_Some_2 l i Hlt) as [b Hb].
  exists b. split; [exact Hb | apply py_index_lookup, Hb].
Qed.

Lemma short_is_no_preamble (data : bytes) :
  (length data < 4)%nat -> py_slice data 0 4 ≠ preamble.
Proof.
  intros Hlen Heq. apply (f_equal length) in Heq.
  unfold py_slice in Heq. rewrite length_take, length_drop in Heq.
  change (length preamble) with 4%nat in Heq. lia.
Qed.

Lemma received_append (data : bytes) (self : JKBt) :
  _buffer self = [] \/ py_slice data 0 4 ≠ preamble ->
  received data self = _buffer self ++ data.
Proof.
  unfold received. intros [Hnil|Hne]; case_bool_decide; try reflexivity.
  - rewrite Hnil. reflexivity.
  - contradiction.
Qed.

Lemma handler_below (data : bytes) (self : JKBt) :
  (length (received data self) < MIN_RESPONSE_SIZE)%nat ->
  _notification_handler data self = (Ok tt, with_buffer (received data self) self, []).
Proof.
  intros Hlen. rewrite _notification_handler_eq. cbv zeta.
  destruct (decide _) as [Hge|_]; [lia | reflexivity].
Qed.

Lemma decode_msg_events (buf : bytes) (self : JKBt) :
  events_of (_decode_msg buf self) = [].
Proof.
  rewrite _decode_msg_eq. destruct (py_index buf 4); [|reflexivity].
  cbv zeta. destruct (_fetch_futures self !! _); [|reflexivity].
  destruct (futures self !! _) as [[| | |]|]; reflexivity.
Qed.

Lemma decode_msg_stores (buf : bytes) (self : JKBt) (b : byte) :
  buf !! 4%nat = Some b ->
  _resp_table (state_of (_decode_msg buf self)) !! byte_val b = Some buf.
Proof.
  intros Hb. rewrite _decode_msg_eq, (py_index_lookup _ _ _ Hb). cbv zeta.
  destruct (_fetch_futures self !! _);
    [destruct (futures self !! _) as [[| | |]|]|];
    cbn; apply lookup_insert_eq.
Qed.

(** A fragment that completes a frame with a good checksum hands it over. *)
Lemma handler_completes (data : bytes) (self : JKBt) :
  length (received data self) = MIN_RESPONSE_SIZE ->
  check_crc (received data self) = true ->
  decoded (events_of (_notification_handler data self)) = [received data self] /\
  _resp_table (state_of (_notification_handler data self))
    !! frame_tag (received data self) = Some (received data self).
Proof.
  intros Hlen Hcrc. rewrite _notification_handler_eq. cbv zeta.
  set (buf := received data self) in *.
  destruct (decide _) as [_|Hlt]; [|lia].
  unfold check_crc in Hcrc.
  destruct (buf !! (MIN_RESPONSE_SIZE - 1)%nat) as [c|] eqn:Hc; [|discriminate].
  rewrite (py_index_lookup _ _ _ Hc). cbv zeta.
  apply bool_decide_eq_true in Hcrc.
  rewrite bool_decide_eq_false_2 by (intros Hne; apply Hne, Hcrc).
  destruct (py_index_in_range buf 4) as (b & Hb & _);
    [rewrite Hlen; unfold MIN_RESPONSE_SIZE; lia|].
  pose proof (decode_msg_events buf (with_buffer buf self)) as Hev.
  pose proof (decode_msg_stores buf (with_buffer buf self) b Hb) as Hst.
  unfold frame_tag. rewrite Hb.
  destruct (_decode_msg buf (with_buffer buf self)) as [[[[]|e] self2] evs];
    unfold events_of, state_of in *; cbn in *; subst evs; split;
    first [reflexivity | exact Hst].
Qed.

Lemma deliver_app (xs ys : list bytes) (self : JKBt) :
  deliver (xs ++ ys) self =
  let '(self1, evs1) := deliver xs self in
  let '(self2, evs2) := deliver ys self1 in
  (self2, evs1 ++ evs2).
Proof.
  revert self. induction xs as [|x xs IH]; intros self; cbn [deliver app].
  - destruct (deliver ys self). reflexivity.
  - destruct (_notification_handler x self) as [[r self1] evs1].
    rewrite IH. destruct (deliver xs self1) as [self2 evs2].
    destruct (deliver ys self2) as [self3 evs3].
    rewrite app_assoc. reflexivity.
Qed.

(** While fewer than 300 bytes have come in, fragments only accumulate. *)
Lemma deliver_below (fragments : list bytes) :
  forall self,
    no_resync (_buffer self) fragments ->
    (length (_buffer self ++ concat fragments) < MIN_RESPONSE_SIZE)%nat ->
    deliver fragments self =
    (with_buffer (_buffer self ++ concat fragments) self, []).
Proof.
  induction fragments as [|f rest IH]; intros self Hns Hlen; cbn [deliver concat].
  - rewrite app_nil_r, with_buffer_same. reflexivity.
  - destruct Hns as [Hf Hrest]. cbn [concat] in Hlen.
    pose proof (received_append f self Hf) as Hrec.
    rewrite handler_below; rewrite Hrec.
    + rewrite IH; cbn [_buffer with_buffer].
      * rewrite <- app_assoc. reflexivity.
      * exact Hrest.
      * rewrite <- app_assoc. exact Hlen.
    + rewrite !length_app in *. lia.
Qed.

Lemma nonempty_fragments_count (fragments : list bytes) :
  Forall (fun f => f ≠ []) fragments ->
  (length fragments <= length (concat fragments))%nat.
Proof.
  induction 1 as [|f rest Hf _ IH]; cbn [concat length]; [lia|].
  rewrite length_app. destruct f; [contradiction|]. cbn [length]. lia.
Qed.

Lemma no_resync_tail (buf : bytes) (fragments : list bytes) :
  Forall (fun f => py_slice f 0 4 ≠ preamble) fragments ->
  no_resync buf fragments.
Proof.
  intros H. revert buf. induction H as [|f rest Hf _ IH]; intros buf; cbn.
  - exact I.
  - split; [right; exact Hf | apply IH].
Qed.

(** C1 (amended). A valid 300-byte response frame cut into non-empty
    fragments, none of which after the first opens with the preamble, and
    delivered in order to a handler whose buffer is empty, is handed to
    the router exactly once, with the original 300 bytes, and stored as
    the last known frame of its tag; the number of fragments is between 1
    and 300. *)
Theorem fragments_reassemble (frame : bytes) (fragments : list bytes) (self : JKBt) :
  valid_frame frame ->
  concat fragments = frame ->
  Forall (fun f => f ≠ []) fragments ->
  Forall (fun f => py_slice f 0 4 ≠ preamble) (tail fragments) ->
  _buffer self = [] ->
  (1 <= length fragments <= 300)%nat /\
  decoded (snd (deliver fragments self)) = [frame] /\
  _resp_table (fst (deliver fragments self)) !! frame_tag frame = Some frame.
Proof.
  intros (Hlen & _ & Hcrc) Hcat Hne Htail Hbuf.
  assert (Hcount : (1 <= length fragments <= 300)%nat).
  { pose proof (nonempty_fragments_count _ Hne) as Hle.
    rewrite Hcat, Hlen in Hle. unfold MIN_RESPONSE_SIZE in Hle.
    destruct fragments; [subst frame; discriminate Hlen | cbn [length]; cbn [length] in Hle; lia]. }
  split; [exact Hcount|].
  destruct (exists_last (l := fragments)) as (init & last & ->).
  { intros ->. cbn in Hcount. lia. }
  rewrite concat_app in Hcat. cbn [concat] in Hcat. rewrite app_nil_r in Hcat.
  apply Forall_app in Hne as [Hne_init Hne_last].
  assert (Hlast : last ≠ []) by (inversion Hne_last; assumption).
  assert (Hns : no_resync (_buffer self) init /\
                (init = [] \/ py_slice last 0 4 ≠ preamble)).
  { destruct init as [|f init]; [split; [exact I | left; reflexivity]|].
    cbn [tail app] in Htail. apply Forall_app in Htail as [Hi Hl].
    split; [|right; inversion Hl; assumption].
    cbn. split; [left; exact Hbuf|]. apply no_resync_tail, Hi. }
  destruct Hns as [Hns Hlast_pre].
  assert (Hshort : (length (_buffer self ++ concat init) < MIN_RESPONSE_SIZE)%nat).
  { rewrite Hbuf. cbn [app]. rewrite <- Hlen, <- Hcat, length_app.
    destruct last; [contradiction | cbn [length]; lia]. }
  rewrite deliver_app, (deliver_below init self Hns Hshort).
  cbn [deliver].
  set (self1 := with_buffer (_buffer self ++ concat init) self).
  assert (Hrec : received last self1 = frame).
  { rewrite received_append.
    - unfold self1. cbn [_buffer with_buffer]. rewrite Hbuf. exact Hcat.
    - destruct Hlast_pre as [->|Hp]; [left|right; exact Hp].
      unfold self1. cbn [_buffer with_buffer concat]. rewrite Hbuf. reflexivity. }
  destruct (handler_completes last self1) as [Hdec Hstore].
  { rewrite Hrec. exact Hlen. }
  { rewrite Hrec. exact Hcrc. }
  rewrite Hrec in Hdec, Hstore.
  destruct (_notification_handler last self1) as [[r self2] evs].
  unfold events_of, state_of in *. cbn in *. rewrite app_nil_r.
  split; assumption.
Qed.

(** C1 (as stated) fails: the telemetry frame [resync_frame] is valid,
    its two fragments are a partition of it, and the handler hands no
    frame to the router, because the second fragment opens with the bytes
    of the preamble and empties the buffer. *)
Lemma preamble_in_payload_not_reassembled :
  valid_frame resync_frame /\
  concat resync_fragments = resync_frame /\
  Forall (fun f => f ≠ []) resync_fragments /\
  (1 <= length resync_fragments <= 300)%nat /\
  decoded (snd (deliver resync_fragments __init__)) = [] /\
  ~ reassembles resync_frame resync_fragments.
Proof.
  split; [repeat split; vm_compute; reflexivity|].
  split; [vm_compute; reflexivity|].
  split; [repeat constructor; vm_compute; discriminate|].
  split; [cbn; lia|].
  split; [vm_compute; reflexivity|].
  intros H. specialize (H __init__ eq_refl). vm_compute in H. discriminate H.
Qed.

(** [plain_frame] in fragments of 2, 128 and 170 bytes is reassembled. *)
Lemma fragments_reassemble_witness :
  valid_frame plain_frame /\
  (1 <= length plain_fragments <= 300)%nat /\
  decoded (snd (deliver plain_fragments __init__)) = [plain_frame] /\
  _resp_table (fst (deliver plain_fragments __init__)) !! frame_tag plain_frame
    = Some plain_frame.
Proof.
  assert (Hv : valid_frame plain_frame) by (repeat split; vm_compute; reflexivity).
  split; [exact Hv|].
  apply (fragments_reassemble plain_frame plain_fragments __init__ Hv).
  - vm_compute; reflexivity.
  - repeat constructor; vm_compute; discriminate.
  - repeat constructor; vm_compute; discriminate.
  - reflexivity.
Defined.

(** ** Totality of the fragment entry point *)

Lemma decode_msg_value (buf : bytes) (self : JKBt) :
  (4 < length buf)%nat ->
  requests_outstanding self ->
  value_of (_decode_msg buf self) = Ok tt.
Proof.
  intros Hlen Hout. rewrite _decode_msg_eq.
  destruct (py_index_in_range buf 4 Hlen) as (b & _ & ->). cbv zeta.
  destruct (_fetch_futures self !! byte_val b) as [fut|] eqn:Hfut; [|reflexivity].
  rewrite (Hout _ _ Hfut). reflexivity.
Qed.

Lemma decode_msg_no_index_error (buf : bytes) (self : JKBt) :
  (4 < length buf)%nat ->
  value_of (_decode_msg buf self) ≠ Raise IndexError.
Proof.
  intros Hlen. rewrite _decode_msg_eq.
  destruct (py_index_in_range buf 4 Hlen) as (b & _ & ->). cbv zeta.
  destruct (_fetch_futures self !! byte_val b) as [fut|]; [|discriminate].
  destruct (futures self !! fut) as [[| | |]|]; discriminate.
Qed.

(** What the router returns: normally, unless the tag of the frame has a
    registered future that is not pending. *)
Lemma decode_msg_outcome (buf : bytes) (self : JKBt) :
  (4 < length buf)%nat ->
  (value_of (_decode_msg buf self) = Ok tt \/
   value_of (_decode_msg buf self) = Raise InvalidStateError) /\
  (value_of (_decode_msg buf self) = Raise InvalidStateError <->
   exists fut, _fetch_futures self !! frame_tag buf = Some fut /\
               futures self !! fut ≠ Some Pending).
Proof.
  intros Hlen. rewrite _decode_msg_eq. unfold frame_tag.
  destruct (py_index_in_range buf 4 Hlen) as (b & -> & ->). cbv zeta.
  destruct (_fetch_futures self !! byte_val b) as [fut|] eqn:Hfut.
  - destruct (futures self !! fut) as [[| | |]|] eqn:Hst; rewrite io_value.
    + split; [left; reflexivity|].
      split; [discriminate|]. intros (fut' & [= <-] & Hne). congruence.
    + split; [right; reflexivity|]. split; [|reflexivity].
      intros _. exists fut. split; [reflexivity | rewrite Hst; discriminate].
    + split; [right; reflexivity|]. split; [|reflexivity].
      intros _. exists fut. split; [reflexivity | rewrite Hst; discriminate].
    + split; [right; reflexivity|]. split; [|reflexivity].
      intros _. exists fut. split; [reflexivity | rewrite Hst; discriminate].
    + split; [right; reflexivity|]. split; [|reflexivity].
      intros _. exists fut. split; [reflexivity | rewrite Hst; discriminate].
  - rewrite io_value. split; [left; reflexivity|].
    split; [discriminate|]. intros (fut & Habs & _). discriminate Habs.
Qed.

(** C10 (amended). On every fragment, the empty one included, the handler
    either returns normally or raises [InvalidStateError], and it raises
    exactly when the fragment completes a frame of at least 300 bytes with
    a good checksum whose tag has a registered future that is not pending;
    with every registered request outstanding it returns normally. A
    fragment shorter than the preamble is no frame start and is appended
    to the buffer, and while the buffer holds fewer than 300 bytes the
    handler returns normally and hands no frame over. *)
Theorem notification_handler_total (data : bytes) (self : JKBt) :
  ((length data < 4)%nat ->
     py_slice data 0 4 ≠ preamble /\ received data self = _buffer self ++ data) /\
  ((length (received data self) < MIN_RESPONSE_SIZE)%nat ->
     _notification_handler data self =
     (Ok tt, with_buffer (received data self) self, [])) /\
  (value_of (_notification_handler data self) = Ok tt \/
   value_of (_notification_handler data self) = Raise InvalidStateError) /\
  (value_of (_notification_handler data self) = Raise InvalidStateError <->
   (MIN_RESPONSE_SIZE <= length (received data self))%nat /\
   check_crc (received data self) = true /\
   exists fut,
     _fetch_futures self !! frame_tag (received data self) = Some fut /\
     futures self !! fut ≠ Some Pending) /\
  (requests_outstanding self ->
     value_of (_notification_handler data self) = Ok tt).
Proof.
  split; [|split; [apply handler_below|]].
  - intros Hshort. pose proof (short_is_no_preamble data Hshort) as Hp.
    split; [exact Hp | apply received_append; right; exact Hp].
  - rewrite _notification_handler_eq. cbv zeta.
    set (buf := received data self).
    destruct (decide _) as [Hge|Hlt].
    2:{ rewrite io_value. split; [left; reflexivity|].
        split; [|reflexivity].
        split; [discriminate | intros (Hsize & _); contradiction]. }
    pose proof Hge as Hsize. unfold MIN_RESPONSE_SIZE in Hge.
    destruct (py_index_in_range buf (MIN_RESPONSE_SIZE - 1)) as (c & Hc & ->);
      [unfold MIN_RESPONSE_SIZE; lia|].
    assert (Hcheck : check_crc buf = true <->
              calc_crc (py_slice buf 0 (MIN_RESPONSE_SIZE - 1)) = byte_val c).
    { unfold check_crc. rewrite Hc. apply bool_decide_eq_true. }
    case_bool_decide as Hcrc.
    { rewrite io_value. split; [left; reflexivity|].
      split; [|reflexivity].
      split; [discriminate|]. intros (_ & Hgood & _).
      apply Hcheck in Hgood. contradiction. }
    assert (Hgood : check_crc buf = true).
    { apply Hcheck.
      destruct (decide (calc_crc (py_slice buf 0 (MIN_RESPONSE_SIZE - 1)) = byte_val c))
        as [Heq|Hne]; [exact Heq | contradiction]. }
    assert (H4 : (4 < length buf)%nat) by lia.
    destruct (decode_msg_outcome buf (with_buffer buf self) H4) as [Hcases Hiff].
    pose proof (decode_msg_value buf (with_buffer buf self) H4) as Hok.
    change (_fetch_futures (with_buffer buf self)) with (_fetch_futures self) in Hiff.
    change (futures (with_buffer buf self)) with (futures self) in Hiff.
    destruct (_decode_msg buf (with_buffer buf self)) as [[[[]|e] self2] evs];
      rewrite io_value in *.
    + split; [left; reflexivity|]. split; [|reflexivity].
      split; [discriminate|]. intros (_ & _ & Hstale).
      apply Hiff in Hstale. discriminate Hstale.
    + split; [destruct Hcases as [Habs|He]; [discriminate Habs | right; exact He]|].
      split; [|intros Hout; apply Hok; exact Hout].
      split.
      * intros He. split; [exact Hsize|]. split; [exact Hgood|]. apply Hiff, He.
      * intros (_ & _ & Hstale). apply Hiff, Hstale.
Qed.

(** C10 (as stated) fails: the device-info query of a fresh driver times
    out and leaves its cancelled future in the table; the frame of tag
    0x03 that arrives afterwards makes the handler raise. *)
Lemma late_frame_makes_handler_raise :
  value_of (_q 0x97 0x03 [] [] __init__) = Raise TimeoutError /\
  value_of (_notification_handler info_frame (state_of (_q 0x97 0x03 [] [] __init__)))
    = Raise InvalidStateError /\
  ~ handler_never_raises.
Proof.
  assert (Hraise :
    value_of (_notification_handler info_frame (state_of (_q 0x97 0x03 [] [] __init__)))
    = Raise InvalidStateError) by (vm_compute; reflexivity).
  split; [vm_compute; reflexivity|]. split; [exact Hraise|].
  intros Hnever.
  rewrite (Hnever info_frame (state_of (_q 0x97 0x03 [] [] __init__))) in Hraise.
  discriminate Hraise.
Qed.

(** A two-byte fragment, delivered while a request is outstanding. *)
Lemma notification_handler_total_witness :
  (length [Byte.x55; Byte.xaa] < 4)%nat /\
  requests_outstanding waiting_state /\
  received [Byte.x55; Byte.xaa] waiting_state = _buffer waiting_state ++ [Byte.x55; Byte.xaa] /\
  _notification_handler [Byte.x55; Byte.xaa] waiting_state =
    (Ok tt, with_buffer [Byte.x55; Byte.xaa] waiting_state, []) /\
  value_of (_notification_handler [Byte.x55; Byte.xaa] waiting_state) = Ok tt.
Proof.
  assert (Hlen : (length [Byte.x55; Byte.xaa] < 4)%nat) by (simpl; lia).
  assert (Hout : requests_outstanding waiting_state).
  { intros tag fut H. unfold waiting_state in H. cbn [_fetch_futures] in H.
    apply lookup_singleton_Some in H as [<- <-]. reflexivity. }
  destruct (notification_handler_total [Byte.x55; Byte.xaa] waiting_state)
    as (Hshort & Hbelow & _ & _ & Hvalue).
  split; [exact Hlen|]. split; [exact Hout|].
  split; [apply Hshort, Hlen|].
  split; [apply Hbelow; vm_compute; lia | apply Hvalue, Hout].
Defined.


(** ** Pending requests *)

Lemma _q_eq (cmd resp : Z) (w1 w2 : list bytes) (self : JKBt) :
  _q cmd resp w1 w2 self =
  if bool_decide (is_Some (_fetch_futures self !! cmd))
  then (Raise (AssertionError (AlreadyWaiting cmd)), self, [])
  else
    let self1 := register resp self in
    match _jk_command cmd [x00; x00; x00; x00] 0 with
    | Raise e => (Raise e, self1, [])
    | Ok frame =>
        let '(self2, evs1) := deliver w1 self1 in
        match _fetch_futures self2 !! resp with
        | None => (Raise (KeyError resp), self2, WriteGattChar frame :: evs1)
        | Some waited =>
            let '(self3, evs2) := deliver w2 self2 in
            let '(r, self4, _) := wait_for_resume waited self3 in
            (r, self4, WriteGattChar frame :: evs1 ++ evs2)
        end
    end.
Proof.
  unfold _q. io_unfold. unfold new_future, suspended, fetch_futures_get, register.
  case_bool_decide; [reflexivity|]. cbn [fst snd app].
  destruct (_jk_command cmd _ 0) as [frame|e]; [|reflexivity].
  cbn [app]. destruct (deliver w1 _) as [self2 evs1].
  destruct (_fetch_futures self2 !! resp) as [waited|];
    [|rewrite app_nil_r; reflexivity].
  destruct (deliver w2 self2) as [self3 evs2].
  unfold wait_for_resume.
  destruct (futures self3 !! waited) as [[| | |]|]; cbn;
    rewrite ?app_nil_r; reflexivity.
Qed.

Lemma decoded_app (xs ys : list event) :
  decoded (xs ++ ys) = decoded xs ++ decoded ys.
Proof. unfold decoded. apply omap_app. Qed.

Lemma no_frame_of_app (resp : Z) (xs ys : list event) :
  no_frame_of resp (xs ++ ys) <-> no_frame_of resp xs /\ no_frame_of resp ys.
Proof. unfold no_frame_of. rewrite decoded_app. apply Forall_app. Qed.

Lemma register_waits (resp : Z) (self : JKBt) :
  references_allocated self ->
  waits resp (fresh (dom (futures self))) (register resp self).
Proof.
  intros Hwf. unfold waits, register. cbn.
  split; [apply lookup_insert_eq|]. split; [apply lookup_insert_eq|].
  intros tag Hne Htag. rewrite lookup_insert_ne in Htag by congruence.
  apply Hwf in Htag. apply elem_of_dom in Htag.
  exact (is_fresh (dom (futures self)) Htag).
Qed.

Lemma decode_msg_waits (buf : bytes) (self : JKBt) (resp : Z) (fut : nat) :
  waits resp fut self ->
  frame_tag buf ≠ resp ->
  waits resp fut (state_of (_decode_msg buf self)).
Proof.
  intros (Htab & Hfut & Huniq) Htag. rewrite _decode_msg_eq.
  unfold frame_tag, py_index in *.
  destruct (buf !! 4%nat) as [b|]; [|repeat split; assumption].
  cbv zeta.
  destruct (_fetch_futures self !! byte_val b) as [fut'|] eqn:Hpop;
    [|repeat split; assumption].
  assert (Hne : fut' ≠ fut).
  { intros ->. exact (Huniq _ Htag Hpop). }
  assert (Hw : waits resp fut
    (with_fetch_futures (delete (byte_val b) (_fetch_futures self)) self)).
  { repeat split; cbn.
    - rewrite lookup_delete_ne by exact Htag. exact Htab.
    - exact Hfut.
    - intros tag Hneq. rewrite lookup_delete. case_decide; [discriminate|].
      apply Huniq, Hneq. }
  destruct (futures self !! fut') as [[| | |]|]; try exact Hw.
  destruct Hw as (Hw1 & Hw2 & Hw3). repeat split; cbn in *; try assumption.
  rewrite lookup_insert_ne by exact Hne. exact Hw2.
Qed.

Lemma handler_waits (data : bytes) (self : JKBt) (resp : Z) (fut : nat) :
  waits resp fut self ->
  no_frame_of resp (events_of (_notification_handler data self)) ->
  waits resp fut (state_of (_notification_handler data self)).
Proof.
  intros Hw. rewrite _notification_handler_eq. cbv zeta.
  set (buf := received data self).
  destruct (decide _) as [_|_]; [|intros _; exact Hw].
  destruct (py_index buf _) as [c|e]; [|intros _; exact Hw].
  case_bool_decide; [intros _; exact Hw|].
  pose proof (decode_msg_waits buf (with_buffer buf self) resp fut Hw) as Hdec.
  destruct (_decode_msg buf (with_buffer buf self)) as [[[[]|e] self2] evs];
    unfold events_of, state_of, no_frame_of in *; cbn in *;
    intros Hno; apply Forall_cons in Hno as [Htag _]; exact (Hdec Htag).
Qed.

Lemma deliver_waits (fragments : list bytes) (resp : Z) (fut : nat) :
  forall self,
    waits resp fut self ->
    no_frame_of resp (snd (deliver fragments self)) ->
    waits resp fut (fst (deliver fragments self)).
Proof.
  induction fragments as [|f rest IH]; intros self Hw Hno; cbn [deliver] in *.
  - exact Hw.
  - pose proof (handler_waits f self resp fut Hw) as Hstep.
    destruct (_notification_handler f self) as [[r self1] evs1].
    unfold events_of, state_of in Hstep. cbn in Hstep.
    specialize (IH self1).
    destruct (deliver rest self1) as [self2 evs2]. cbn in *.
    apply no_frame_of_app in Hno as [Hno1 Hno2]. auto.
Qed.

(** The handler removes entries from the table and never adds one. *)
Lemma handler_keeps_absent (data : bytes) (self : JKBt) (key : Z) :
  _fetch_futures self !! key = None ->
  _fetch_futures (state_of (_notification_handler data self)) !! key = None.
Proof.
  intros Hnone. rewrite _notification_handler_eq. cbv zeta.
  set (buf := received data self).
  destruct (decide _) as [_|_]; [|exact Hnone].
  destruct (py_index buf _) as [c|e]; [|exact Hnone].
  case_bool_decide; [exact Hnone|].
  rewrite _decode_msg_eq.
  destruct (py_index buf 4) as [b|]; [|exact Hnone]. cbv zeta.
  cbn [_fetch_futures with_buffer futures].
  destruct (_fetch_futures self !! byte_val b) as [fut'|]; [|exact Hnone].
  assert (Hdel : delete (byte_val b) (_fetch_futures self) !! key = None).
  { rewrite lookup_delete. case_decide; [reflexivity | exact Hnone]. }
  destruct (futures self !! fut') as [[| | |]|]; exact Hdel.
Qed.

Lemma deliver_keeps_absent (fragments : list bytes) (key : Z) :
  forall self,
    _fetch_futures self !! key = None ->
    _fetch_futures (fst (deliver fragments self)) !! key = None.
Proof.
  induction fragments as [|f rest IH]; intros self Hnone; cbn [deliver].
  - exact Hnone.
  - pose proof (handler_keeps_absent f self key Hnone) as Hstep.
    destruct (_notification_handler f self) as [[r self1] evs1].
    unfold state_of in Hstep. cbn in Hstep.
    specialize (IH self1 Hstep).
    destruct (deliver rest self1) as [self2 evs2]. exact IH.
Qed.

Lemma py_byte_in_range (z : Z) :
  0 <= z < 256 -> exists b, py_byte z = Ok b.
Proof.
  intros Hz. unfold py_byte.
  destruct (Byte.of_N (Z.to_N z)) as [b|] eqn:Hb.
  - exists b. destruct z; [reflexivity | reflexivity | lia].
  - apply Byte.of_N_None_iff in Hb. lia.
Qed.
Lemma jk_command_in_range (address : Z) :
  0 <= address < 256 ->
  exists frame, _jk_command address [x00; x00; x00; x00] 0 = Ok frame.
Proof.
  intros Ha. unfold _jk_command.
  change (py_index [x00; x00; x00; x00] 0) with (Ok x00).
  change (py_index [x00; x00; x00; x00] 1) with (Ok x00).
  change (py_index [x00; x00; x00; x00] 2) with (Ok x00).
  change (py_index [x00; x00; x00; x00] 3) with (Ok x00).
  change (py_byte 0) with (Ok x00).
  destruct (py_byte_in_range address Ha) as [a ->].
  unfold mbind, result_bind.
  match goal with |- context [py_byte (calc_crc ?f)] =>
    destruct (py_byte_in_range (calc_crc f) (calc_crc_range f)) as [c ->] end.
  eexists. reflexivity.
Qed.

Lemma fetch_eq (w : list bytes) (self : JKBt) :
  fetch true w self =
  let self1 := register 2 self in
  let '(self2, evs) := deliver w self1 in
  match wait_for_resume (fresh (dom (futures self))) self2 with
  | (Ok _, self3, _) =>
      let '(r, self4, _) := fetch_decode self3 in (r, self4, evs)
  | (Raise e, self3, _) => (Raise e, self3, evs)
  end.
Proof.
  unfold fetch. io_unfold. unfold new_future, suspended, fetch_futures_get, register.
  cbn [fst snd app _fetch_futures with_fetch_futures with_futures].
  rewrite lookup_insert_eq. cbn [app].
  destruct (deliver w _) as [self2 evs].
  unfold wait_for_resume.
  destruct (futures self2 !! _) as [[| | |]|]; cbn; rewrite ?app_nil_r; try reflexivity.
  destruct (fetch_decode self2) as [[r self4] evs4] eqn:Hd.
  assert (evs4 = []) as ->.
  { revert Hd. unfold fetch_decode, resp_table_get, get_capacity. io_unfold.
    destruct (_resp_table self2 !! 2); [|intros [= <- <- <-]; reflexivity].
    destruct (capacity self2); [|intros [= <- <- <-]; reflexivity].
    destruct (Qeq_bool _ _); intros [= <- <- <-]; reflexivity. }
  rewrite !app_nil_r. reflexivity.
Qed.

(** A registered future that is done makes the router raise when the
    next frame of its tag arrives: [set_result] refuses it. *)
Lemma stale_request_breaks_router (buf : bytes) (self : JKBt) (b : byte) (fut : nat) :
  buf !! 4%nat = Some b ->
  _fetch_futures self !! byte_val b = Some fut ->
  futures self !! fut = Some Cancelled ->
  value_of (_decode_msg buf self) = Raise InvalidStateError.
Proof.
  intros Hb Htab Hfut. rewrite _decode_msg_eq, (py_index_lookup _ _ _ Hb).
  cbv zeta. rewrite Htab, Hfut. reflexivity.
Qed.

(** C4 (amended). When no frame of the awaited tag is handed to the
    router during a query that is sent (its opcode fits a byte and is no
    key of the table), the query fails with the timeout error and its
    future is cancelled, but the pending request is not removed: the table
    still maps the tag to that cancelled future, and so is not empty
    afterwards. *)
Theorem query_timeout_keeps_request
    (cmd resp : Z) (w1 w2 : list bytes) (self : JKBt) :
  references_allocated self ->
  _fetch_futures self !! cmd = None ->
  0 <= cmd < 256 ->
  no_frame_of resp (events_of (_q cmd resp w1 w2 self)) ->
  let after := state_of (_q cmd resp w1 w2 self) in
  value_of (_q cmd resp w1 w2 self) = Raise TimeoutError /\
  (exists fut, _fetch_futures after !! resp = Some fut /\
               futures after !! fut = Some Cancelled) /\
  _fetch_futures after ≠ ∅.
Proof.
  intros Hwf Hcmd Hrange. rewrite _q_eq.
  rewrite bool_decide_eq_false_2 by (rewrite Hcmd; apply is_Some_None).
  destruct (jk_command_in_range cmd Hrange) as [frame ->]. cbv zeta.
  pose proof (register_waits resp self Hwf) as Hw1.
  set (fut := fresh (dom (futures self))) in *.
  set (self1 := register resp self) in *.
  pose proof (deliver_waits w1 resp fut self1 Hw1) as Hd1.
  destruct (deliver w1 self1) as [self2 evs1]. cbn [fst snd] in Hd1.
  destruct (_fetch_futures self2 !! resp) as [waited|] eqn:Hwaited.
  - pose proof (deliver_waits w2 resp fut self2) as Hd2.
    destruct (deliver w2 self2) as [self3 evs2]. cbn [fst snd] in Hd2.
    unfold wait_for_resume.
    destruct (futures self3 !! waited) as [[| | |]|] eqn:Hst;
      unfold events_of, state_of, value_of; cbn [fst snd];
      intros Hno; unfold no_frame_of in Hno; cbn [decoded omap] in Hno;
      fold (decoded (evs1 ++ evs2)) in Hno; fold (no_frame_of resp (evs1 ++ evs2)) in Hno;
      apply no_frame_of_app in Hno as [Hno1 Hno2];
      specialize (Hd1 Hno1); specialize (Hd2 Hd1 Hno2);
      destruct Hd1 as (Ht1 & _ & _); destruct Hd2 as (Ht3 & Hp3 & _);
      rewrite Hwaited in Ht1; injection Ht1 as ->;
      rewrite Hp3 in Hst; try discriminate Hst.
    split; [reflexivity|]. cbn.
    split; [exists fut; split; [exact Ht3 | apply lookup_insert_eq]|].
    intros Hempty. rewrite Hempty, lookup_empty in Ht3. discriminate.
  - unfold events_of. cbn [fst snd]. intros Hno.
    unfold no_frame_of in Hno. cbn [decoded omap] in Hno.
    fold (decoded evs1) in Hno. fold (no_frame_of resp evs1) in Hno.
    destruct (Hd1 Hno) as (Ht & _). congruence.
Qed.

(** C4 (as stated) fails: a query on a fresh driver during which nothing
    arrives times out, and its pending request is still in the table. *)
Lemma timeout_leaves_request_in_table :
  no_frame_of 3 (events_of (_q 0x97 0x03 [] [] __init__)) /\
  value_of (_q 0x97 0x03 [] [] __init__) = Raise TimeoutError /\
  _fetch_futures (state_of (_q 0x97 0x03 [] [] __init__)) !! 3 = Some 0%nat /\
  ~ timeout_removes_request 0x97 0x03 [] [] __init__.
Proof.
  assert (Hno : no_frame_of 3 (events_of (_q 0x97 0x03 [] [] __init__)))
    by (vm_compute; constructor).
  split; [exact Hno|].
  split; [vm_compute; reflexivity|].
  split; [vm_compute; reflexivity|].
  intros H. destruct (H Hno) as (_ & Hnone & _).
  vm_compute in Hnone. discriminate Hnone.
Qed.

(** A query for tag 0x03 during which only a telemetry frame arrives. *)
Lemma query_timeout_keeps_request_witness :
  references_allocated __init__ /\
  no_frame_of 3 (events_of (_q 0x97 0x03 [] plain_fragments __init__)) /\
  value_of (_q 0x97 0x03 [] plain_fragments __init__) = Raise TimeoutError /\
  _fetch_futures (state_of (_q 0x97 0x03 [] plain_fragments __init__)) ≠ ∅.
Proof.
  assert (Hwf : references_allocated __init__).
  { intros tag fut H. unfold __init__ in H. cbn [_fetch_futures] in H.
    rewrite lookup_empty in H. discriminate H. }
  assert (Hno : no_frame_of 3 (events_of (_q 0x97 0x03 [] plain_fragments __init__))).
  { vm_compute. repeat constructor. discriminate. }
  split; [exact Hwf|]. split; [exact Hno|].
  destruct (query_timeout_keeps_request 0x97 0x03 [] plain_fragments __init__)
    as (Hv & _ & Hne).
  - exact Hwf.
  - reflexivity.
  - lia.
  - exact Hno.
  - split; [exact Hv | exact Hne].
Defined.

(** ** The guard of the pending-request table *)

(** The assertion of [_q] looks the opcode up, not the response tag. *)
Lemma q_guard_checks_opcode (cmd resp : Z) (w1 w2 : list bytes) (self : JKBt) :
  is_Some (_fetch_futures self !! cmd) ->
  _q cmd resp w1 w2 self = (Raise (AssertionError (AlreadyWaiting cmd)), self, []).
Proof.
  intros Hin. rewrite _q_eq. rewrite bool_decide_eq_true_2 by exact Hin.
  reflexivity.
Qed.

(** C3 (the code at the failing input). With a request outstanding for
    tag 0x03, a second query for tag 0x03 is not refused: it replaces the
    entry, receives the frame that arrives, and the first request's future
    is left pending, no longer in the table. The waiting fetch replaces an
    outstanding request for tag 0x02 in the same way. *)
Theorem second_request_not_refused :
  requests_outstanding query_waiting_state /\
  _fetch_futures query_waiting_state !! 3 = Some 0%nat /\
  value_of (_q 0x97 0x03 [] [info_frame] query_waiting_state) = Ok info_frame /\
  futures (state_of (_q 0x97 0x03 [] [info_frame] query_waiting_state)) !! 0%nat
    = Some Pending /\
  futures (state_of (_q 0x97 0x03 [] [info_frame] query_waiting_state)) !! 1%nat
    = Some (Finished info_frame) /\
  _fetch_futures waiting_state !! 2 = Some 0%nat /\
  value_of (fetch true [] waiting_state) = Raise TimeoutError /\
  _fetch_futures (state_of (fetch true [] waiting_state)) !! 2 = Some 1%nat /\
  futures (state_of (fetch true [] waiting_state)) !! 0%nat = Some Pending.
Proof.
  split.
  { intros tag fut H. unfold query_waiting_state in H. cbn [_fetch_futures] in H.
    apply lookup_singleton_Some in H as [<- <-]. reflexivity. }
  repeat split; vm_compute; reflexivity.
Qed.

(** ** Disconnecting *)

(** C2 (as stated) fails: with one request outstanding, [disconnect]
    leaves its future pending; no waiter is woken with a failure. *)
Lemma disconnect_leaves_waiter_pending :
  requests_outstanding waiting_state /\
  _fetch_futures waiting_state !! 2 = Some 0%nat /\
  futures (state_of (disconnect waiting_state)) !! 0%nat = Some Pending /\
  ~ disconnect_wakes_waiters waiting_state.
Proof.
  split.
  { intros tag fut H. unfold waiting_state in H. cbn [_fetch_futures] in H.
    apply lookup_singleton_Some in H as [<- <-]. reflexivity. }
  split; [reflexivity|]. split; [reflexivity|].
  intros H. destruct (H 2 0%nat eq_refl eq_refl) as [e He].
  vm_compute in He. discriminate He.
Qed.

(** C2 (amended). [disconnect] unsubscribes, empties the table of pending
    requests and releases the transport; it resolves no future: every
    future is as it was, so that a waiter whose request was outstanding
    stays suspended and ends with the timeout error of its own
    [wait_for]. *)
Theorem disconnect_clears_table (self : JKBt) :
  let after := state_of (disconnect self) in
  value_of (disconnect self) = Ok tt /\
  events_of (disconnect self) = [StopNotify; ClientDisconnect] /\
  _fetch_futures after = ∅ /\
  futures after = futures self /\
  (forall fut, futures self !! fut = Some Pending ->
     value_of (wait_for_resume fut after) = Raise TimeoutError).
Proof.
  cbv zeta. repeat split.
  intros fut Hfut. unfold wait_for_resume, disconnect. io_unfold.
  cbn. rewrite Hfut. reflexivity.
Qed.

(** Disconnecting with a request outstanding for tag 0x02. *)
Lemma disconnect_clears_table_witness :
  futures waiting_state !! 0%nat = Some Pending /\
  _fetch_futures (state_of (disconnect waiting_state)) = ∅ /\
  value_of (wait_for_resume 0 (state_of (disconnect waiting_state)))
    = Raise TimeoutError.
Proof.
  destruct (disconnect_clears_table waiting_state) as (_ & _ & Hempty & _ & Hwait).
  split; [reflexivity|]. split; [exact Hempty|].
  apply Hwait. reflexivity.
Defined.

(** ** The connect loop, unfolded *)

Lemma connect_retry_again (transport : nat -> attempt_outcome) (attempt : nat)
    (e : exn) (evs : list event) :
  try_connect (transport attempt) attempt = (Raise e, evs) ->
  is_exception e = true ->
  (attempt < 8)%nat ->
  connect_retry transport attempt =
  (fst (connect_retry transport (S attempt)),
   evs ++ [ClientDisconnect; Sleep (backoff attempt)]
       ++ snd (connect_retry transport (S attempt))).
Proof.
  intros H He Hlt. rewrite connect_retry_equation_1, H. cbn. rewrite He. cbn.
  destruct (lt_dec attempt 8) as [Hl|Hge]; [reflexivity | contradiction].
Qed.

Lemma connect_retry_give_up (transport : nat -> attempt_outcome) (attempt : nat)
    (e : exn) (evs : list event) :
  try_connect (transport attempt) attempt = (Raise e, evs) ->
  is_exception e = true ->
  (8 <= attempt)%nat ->
  connect_retry transport attempt = (Raise e, evs ++ [ClientDisconnect; ScannerStop]).
Proof.
  intros H He Hge. rewrite connect_retry_equation_1, H. cbn. rewrite He. cbn.
  destruct (lt_dec attempt 8) as [Hlt|Hn]; [lia | reflexivity].
Qed.

Lemma connect_retry_uncaught (transport : nat -> attempt_outcome) (attempt : nat)
    (e : exn) (evs : list event) :
  try_connect (transport attempt) attempt = (Raise e, evs) ->
  is_exception e = false ->
  connect_retry transport attempt = (Raise e, evs).
Proof.
  intros H He. rewrite connect_retry_equation_1, H. cbn. rewrite He. reflexivity.
Qed.

Lemma connect_retry_success (transport : nat -> attempt_outcome) (attempt : nat) :
  transport attempt = Connected ->
  connect_retry transport attempt = (Ok tt, [ConnectAttempt attempt]).
Proof.
  intros H. rewrite connect_retry_equation_1, H. reflexivity.
Qed.

(** ** The connect loop *)

Lemma retry_until_eight (transport : nat -> attempt_outcome) (n : nat) :
  forall attempt,
    (attempt + n = 8)%nat ->
    (forall k, (attempt <= k <= 8)%nat ->
       exists e, transport k = ConnectError e /\ is_exception e = true) ->
    exists last,
      transport 8%nat = ConnectError last /\
      connect_retry transport attempt =
      (Raise last,
       flat_map failed_attempt (seq attempt n)
       ++ [ConnectAttempt 8; ClientDisconnect; ScannerStop]).
Proof.
  induction n as [|n IH]; intros attempt Hsum Hfail.
  - assert (attempt = 8%nat) as -> by lia.
    destruct (Hfail 8%nat) as (e & He & Hcaught); [lia|].
    exists e. split; [exact He|].
    rewrite (connect_retry_give_up transport 8 e [ConnectAttempt 8]);
      [reflexivity | rewrite He; reflexivity | exact Hcaught | lia].
  - destruct (Hfail attempt) as (e & He & Hcaught); [lia|].
    destruct (IH (S attempt)) as (last & Hlast & Hrest).
    { lia. }
    { intros k Hk. apply Hfail. lia. }
    exists last. split; [exact Hlast|].
    rewrite (connect_retry_again transport attempt e [ConnectAttempt attempt]);
      [|rewrite He; reflexivity | exact Hcaught | lia].
    rewrite Hrest. cbn [fst snd seq flat_map failed_attempt app]. reflexivity.
Qed.

Lemma retry_delays_specified :
  Forall2 approximates retry_delays (map specified_delay (seq 1 7)).
Proof.
  repeat constructor; vm_compute; intros Hc; discriminate Hc.
Qed.

(** C6. When the transport fails every connect attempt with an error
    that [except Exception] catches, [connect] makes the attempts 1 to 8
    and no other. After each of the attempts 1 to 7 it disconnects and
    sleeps; the seven delays are the binary64 values 0x1.3333333333334p-2,
    0x1.ccccccccccccdp-2, 0x1.599999999999ap-1, 0x1.0333333333333p+0,
    0x1.84ccccccccccdp+0, 0x1.239999999999ap+1 and 0x1.b566666666667p+1,
    each within [1e-15] of [0.2 * 1.5 ^ attempt] seconds. After the eighth
    attempt it disconnects, stops discovery and raises the error of that
    attempt, with the driver object as it was. *)
Theorem connect_gives_up_after_eight
    (transport : nat -> attempt_outcome) (w1 w2 w3 w4 : list bytes) (self : JKBt) :
  (forall k, (1 <= k <= 8)%nat ->
     exists e, transport k = ConnectError e /\ is_exception e = true) ->
  exists last,
    transport 8%nat = ConnectError last /\
    connect_retry transport 1 =
      (Raise last,
       [ConnectAttempt 1; ClientDisconnect; Sleep 0x1.3333333333334p-2;
        ConnectAttempt 2; ClientDisconnect; Sleep 0x1.ccccccccccccdp-2;
        ConnectAttempt 3; ClientDisconnect; Sleep 0x1.599999999999ap-1;
        ConnectAttempt 4; ClientDisconnect; Sleep 0x1.0333333333333p+0;
        ConnectAttempt 5; ClientDisconnect; Sleep 0x1.84ccccccccccdp+0;
        ConnectAttempt 6; ClientDisconnect; Sleep 0x1.239999999999ap+1;
        ConnectAttempt 7; ClientDisconnect; Sleep 0x1.b566666666667p+1;
        ConnectAttempt 8; ClientDisconnect; ScannerStop]) /\
    connect transport w1 w2 w3 w4 self =
      (Raise last, self, ScannerStart :: snd (connect_retry transport 1)) /\
    attempts (snd (connect_retry transport 1)) = [1; 2; 3; 4; 5; 6; 7; 8]%nat /\
    Forall2 approximates (sleeps (snd (connect_retry transport 1)))
      [0.2 * 1.5 ^ 1; 0.2 * 1.5 ^ 2; 0.2 * 1.5 ^ 3; 0.2 * 1.5 ^ 4;
       0.2 * 1.5 ^ 5; 0.2 * 1.5 ^ 6; 0.2 * 1.5 ^ 7]%Q.
Proof.
  intros Hfail.
  destruct (retry_until_eight transport 7 1) as (last & Hlast & Hloop);
    [reflexivity | exact Hfail |].
  change (flat_map failed_attempt (seq 1 7)
          ++ [ConnectAttempt 8; ClientDisconnect; ScannerStop])
    with retry_trace in Hloop.
  exists last. split; [exact Hlast|]. split; [exact Hloop|].
  rewrite Hloop. cbn [snd].
  split; [|split; [reflexivity | exact retry_delays_specified]].
  unfold connect. io_unfold. unfold outside. rewrite Hloop. reflexivity.
Qed.

(** A transport that refuses every attempt. *)
Lemma connect_gives_up_after_eight_witness :
  connect_retry refusing_transport 1 = (Raise (TransportError 8), retry_trace) /\
  connect refusing_transport [] [] [] [] __init__
    = (Raise (TransportError 8), __init__, ScannerStart :: retry_trace) /\
  length (attempts (snd (connect_retry refusing_transport 1))) = 8%nat /\
  length (sleeps (snd (connect_retry refusing_transport 1))) = 7%nat.
Proof.
  destruct (connect_gives_up_after_eight refusing_transport [] [] [] [] __init__)
    as (last & Hlast & Hloop & Hconnect & Hattempts & Hsleeps).
  - intros k _. exists (TransportError k). split; reflexivity.
  - injection Hlast as <-.
    split; [exact Hloop|]. split; [rewrite Hconnect, Hloop; reflexivity|].
    rewrite Hattempts. split; [reflexivity|].
    rewrite Hloop. reflexivity.
Defined.

(** ** Little-endian fields *)

Lemma take_drop_nth (frame : bytes) (offset : nat) :
  (offset + 4 <= length frame)%nat ->
  take 4 (drop offset frame) =
  [nth offset frame x00; nth (offset + 1) frame x00;
   nth (offset + 2) frame x00; nth (offset + 3) frame x00].
Proof.
  revert frame. induction offset as [|offset IH]; intros frame Hlen.
  - destruct frame as [|a [|b [|c [|d rest]]]]; cbn [length] in Hlen; try lia.
    reflexivity.
  - destruct frame as [|a rest]; cbn [length] in Hlen; [lia|].
    cbn [drop Nat.add nth]. apply IH. lia.
Qed.

Lemma slice_u32 (frame : bytes) (offset : nat) :
  (offset + 4 <= length frame)%nat ->
  from_bytes_le (py_slice frame offset (offset + 4)) = u32_le frame offset.
Proof.
  intros Hlen. unfold py_slice.
  replace (offset + 4 - offset)%nat with 4%nat by lia.
  rewrite (take_drop_nth frame offset Hlen).
  unfold u32_le, byte_at. cbn [from_bytes_le]. lia.
Qed.

Lemma slice_u16 (frame : bytes) (offset : nat) :
  (offset + 4 <= length frame)%nat ->
  from_bytes_le (py_slice frame offset (offset + 2)) = u16_le frame offset.
Proof.
  intros Hlen. unfold py_slice.
  replace (offset + 2 - offset)%nat with 2%nat by lia.
  change 2%nat with (Nat.min 2 4) at 1. rewrite <- take_take.
  rewrite (take_drop_nth frame offset Hlen).
  unfold u16_le, byte_at. cbn [take from_bytes_le]. lia.
Qed.

Lemma u32_le_range (frame : bytes) (offset : nat) :
  0 <= u32_le frame offset < 4294967296.
Proof.
  unfold u32_le, byte_at.
  pose proof (byte_val_range (nth offset frame x00)).
  pose proof (byte_val_range (nth (offset + 1) frame x00)).
  pose proof (byte_val_range (nth (offset + 2) frame x00)).
  pose proof (byte_val_range (nth (offset + 3) frame x00)).
  lia.
Qed.

Lemma testbit_31 (u : Z) :
  0 <= u < 4294967296 -> Z.testbit u 31 = negb (u <? 2147483648).
Proof.
  intros Hu. pose proof (Z.testbit_spec' u 31 ltac:(lia)) as Hbit.
  change (2 ^ 31) with 2147483648 in Hbit.
  destruct (Z.ltb_spec u 2147483648) as [Hlt|Hge]; cbn [negb].
  - rewrite Z.div_small in Hbit by lia. rewrite Z.mod_0_l in Hbit by lia.
    destruct (Z.testbit u 31); [discriminate | reflexivity].
  - assert (Hq : u / 2147483648 = 1).
    { symmetry. apply (Z.div_unique u 2147483648 1 (u - 2147483648)); lia. }
    rewrite Hq in Hbit. destruct (Z.testbit u 31); [reflexivity | discriminate].
Qed.

Lemma slice_s32 (frame : bytes) (offset : nat) :
  (offset + 4 <= length frame)%nat ->
  from_bytes_le_signed (py_slice frame offset (offset + 4)) = s32_le frame offset.
Proof.
  intros Hlen. unfold from_bytes_le_signed. rewrite (slice_u32 frame offset Hlen).
  unfold py_slice. rewrite length_take, length_drop.
  replace (Nat.min (offset + 4 - offset) (length frame - offset)) with 4%nat by lia.
  change (8 * Z.of_nat 4 - 1) with 31. change (2 ^ (8 * Z.of_nat 4)) with 4294967296.
  rewrite (testbit_31 _ (u32_le_range frame offset)). unfold s32_le.
  destruct (u32_le frame offset <? 2147483648); reflexivity.
Qed.

(** ** Telemetry decoder *)

Lemma fetch_decode_eq (buf : bytes) (cap : Q) (self : JKBt) :
  _resp_table self !! 2 = Some buf ->
  (154 <= length buf)%nat ->
  capacity self = Some cap ->
  fetch_decode self =
  if Qeq_bool (inject_Z (u32_le buf 146) * 0.001) cap
  then (Ok (fetched_sample buf cap), self, [])
  else (Raise (AssertionError
                 (CapacityMismatch (inject_Z (u32_le buf 146) * 0.001) cap)),
        self, []).
Proof.
  intros Hbuf Hlen Hcap. unfold fetch_decode, resp_table_get, get_capacity.
  io_unfold. rewrite Hbuf, Hcap. cbv beta zeta.
  rewrite !slice_u32, !slice_u16, !slice_s32 by lia.
  destruct (Qeq_bool _ _); reflexivity.
Qed.

Lemma fetch_nowait_eq (self : JKBt) :
  fetch false [] self = fetch_decode self.
Proof.
  unfold fetch. io_unfold.
  destruct (fetch_decode self) as [[[s|e] self1] evs]; reflexivity.
Qed.

(** C5 (the code at the failing input). On the telemetry frame
    [cold_frame], whose full-charge field matches the capacity, [fetch]
    returns 6553.5 degrees and 0 cycles where the specified decodes are
    -0.1 degrees (signed two bytes at 130, divided by 10) and 65536 cycles
    (unsigned four bytes at 150). *)
Theorem fetch_reads_two_unsigned_bytes :
  valid_frame cold_frame /\
  (inject_Z (u32_le cold_frame 146) * 0.001 == 100)%Q /\
  fetch false [] cold_state = (Ok (fetched_sample cold_frame 100), cold_state, []) /\
  temperatures (fetched_sample cold_frame 100) = [65535 # 10; 0 # 10]%Q /\
  temperatures (specified_sample cold_frame 100) = [(-1) # 10; 0 # 10]%Q /\
  num_cycles (fetched_sample cold_frame 100) = 0 /\
  num_cycles (specified_sample cold_frame 100) = 65536.
Proof.
  split; [repeat split; vm_compute; reflexivity|].
  split; [vm_compute; reflexivity|].
  split.
  { rewrite fetch_nowait_eq.
    rewrite (fetch_decode_eq cold_frame 100 cold_state);
      [reflexivity | reflexivity | vm_compute; lia | reflexivity]. }
  repeat split; vm_compute; reflexivity.
Qed.

(** Where no two-byte field has its top bit set and the cycle count fits
    in two bytes, [fetch] builds the specified sample. *)
Lemma fetched_sample_agrees (frame : bytes) (cap : Q) :
  u16_le frame 130 < 32768 -> u16_le frame 132 < 32768 ->
  u16_le frame 134 < 32768 -> u16_le frame 138 < 32768 ->
  u32_le frame 150 < 65536 ->
  fetched_sample frame cap = specified_sample frame cap.
Proof.
  intros H130 H132 H134 H138 H150.
  unfold fetched_sample, specified_sample, s16_le.
  rewrite !(proj2 (Z.ltb_lt _ _)) by assumption.
  assert (u16_le frame 150 = u32_le frame 150) as ->; [|reflexivity].
  unfold u32_le, u16_le, byte_at in *.
  pose proof (byte_val_range (nth 150 frame x00)).
  pose proof (byte_val_range (nth (150 + 1) frame x00)).
  pose proof (byte_val_range (nth (150 + 2) frame x00)).
  pose proof (byte_val_range (nth (150 + 3) frame x00)).
  lia.
Qed.

(** ** Device Identity *)

Lemma connect_identity_eq (buf : bytes) (self : JKBt) :
  _resp_table self !! 1 = Some buf ->
  (MIN_RESPONSE_SIZE <= length buf)%nat ->
  connect_identity self =
  if (0 <? byte_at buf 114) && (byte_at buf 114 <=? 48)
  then (Ok tt,
        with_capacity (inject_Z (u32_le buf 130) * 0.001)
          (with_num_cells (byte_at buf 114) self), [])
  else (Raise (AssertionError (NumCellsUnexpected (byte_at buf 114))),
        with_num_cells (byte_at buf 114) self, []).
Proof.
  intros Hbuf Hlen. unfold MIN_RESPONSE_SIZE in Hlen.
  unfold connect_identity, resp_table_get. io_unfold. rewrite Hbuf.
  destruct (py_index_in_range buf 114) as (b & Hb & ->); [lia|].
  assert (byte_val b = byte_at buf 114) as ->.
  { unfold byte_at. rewrite (nth_lookup_Some _ _ _ _ Hb). reflexivity. }
  change (py_slice buf 130 134) with (py_slice buf 130 (130 + 4)).
  rewrite slice_u32 by lia.
  destruct ((0 <? byte_at buf 114) && (byte_at buf 114 <=? 48)); reflexivity.
Qed.

(** [connect] is its queries followed by the derivation of Device
    Identity. *)
Lemma bind_then {A : Type} (m : io A) (k1 k2 : A -> io unit) (fin : io unit)
    (self : JKBt) :
  (forall a s, value_of (k1 a s) = Ok tt ->
     value_of (k2 a s) = value_of (fin (state_of (k1 a s))) /\
     state_of (k2 a s) = state_of (fin (state_of (k1 a s)))) ->
  value_of ((m ≫= k1) self) = Ok tt ->
  value_of ((m ≫= k2) self) = value_of (fin (state_of ((m ≫= k1) self))) /\
  state_of ((m ≫= k2) self) = state_of (fin (state_of ((m ≫= k1) self))).
Proof.
  intros Hk. unfold mbind, io_bind, value_of, state_of.
  destruct (m self) as [[[a|e] s1] evs1]; cbn [fst snd]; [|discriminate].
  specialize (Hk a s1). unfold value_of, state_of in Hk.
  destruct (k1 a s1) as [[r1 s2] evs2]; destruct (k2 a s1) as [[r2 s3] evs3].
  cbn [fst snd] in *. exact Hk.
Qed.

Lemma connect_after_queries (transport : nat -> attempt_outcome)
    (w1 w2 w3 w4 : list bytes) (self : JKBt) :
  value_of (connect_queries transport w1 w2 w3 w4 self) = Ok tt ->
  value_of (connect transport w1 w2 w3 w4 self) =
    value_of (connect_identity (state_of (connect_queries transport w1 w2 w3 w4 self))) /\
  state_of (connect transport w1 w2 w3 w4 self) =
    state_of (connect_identity (state_of (connect_queries transport w1 w2 w3 w4 self))).
Proof.
  unfold connect, connect_queries.
  do 6 (apply bind_then; intros ? ?).
  intros _. split; reflexivity.
Qed.

(** C7. When the part of [connect] before it has returned, the two
    bootstrap queries included, and a device-info frame is then stored
    under tag 0x01, [connect] takes the cell count from the byte at offset
    114 of that frame and the rated capacity from the unsigned four bytes
    at offset 130, times 0.001. [connect] fails, with the assertion on the
    cell count, exactly when that count is 0 or greater than 48, and
    leaves the capacity as it was; otherwise it returns with both values
    assigned. *)
Theorem device_identity_from_info_frame
    (transport : nat -> attempt_outcome) (w1 w2 w3 w4 : list bytes)
    (self : JKBt) (buf : bytes) :
  let queried := connect_queries transport w1 w2 w3 w4 self in
  let out := connect transport w1 w2 w3 w4 self in
  value_of queried = Ok tt ->
  _resp_table (state_of queried) !! 1 = Some buf ->
  (MIN_RESPONSE_SIZE <= length buf)%nat ->
  let cells := byte_at buf 114 in
  let rated := (inject_Z (u32_le buf 130) * 0.001)%Q in
  num_cells (state_of out) = Some cells /\
  ((exists e, value_of out = Raise e) <-> cells = 0 \/ 48 < cells) /\
  (cells = 0 \/ 48 < cells ->
     value_of out = Raise (AssertionError (NumCellsUnexpected cells)) /\
     capacity (state_of out) = capacity (state_of queried)) /\
  (0 < cells <= 48 ->
     value_of out = Ok tt /\
     capacity (state_of out) = Some rated) /\
  _resp_table (state_of out) !! 1 = Some buf.
Proof.
  intros queried out Hqueried Hbuf Hlen cells rated.
  destruct (connect_after_queries transport w1 w2 w3 w4 self Hqueried) as [Hv Hs].
  fold queried in Hv, Hs. fold out in Hv, Hs. rewrite Hv, Hs.
  rewrite (connect_identity_eq buf (state_of queried) Hbuf Hlen).
  fold cells. fold rated.
  destruct (Z.ltb_spec 0 cells) as [Hpos|Hzero];
    destruct (Z.leb_spec cells 48) as [Hle|Hgt]; cbn [andb];
    rewrite !(io_state (A := unit)), !(io_value (A := unit)).
  - split; [reflexivity|].
    split; [split; [intros [e He]; discriminate He | lia]|].
    split; [lia|]. split; [intros _; split; reflexivity | exact Hbuf].
  - split; [reflexivity|].
    split; [split; [right; lia | intros _; eexists; reflexivity]|].
    split; [intros _; split; reflexivity|]. split; [lia | exact Hbuf].
  - split; [reflexivity|].
    split; [split; [left | intros _; eexists; reflexivity]|].
    + pose proof (byte_val_range (nth 114 buf x00)). unfold cells, byte_at in *. lia.
    + split; [intros _; split; reflexivity|]. split; [lia | exact Hbuf].
  - lia.
Qed.

(** The transport accepts at once; a device-info frame of 16 cells and
    100 Ah arrives before the answer to the first query. *)
Lemma device_identity_from_info_frame_witness :
  value_of (connect_queries willing_transport [] [identity_frame; info_frame] []
              [plain_frame] __init__) = Ok tt /\
  byte_at identity_frame 114 = 16 /\
  value_of (connect willing_transport [] [identity_frame; info_frame] []
              [plain_frame] __init__) = Ok tt /\
  num_cells (state_of (connect willing_transport [] [identity_frame; info_frame] []
                         [plain_frame] __init__)) = Some 16 /\
  capacity (state_of (connect willing_transport [] [identity_frame; info_frame] []
                        [plain_frame] __init__))
    = Some (inject_Z 100000 * 0.001)%Q.
Proof.
  assert (Hqueried :
    value_of (connect_queries willing_transport [] [identity_frame; info_frame] []
                [plain_frame] __init__) = Ok tt) by (vm_compute; reflexivity).
  destruct (device_identity_from_info_frame willing_transport
              [] [identity_frame; info_frame] [] [plain_frame] __init__ identity_frame)
    as (Hcells & _ & _ & Hok & _).
  - exact Hqueried.
  - vm_compute. reflexivity.
  - vm_compute. lia.
  - split; [exact Hqueried|]. split; [vm_compute; reflexivity|].
    destruct Hok as (Hvalue & Hcap); [vm_compute; split; [reflexivity | discriminate]|].
    split; [exact Hvalue|]. split; [exact Hcells | exact Hcap].
Defined.

(** ** The capacity check *)

Lemma decode_msg_keeps_identity (buf : bytes) (self : JKBt) :
  capacity (state_of (_decode_msg buf self)) = capacity self /\
  num_cells (state_of (_decode_msg buf self)) = num_cells self.
Proof.
  rewrite _decode_msg_eq. destruct (py_index buf 4); [|split; reflexivity].
  cbv zeta. destruct (_fetch_futures self !! _); [|split; reflexivity].
  destruct (futures self !! _) as [[| | |]|]; split; reflexivity.
Qed.

(** C8. When the full-charge field of the stored telemetry frame
    (unsigned four bytes at offset 146, times 0.001) differs from the
    capacity of Device Identity, the decoding of [fetch] fails with the
    capacity assertion and changes nothing: the driver, its store of last
    known frames and its Device Identity are as before, and once the
    router has stored a frame whose field matches, [fetch] returns its
    sample. *)
Theorem capacity_mismatch_is_recoverable (buf : bytes) (cap : Q) (self : JKBt) :
  _resp_table self !! 2 = Some buf ->
  (MIN_RESPONSE_SIZE <= length buf)%nat ->
  capacity self = Some cap ->
  ~ (inject_Z (u32_le buf 146) * 0.001 == cap)%Q ->
  fetch_decode self =
    (Raise (AssertionError
              (CapacityMismatch (inject_Z (u32_le buf 146) * 0.001) cap)),
     self, []) /\
  fetch false [] self = fetch_decode self /\
  (forall frame,
     (MIN_RESPONSE_SIZE <= length frame)%nat ->
     frame_tag frame = 2 ->
     (inject_Z (u32_le frame 146) * 0.001 == cap)%Q ->
     let later := state_of (_decode_msg frame (state_of (fetch false [] self))) in
     _resp_table later !! 2 = Some frame /\
     capacity later = Some cap /\
     fetch false [] later = (Ok (fetched_sample frame cap), later, []) /\
     charge_full (fetched_sample frame cap) = cap).
Proof.
  intros Hbuf Hlen Hcap Hne. unfold MIN_RESPONSE_SIZE in *.
  assert (Hdecode : fetch_decode self =
    (Raise (AssertionError
              (CapacityMismatch (inject_Z (u32_le buf 146) * 0.001) cap)),
     self, [])).
  { rewrite (fetch_decode_eq buf cap self Hbuf) by (assumption || lia).
    destruct (Qeq_bool _ cap) eqn:Heq; [|reflexivity].
    apply Qeq_bool_iff in Heq. contradiction. }
  assert (Hfail : fetch false [] self =
    (Raise (AssertionError
              (CapacityMismatch (inject_Z (u32_le buf 146) * 0.001) cap)),
     self, [])) by (rewrite fetch_nowait_eq; exact Hdecode).
  split; [exact Hdecode|]. split; [apply fetch_nowait_eq|].
  assert (Hsame : state_of (fetch false [] self) = self)
    by (rewrite Hfail; reflexivity).
  intros frame Hflen Htag Hmatch. cbv zeta. rewrite Hsame.
  set (later := state_of (_decode_msg frame self)).
  destruct (py_index_in_range frame 4) as (b & Hb & _); [lia|].
  assert (Hb2 : byte_val b = 2).
  { unfold frame_tag in Htag. rewrite Hb in Htag. exact Htag. }
  pose proof (decode_msg_stores frame self b Hb) as Hstore.
  rewrite Hb2 in Hstore. fold later in Hstore.
  destruct (decode_msg_keeps_identity frame self) as [Hkeep _].
  fold later in Hkeep. rewrite Hcap in Hkeep.
  split; [exact Hstore|]. split; [exact Hkeep|]. split; [|reflexivity].
  rewrite fetch_nowait_eq, (fetch_decode_eq frame cap later Hstore) by (assumption || lia).
  apply Qeq_bool_iff in Hmatch. rewrite Hmatch. reflexivity.
Qed.

(** A 99.5 Ah frame on a 100 Ah pack, then a frame that matches. *)
Lemma capacity_mismatch_is_recoverable_witness :
  _resp_table mismatch_state !! 2 = Some mismatch_frame /\
  ~ (inject_Z (u32_le mismatch_frame 146) * 0.001 == 100)%Q /\
  value_of (fetch false [] mismatch_state)
    = Raise (AssertionError
               (CapacityMismatch (inject_Z (u32_le mismatch_frame 146) * 0.001) 100)) /\
  state_of (fetch false [] mismatch_state) = mismatch_state /\
  value_of (fetch false []
              (state_of (_decode_msg cold_frame
                           (state_of (fetch false [] mismatch_state)))))
    = Ok (fetched_sample cold_frame 100).
Proof.
  assert (Hne : ~ (inject_Z (u32_le mismatch_frame 146) * 0.001 == 100)%Q).
  { intros H. vm_compute in H. discriminate H. }
  destruct (capacity_mismatch_is_recoverable mismatch_frame 100 mismatch_state)
    as (Hdecode & Hsame & Hlater).
  - reflexivity.
  - vm_compute. lia.
  - reflexivity.
  - exact Hne.
  - assert (Hfail := Hsame). rewrite Hdecode in Hfail.
    split; [reflexivity|]. split; [exact Hne|].
    rewrite Hfail. split; [reflexivity|]. split; [reflexivity|].
    destruct (Hlater cold_frame) as (_ & _ & Hok & _).
    + vm_compute. lia.
    + vm_compute. reflexivity.
    + vm_compute. reflexivity.
    + rewrite Hfail in Hok. rewrite Hok. reflexivity.
Defined.

(** ** Invariants of the driver *)

Lemma init_invariants :
  references_allocated __init__ /\ frames_sized __init__ /\
  requests_outstanding __init__.
Proof.
  repeat split; intros tag x H; unfold __init__ in H; cbn in H;
    rewrite lookup_empty in H; discriminate H.
Qed.

Lemma decode_msg_invariants (buf : bytes) (self : JKBt) :
  (MIN_RESPONSE_SIZE <= length buf)%nat ->
  references_allocated self -> frames_sized self ->
  references_allocated (state_of (_decode_msg buf self)) /\
  frames_sized (state_of (_decode_msg buf self)).
Proof.
  intros Hlen Hrefs Hsized. rewrite _decode_msg_eq.
  destruct (py_index buf 4) as [b|]; [|split; assumption]. cbv zeta.
  assert (Hsized' : forall s, _resp_table s = <[byte_val b := buf]> (_resp_table self) ->
                              frames_sized s).
  { intros s Hs tag x Hx. rewrite Hs, lookup_insert in Hx.
    case_decide; [injection Hx as <-; exact Hlen | exact (Hsized _ _ Hx)]. }
  assert (Hdel : forall tag fut,
            delete (byte_val b) (_fetch_futures self) !! tag = Some fut ->
            is_Some (futures self !! fut)).
  { intros tag fut Hx. rewrite lookup_delete in Hx.
    case_decide; [discriminate | exact (Hrefs _ _ Hx)]. }
  destruct (_fetch_futures self !! byte_val b) as [fut'|];
    [|split; [exact Hrefs | apply Hsized'; reflexivity]].
  destruct (futures self !! fut') as [[| | |]|] eqn:Hst;
    (split; [|apply Hsized'; reflexivity]);
    intros tag fut Hx; cbn in *; try exact (Hdel _ _ Hx).
  rewrite lookup_insert. case_decide; [eexists; reflexivity | exact (Hdel _ _ Hx)].
Qed.

(** The handler keeps the references of the table allocated and stores
    frames of at least 300 bytes only. *)
Lemma handler_invariants (data : bytes) (self : JKBt) :
  references_allocated self -> frames_sized self ->
  references_allocated (state_of (_notification_handler data self)) /\
  frames_sized (state_of (_notification_handler data self)).
Proof.
  intros Hrefs Hsized. rewrite _notification_handler_eq. cbv zeta.
  set (buf := received data self).
  destruct (decide _) as [Hge|_]; [|split; assumption].
  destruct (py_index buf _) as [c|e]; [|split; assumption].
  case_bool_decide; [split; assumption|].
  pose proof (decode_msg_invariants buf (with_buffer buf self) Hge Hrefs Hsized) as Hinv.
  destruct (_decode_msg buf (with_buffer buf self)) as [[[[]|e] self2] evs];
    exact Hinv.
Qed.

Lemma deliver_invariants (fragments : list bytes) :
  forall self,
    references_allocated self -> frames_sized self ->
    references_allocated (fst (deliver fragments self)) /\
    frames_sized (fst (deliver fragments self)).
Proof.
  induction fragments as [|f rest IH]; intros self Hrefs Hsized; cbn [deliver].
  - split; assumption.
  - destruct (handler_invariants f self Hrefs Hsized) as [Hr Hs].
    destruct (_notification_handler f self) as [[r self1] evs1].
    unfold state_of in Hr, Hs. cbn in Hr, Hs.
    specialize (IH self1 Hr Hs).
    destruct (deliver rest self1) as [self2 evs2]. exact IH.
Qed.

Lemma register_invariants (tag : Z) (self : JKBt) :
  references_allocated self -> references_allocated (register tag self).
Proof.
  intros Hrefs key fut Hx. unfold register in *. cbn in *.
  rewrite lookup_insert in Hx. rewrite lookup_insert.
  case_decide as Hk; [injection Hx as <-; rewrite decide_True by reflexivity; eexists; reflexivity|].
  case_decide; [eexists; reflexivity | exact (Hrefs _ _ Hx)].
Qed.

(** * Further properties of the module *)

(** ** Command frames *)

Lemma py_byte_val (z : Z) (b : byte) : py_byte z = Ok b -> byte_val b = z.
Proof.
  unfold py_byte, byte_val. intros H.
  destruct z as [|p|p]; try discriminate H;
    (destruct (Byte.of_N _) as [b'|] eqn:Hb; [|discriminate H]);
    injection H as <-; apply Byte.to_of_N in Hb; rewrite Hb; reflexivity.
Qed.

Lemma py_byte_out_of_range (z : Z) :
  z < 0 \/ 255 < z -> py_byte z = Raise ValueError.
Proof.
  intros Hz. unfold py_byte. destruct z as [|p|p]; [lia| |reflexivity].
  destruct (Byte.of_N (Z.to_N (Z.pos p))) as [b|] eqn:Hb; [|reflexivity].
  apply Byte.to_of_N in Hb. pose proof (Byte.to_N_bounded b). lia.
Qed.

Lemma py_byte_raises (z : Z) (e : exn) : py_byte z = Raise e -> e = ValueError.
Proof.
  unfold py_byte. destruct z; try destruct (Byte.of_N _); congruence.
Qed.

Lemma byte_val_inj (a b : byte) : byte_val a = byte_val b -> a = b.
Proof.
  unfold byte_val. intros H. apply N2Z.inj in H.
  pose proof (Byte.of_to_N a) as Ha. rewrite H, Byte.of_to_N in Ha.
  congruence.
Qed.

(** [_jk_command] on a value of at least four bytes and an address and a
    length in [range(256)] returns a frame of 20 bytes: AA 55 90 EB, the
    address, the length, the first four bytes of the value, nine zero
    bytes, and the checksum of these 19 bytes. *)
Theorem jk_command_layout
    (address length_ : Z) (v0 v1 v2 v3 : byte) (more : bytes) :
  0 <= address < 256 ->
  0 <= length_ < 256 ->
  exists frame,
    _jk_command address (v0 :: v1 :: v2 :: v3 :: more) length_ = Ok frame /\
    map byte_val frame =
      [0xAA; 0x55; 0x90; 0xEB; address; length_;
       byte_val v0; byte_val v1; byte_val v2; byte_val v3]
      ++ replicate 9 0 ++ [calc_crc (take 19 frame)].
Proof.
  intros Ha Hn. unfold _jk_command.
  change (py_index (v0 :: v1 :: v2 :: v3 :: more) 0) with (Ok v0).
  change (py_index (v0 :: v1 :: v2 :: v3 :: more) 1) with (Ok v1).
  change (py_index (v0 :: v1 :: v2 :: v3 :: more) 2) with (Ok v2).
  change (py_index (v0 :: v1 :: v2 :: v3 :: more) 3) with (Ok v3).
  destruct (py_byte_in_range address Ha) as [a Hbyte_a].
  destruct (py_byte_in_range length_ Hn) as [n Hbyte_n].
  rewrite Hbyte_a, Hbyte_n. unfold mbind, result_bind.
  match goal with |- context [py_byte (calc_crc ?f)] =>
    destruct (py_byte_in_range (calc_crc f) (calc_crc_range f)) as [c Hbyte_c];
    rewrite Hbyte_c end.
  eexists. split; [reflexivity|].
  apply py_byte_val in Hbyte_a, Hbyte_n, Hbyte_c.
  cbn [app replicate map take]. rewrite Hbyte_a, Hbyte_n, Hbyte_c.
  reflexivity.
Qed.

(** The command of the device-info query. *)
Lemma jk_command_layout_witness :
  exists frame,
    _jk_command 0x97 [x00; x00; x00; x00] 0 = Ok frame /\
    map byte_val frame =
      [0xAA; 0x55; 0x90; 0xEB; 0x97; 0; 0; 0; 0; 0]
      ++ replicate 9 0 ++ [calc_crc (take 19 frame)].
Proof.
  apply (jk_command_layout 0x97 0 x00 x00 x00 x00 []); lia.
Defined.

(** [_jk_command] raises [IndexError] on a value of fewer than four bytes,
    whatever the address and the length, and [ValueError] on an address or
    a length outside [range(256)] when the value has four bytes. *)
Theorem jk_command_errors (address length_ : Z) (value : bytes) :
  ((length value < 4)%nat ->
     _jk_command address value length_ = Raise IndexError) /\
  ((4 <= length value)%nat ->
     (address < 0 \/ 255 < address) \/ (length_ < 0 \/ 255 < length_) ->
     _jk_command address value length_ = Raise ValueError).
Proof.
  split.
  - intros Hshort. unfold _jk_command, py_index.
    destruct value as [|v0 [|v1 [|v2 [|v3 more]]]]; cbn [length] in Hshort;
      try reflexivity. lia.
  - intros Hlong Hbad. unfold _jk_command.
    destruct value as [|v0 [|v1 [|v2 [|v3 more]]]]; cbn [length] in Hlong; try lia.
    change (py_index (v0 :: v1 :: v2 :: v3 :: more) 0) with (Ok v0).
    change (py_index (v0 :: v1 :: v2 :: v3 :: more) 1) with (Ok v1).
    change (py_index (v0 :: v1 :: v2 :: v3 :: more) 2) with (Ok v2).
    change (py_index (v0 :: v1 :: v2 :: v3 :: more) 3) with (Ok v3).
    unfold mbind, result_bind.
    destruct Hbad as [Hbad|Hbad].
    + rewrite (py_byte_out_of_range address Hbad). reflexivity.
    + rewrite (py_byte_out_of_range length_ Hbad).
      destruct (py_byte address) as [a|e] eqn:Haddr; [reflexivity|].
      rewrite (py_byte_raises _ _ Haddr). reflexivity.
Qed.

(** A value of three bytes, and the address 256. *)
Lemma jk_command_errors_witness :
  _jk_command 0x97 [x00; x00; x00] 0 = Raise IndexError /\
  _jk_command 256 [x00; x00; x00; x00] 0 = Raise ValueError.
Proof.
  destruct (jk_command_errors 0x97 0 [x00; x00; x00]) as [Hindex _].
  destruct (jk_command_errors 256 0 [x00; x00; x00; x00]) as [_ Hvalue].
  split.
  - apply Hindex. simpl. lia.
  - apply Hvalue; [simpl; lia | left; right; lia].
Defined.

(** ** The checksum *)

Lemma byte_sum_app (a b : bytes) : byte_sum (a ++ b) = byte_sum a + byte_sum b.
Proof. induction a as [|x a IH]; cbn [app byte_sum]; lia. Qed.

(** The checksum of a concatenation is the sum of the checksums, modulo
    256: a checksum can be computed piece by piece. *)
Theorem calc_crc_app (a b : bytes) :
  calc_crc (a ++ b) = (calc_crc a + calc_crc b) mod 256.
Proof.
  rewrite !calc_crc_mod, byte_sum_app. apply Z.add_mod. lia.
Qed.

(** ** Corrupted frames *)

Lemma byte_sum_insert (l : bytes) (i : nat) (b b' : byte) :
  l !! i = Some b ->
  byte_sum (<[i := b']> l) = byte_sum l - byte_val b + byte_val b'.
Proof.
  revert i. induction l as [|x l IH]; intros i Hi; [discriminate Hi|].
  destruct i as [|i].
  - cbn in *. injection Hi as ->. lia.
  - change (<[S i := b']> (x :: l)) with (x :: <[i := b']> l).
    cbn [byte_sum]. rewrite (IH i Hi). lia.
Qed.

Lemma check_crc_false (buf : bytes) (c : byte) :
  buf !! (MIN_RESPONSE_SIZE - 1)%nat = Some c ->
  check_crc buf = false ->
  calc_crc (py_slice buf 0 (MIN_RESPONSE_SIZE - 1)) ≠ byte_val c.
Proof.
  unfold check_crc. intros ->. apply bool_decide_eq_false_1.
Qed.

Lemma corrupt_byte_breaks_crc (frame : bytes) (i : nat) (b b' : byte) :
  length frame = MIN_RESPONSE_SIZE ->
  check_crc frame = true ->
  frame !! i = Some b ->
  b' ≠ b ->
  check_crc (<[i := b']> frame) = false.
Proof.
  intros Hlen Hcrc Hi Hne. unfold check_crc, py_slice, MIN_RESPONSE_SIZE in *.
  change (300 - 1 - 0)%nat with 299%nat in *. change (300 - 1)%nat with 299%nat in *.
  rewrite !drop_0 in *.
  destruct (frame !! 299%nat) as [c|] eqn:Hc; [|discriminate Hcrc].
  apply bool_decide_eq_true in Hcrc.
  pose proof (lookup_lt_Some _ _ _ Hi) as Hlt.
  pose proof (byte_val_range b) as Hb. pose proof (byte_val_range b') as Hb'.
  assert (Hval : byte_val b' ≠ byte_val b) by (intros H; apply Hne, byte_val_inj, H).
  destruct (decide (i = 299%nat)) as [->|Hi299].
  - rewrite list_lookup_insert_eq by lia. rewrite take_insert_ge by lia.
    apply bool_decide_eq_false_2. rewrite Hcrc.
    rewrite Hc in Hi. injection Hi as ->. congruence.
  - rewrite list_lookup_insert_ne by congruence. rewrite Hc.
    apply bool_decide_eq_false_2.
    rewrite take_insert_lt by lia.
    rewrite calc_crc_mod in *.
    rewrite (byte_sum_insert _ i b b') by (rewrite lookup_take_lt by lia; exact Hi).
    intros Heq. rewrite <- Hcrc in Heq.
    set (s := byte_sum (take 299 frame)) in *.
    assert (Hdiv : (byte_val b' - byte_val b) mod 256 = 0).
    { replace (byte_val b' - byte_val b) with ((s - byte_val b + byte_val b') - s) by lia.
      rewrite Zminus_mod, Heq, Z.sub_diag. reflexivity. }
    apply Z.mod_divide in Hdiv; [|lia]. destruct Hdiv as [k Hk]. lia.
Qed.

(** One wrong byte in a frame whose checksum was right, at any of its 300
    positions, is detected: delivered to a handler with an empty buffer,
    the frame is reported as a checksum failure, no frame is handed to the
    router, and the driver is left as it was. *)
Theorem corrupted_frame_is_dropped
    (frame : bytes) (i : nat) (b b' : byte) (self : JKBt) :
  length frame = MIN_RESPONSE_SIZE ->
  check_crc frame = true ->
  frame !! i = Some b ->
  b' ≠ b ->
  _buffer self = [] ->
  check_crc (<[i := b']> frame) = false /\
  exists crc_comp crc_expected,
    crc_comp ≠ crc_expected /\
    _notification_handler (<[i := b']> frame) self =
      (Ok tt, self, [CrcCheckFailed crc_comp crc_expected (<[i := b']> frame)]).
Proof.
  intros Hlen Hcrc Hi Hne Hbuf.
  pose proof (corrupt_byte_breaks_crc frame i b b' Hlen Hcrc Hi Hne) as Hbad.
  split; [exact Hbad|].
  set (data := <[i := b']> frame) in *.
  assert (Hdlen : length data = MIN_RESPONSE_SIZE)
    by (unfold data; rewrite length_insert; exact Hlen).
  assert (Hrec : received data self = data).
  { rewrite received_append by (left; exact Hbuf). rewrite Hbuf. reflexivity. }
  destruct (py_index_in_range data (MIN_RESPONSE_SIZE - 1)) as (c & Hc & Hidx);
    [rewrite Hdlen; unfold MIN_RESPONSE_SIZE; lia|].
  pose proof (check_crc_false data c Hc Hbad) as Hmis.
  exists (calc_crc (py_slice data 0 (MIN_RESPONSE_SIZE - 1))), (byte_val c).
  split; [exact Hmis|].
  rewrite _notification_handler_eq. cbv zeta. rewrite Hrec.
  destruct (decide _) as [_|Hlt]; [|lia].
  rewrite Hidx. rewrite bool_decide_eq_true_2 by exact Hmis.
  clear Hrec. destruct self as [buf0 table store cells cap heap].
  cbn in Hbuf. subst buf0. reflexivity.
Qed.

(** The tag of [plain_frame] changed from 02 to 03 without a new trailer. *)
Lemma corrupted_frame_is_dropped_witness :
  check_crc (<[4%nat := Byte.x03]> plain_frame) = false /\
  decoded (events_of (_notification_handler (<[4%nat := Byte.x03]> plain_frame) __init__))
    = [] /\
  state_of (_notification_handler (<[4%nat := Byte.x03]> plain_frame) __init__)
    = __init__.
Proof.
  destruct (corrupted_frame_is_dropped plain_frame 4 Byte.x02 Byte.x03 __init__)
    as (Hbad & comp & expd & _ & Hrun).
  - vm_compute. reflexivity.
  - vm_compute. reflexivity.
  - vm_compute. reflexivity.
  - discriminate.
  - reflexivity.
  - split; [exact Hbad|]. rewrite Hrun. split; reflexivity.
Defined.

(** ** What the handler hands over and keeps *)

Lemma check_crc_true (buf : bytes) (c : byte) :
  buf !! (MIN_RESPONSE_SIZE - 1)%nat = Some c ->
  calc_crc (py_slice buf 0 (MIN_RESPONSE_SIZE - 1)) = byte_val c ->
  check_crc buf = true.
Proof.
  unfold check_crc. intros -> Heq. apply bool_decide_eq_true_2, Heq.
Qed.

Lemma py_index_ok (l : bytes) (i : nat) (b : byte) :
  py_index l i = Ok b -> l !! i = Some b.
Proof. unfold py_index. destruct (l !! i); congruence. Qed.

(** A frame handed to the router has at least 300 bytes and a good
    checksum, and is the buffer at that moment. *)
Lemma handler_decoded_verified (data : bytes) (self : JKBt) :
  decoded (events_of (_notification_handler data self)) = [] \/
  (decoded (events_of (_notification_handler data self)) = [received data self] /\
   (MIN_RESPONSE_SIZE <= length (received data self))%nat /\
   check_crc (received data self) = true).
Proof.
  rewrite _notification_handler_eq. cbv zeta.
  set (buf := received data self).
  destruct (decide _) as [Hge|_]; [|left; reflexivity].
  destruct (py_index buf _) as [c|e] eqn:Hc; [|left; reflexivity].
  case_bool_decide as Hcrc; [left; reflexivity|].
  right. pose proof (decode_msg_events buf (with_buffer buf self)) as Hev.
  pose proof (check_crc_true buf c (py_index_ok _ _ _ Hc) Hcrc) as Hgood.
  destruct (_decode_msg buf (with_buffer buf self)) as [[[[]|e] self2] evs];
    unfold events_of in *; cbn in Hev |- *; subst evs;
    (split; [reflexivity|]; split; [exact Hge | exact Hgood]).
Qed.

(** Whatever arrives, in whatever pieces, and whatever the driver holds:
    every frame that the handler hands to the router has at least 300
    bytes and carries the checksum of its first 299 bytes as 300th byte,
    and there is at most one such frame per fragment. *)
Theorem only_verified_frames_decoded (fragments : list bytes) (self : JKBt) :
  Forall (fun f => (MIN_RESPONSE_SIZE <= length f)%nat /\ check_crc f = true)
         (decoded (snd (deliver fragments self))) /\
  (length (decoded (snd (deliver fragments self))) <= length fragments)%nat.
Proof.
  revert self. induction fragments as [|f rest IH]; intros self; cbn [deliver].
  - split; [constructor | cbn; lia].
  - pose proof (handler_decoded_verified f self) as Hstep.
    destruct (_notification_handler f self) as [[r self1] evs1].
    unfold events_of in Hstep. cbn [snd] in Hstep.
    destruct (IH self1) as [IHv IHn].
    destruct (deliver rest self1) as [self2 evs2]. cbn [snd] in *.
    rewrite decoded_app, length_app. cbn [length].
    destruct Hstep as [->|(-> & Hlen & Hcrc)]; cbn [app length].
    + split; [exact IHv | lia].
    + split; [constructor; [split; assumption | exact IHv] | lia].
Qed.

(** When the handler returns normally, fewer than 300 bytes stay in the
    buffer: it is empty if the threshold was reached. *)
Theorem handler_leaves_short_buffer (data : bytes) (self : JKBt) :
  value_of (_notification_handler data self) = Ok tt ->
  (length (_buffer (state_of (_notification_handler data self)))
     < MIN_RESPONSE_SIZE)%nat /\
  ((MIN_RESPONSE_SIZE <= length (received data self))%nat ->
     _buffer (state_of (_notification_handler data self)) = []).
Proof.
  rewrite _notification_handler_eq. cbv zeta.
  set (buf := received data self).
  destruct (decide _) as [Hge|Hlt].
  - destruct (py_index buf _) as [c|e]; [|discriminate].
    case_bool_decide.
    + intros _. split; [cbn; unfold MIN_RESPONSE_SIZE; lia | reflexivity].
    + destruct (_decode_msg buf (with_buffer buf self)) as [[[[]|e] self2] evs];
        [|discriminate].
      intros _. split; [cbn; unfold MIN_RESPONSE_SIZE; lia | reflexivity].
  - intros _. split; [cbn; lia | intros Hge; lia].
Qed.

(** The last fragment of [plain_frame], with the rest buffered. *)
Lemma handler_leaves_short_buffer_witness :
  value_of (_notification_handler (drop 130 plain_frame)
              (with_buffer (take 130 plain_frame) waiting_state)) = Ok tt /\
  _buffer (state_of (_notification_handler (drop 130 plain_frame)
                       (with_buffer (take 130 plain_frame) waiting_state))) = [].
Proof.
  assert (Hok : value_of (_notification_handler (drop 130 plain_frame)
                  (with_buffer (take 130 plain_frame) waiting_state)) = Ok tt)
    by (vm_compute; reflexivity).
  split; [exact Hok|].
  destruct (handler_leaves_short_buffer _ _ Hok) as [_ Hempty].
  apply Hempty. vm_compute. lia.
Defined.

Lemma decode_msg_store (buf : bytes) (self : JKBt) :
  _resp_table (state_of (_decode_msg buf self)) = _resp_table self \/
  _resp_table (state_of (_decode_msg buf self))
    = <[frame_tag buf := buf]> (_resp_table self).
Proof.
  rewrite _decode_msg_eq. unfold frame_tag, py_index.
  destruct (buf !! 4%nat) as [b|]; [|left; reflexivity]. cbv zeta.
  destruct (_fetch_futures self !! byte_val b);
    [destruct (futures self !! _) as [[| | |]|]|]; right; reflexivity.
Qed.

Lemma handler_store_verified (data : bytes) (self : JKBt) :
  store_verified self ->
  store_verified (state_of (_notification_handler data self)).
Proof.
  intros Hstore. rewrite _notification_handler_eq. cbv zeta.
  set (buf := received data self).
  destruct (decide _) as [Hge|_]; [|exact Hstore].
  destruct (py_index buf _) as [c|e] eqn:Hc; [|exact Hstore].
  case_bool_decide as Hcrc; [exact Hstore|].
  pose proof (check_crc_true buf c (py_index_ok _ _ _ Hc) Hcrc) as Hgood.
  pose proof (decode_msg_store buf (with_buffer buf self)) as Hdec.
  assert (Hnew : store_verified (state_of (_decode_msg buf (with_buffer buf self)))).
  { intros tag x Hx. destruct Hdec as [Hd|Hd]; rewrite Hd in Hx.
    - exact (Hstore tag x Hx).
    - cbn in Hx. rewrite lookup_insert in Hx. case_decide as Htag.
      + injection Hx as <-. repeat split; assumption.
      + exact (Hstore tag x Hx). }
  destruct (_decode_msg buf (with_buffer buf self)) as [[[[]|e] self2] evs];
    exact Hnew.
Qed.

(** The store of last known frames only ever holds verified frames: if
    every stored frame has at least 300 bytes, a good checksum and the tag
    it is stored under, this still holds after any sequence of fragments. *)
Theorem store_stays_verified (fragments : list bytes) (self : JKBt) :
  store_verified self ->
  store_verified (fst (deliver fragments self)).
Proof.
  revert self. induction fragments as [|f rest IH]; intros self Hstore;
    cbn [deliver]; [exact Hstore|].
  pose proof (handler_store_verified f self Hstore) as Hstep.
  destruct (_notification_handler f self) as [[r self1] evs1].
  unfold state_of in Hstep. cbn in Hstep. specialize (IH self1 Hstep).
  destruct (deliver rest self1) as [self2 evs2]. exact IH.
Qed.

(** A fresh driver that receives [plain_frame] in three fragments. *)
Lemma store_stays_verified_witness :
  store_verified __init__ /\
  _resp_table (fst (deliver plain_fragments __init__)) !! 2 = Some plain_frame /\
  store_verified (fst (deliver plain_fragments __init__)).
Proof.
  assert (Hinit : store_verified __init__).
  { intros tag buf H. unfold __init__ in H. cbn in H.
    rewrite lookup_empty in H. discriminate H. }
  split; [exact Hinit|]. split; [vm_compute; reflexivity|].
  apply (store_stays_verified plain_fragments __init__ Hinit).
Defined.

(** ** Resynchronisation and overlong fragments *)

Lemma handler_reaches (data : bytes) (self : JKBt) :
  (MIN_RESPONSE_SIZE <= length (received data self))%nat ->
  check_crc (received data self) = true ->
  decoded (events_of (_notification_handler data self)) = [received data self] /\
  _resp_table (state_of (_notification_handler data self))
    !! frame_tag (received data self) = Some (received data self) /\
  (value_of (_notification_handler data self) = Ok tt ->
   _buffer (state_of (_notification_handler data self)) = []).
Proof.
  intros Hlen Hcrc. rewrite _notification_handler_eq. cbv zeta.
  set (buf := received data self) in *.
  destruct (decide _) as [_|Hlt]; [|lia].
  unfold check_crc in Hcrc.
  destruct (buf !! (MIN_RESPONSE_SIZE - 1)%nat) as [c|] eqn:Hc; [|discriminate].
  rewrite (py_index_lookup _ _ _ Hc). cbv zeta.
  apply bool_decide_eq_true in Hcrc.
  rewrite bool_decide_eq_false_2 by (intros Hne; apply Hne, Hcrc).
  destruct (py_index_in_range buf 4) as (b & Hb & _);
    [unfold MIN_RESPONSE_SIZE in Hlen; lia|].
  pose proof (decode_msg_events buf (with_buffer buf self)) as Hev.
  pose proof (decode_msg_stores buf (with_buffer buf self) b Hb) as Hst.
  unfold frame_tag. rewrite Hb.
  destruct (_decode_msg buf (with_buffer buf self)) as [[[[]|e] self2] evs];
    unfold events_of, state_of, value_of in *; cbn in *; subst evs;
    (split; [reflexivity|]; split; [exact Hst|]); [reflexivity | discriminate].
Qed.

Lemma deliver_completes (fragments : list bytes) (frame : bytes) (self : JKBt) :
  fragments ≠ [] ->
  Forall (fun f => f ≠ []) fragments ->
  Forall (fun f => py_slice f 0 4 ≠ preamble) fragments ->
  _buffer self ++ concat fragments = frame ->
  length frame = MIN_RESPONSE_SIZE ->
  check_crc frame = true ->
  decoded (snd (deliver fragments self)) = [frame] /\
  _resp_table (fst (deliver fragments self)) !! frame_tag frame = Some frame.
Proof.
  intros Hnonnil Hne Hpre Hcat Hlen Hcrc.
  destruct (exists_last Hnonnil) as (init & last & ->).
  rewrite concat_app in Hcat. cbn [concat] in Hcat. rewrite app_nil_r in Hcat.
  apply Forall_app in Hne as [_ Hne_last].
  apply Forall_app in Hpre as [Hpre_init Hpre_last].
  assert (Hlast : last ≠ []) by (inversion Hne_last; assumption).
  assert (Hlast_pre : py_slice last 0 4 ≠ preamble) by (inversion Hpre_last; assumption).
  assert (Hshort : (length (_buffer self ++ concat init) < MIN_RESPONSE_SIZE)%nat).
  { rewrite <- Hlen, <- Hcat, !length_app.
    destruct last; [contradiction | cbn [length]; lia]. }
  rewrite deliver_app,
    (deliver_below init self (no_resync_tail _ _ Hpre_init) Hshort).
  cbn [deliver].
  set (self1 := with_buffer (_buffer self ++ concat init) self).
  assert (Hrec : received last self1 = frame).
  { rewrite received_append by (right; exact Hlast_pre).
    unfold self1. cbn [_buffer with_buffer]. rewrite <- app_assoc. exact Hcat. }
  destruct (handler_completes last self1) as [Hdec Hstore].
  { rewrite Hrec. exact Hlen. }
  { rewrite Hrec. exact Hcrc. }
  rewrite Hrec in Hdec, Hstore.
  destruct (_notification_handler last self1) as [[r self2] evs].
  unfold events_of, state_of in *. cbn in *. rewrite app_nil_r.
  split; assumption.
Qed.

(** The preamble resynchronises the assembler. Whatever is left in the
    buffer, a valid frame whose first fragment opens with the preamble
    (its later fragments non-empty and not opening with it) is handed to
    the router exactly once and stored; the bytes buffered before are
    dropped. *)
Theorem preamble_resynchronises
    (frame first : bytes) (rest : list bytes) (self : JKBt) :
  valid_frame frame ->
  concat (first :: rest) = frame ->
  py_slice first 0 4 = preamble ->
  Forall (fun f => f ≠ []) rest ->
  Forall (fun f => py_slice f 0 4 ≠ preamble) rest ->
  decoded (snd (deliver (first :: rest) self)) = [frame] /\
  _resp_table (fst (deliver (first :: rest) self)) !! frame_tag frame = Some frame.
Proof.
  intros (Hlen & _ & Hcrc) Hcat Hfirst Hne Hpre.
  assert (Hrec : received first self = first).
  { unfold received. rewrite bool_decide_eq_true_2 by exact Hfirst. reflexivity. }
  cbn [deliver concat] in *.
  destruct rest as [|f rest].
  - cbn [concat] in Hcat. rewrite app_nil_r in Hcat. subst first.
    destruct (handler_completes frame self) as [Hdec Hstore];
      [rewrite Hrec; exact Hlen | rewrite Hrec; exact Hcrc |].
    rewrite Hrec in Hdec, Hstore.
    destruct (_notification_handler frame self) as [[r self1] evs].
    unfold events_of, state_of in *. cbn in *. rewrite app_nil_r.
    split; assumption.
  - assert (Hshort : (length (received first self) < MIN_RESPONSE_SIZE)%nat).
    { rewrite Hrec, <- Hlen, <- Hcat. cbn [concat]. rewrite !length_app.
      inversion Hne as [|? ? Hf _]; subst. destruct f; [contradiction|].
      cbn [length]. lia. }
    rewrite (handler_below first self Hshort), Hrec.
    destruct (deliver_completes (f :: rest) frame (with_buffer first self))
      as [Hdec Hstore]; try assumption; [discriminate|].
    destruct (deliver (f :: rest) (with_buffer first self)) as [self2 evs2].
    cbn in *. split; assumption.
Qed.

(** [plain_frame] in fragments of 20 and 280 bytes, after six stray bytes. *)
Lemma preamble_resynchronises_witness :
  _buffer (with_buffer (take 6 resync_frame) __init__) ≠ [] /\
  decoded (snd (deliver [take 20 plain_frame; drop 20 plain_frame]
                        (with_buffer (take 6 resync_frame) __init__)))
    = [plain_frame].
Proof.
  split; [vm_compute; discriminate|].
  apply (preamble_resynchronises plain_frame (take 20 plain_frame)
           [drop 20 plain_frame] (with_buffer (take 6 resync_frame) __init__)).
  - repeat split; vm_compute; reflexivity.
  - vm_compute. reflexivity.
  - vm_compute. reflexivity.
  - repeat constructor. vm_compute. discriminate.
  - repeat constructor. vm_compute. discriminate.
Defined.

(** One threshold test per fragment: a fragment that holds a valid frame
    and more bytes after it is handed over and stored whole, the bytes
    after the 300th included, and when the handler returns the buffer is
    empty: those bytes do not start the next frame. *)
Theorem overlong_fragment_kept_whole (frame extra : bytes) (self : JKBt) :
  valid_frame frame ->
  decoded (events_of (_notification_handler (frame ++ extra) self))
    = [frame ++ extra] /\
  _resp_table (state_of (_notification_handler (frame ++ extra) self))
    !! frame_tag frame = Some (frame ++ extra) /\
  (value_of (_notification_handler (frame ++ extra) self) = Ok tt ->
   _buffer (state_of (_notification_handler (frame ++ extra) self)) = []).
Proof.
  intros (Hlen & Hpre & Hcrc). unfold MIN_RESPONSE_SIZE in Hlen.
  assert (Hrec : received (frame ++ extra) self = frame ++ extra).
  { unfold received. rewrite bool_decide_eq_true_2; [reflexivity|].
    unfold py_slice in *. rewrite drop_0 in *.
    rewrite take_app_le by lia. exact Hpre. }
  assert (Htag : frame_tag (frame ++ extra) = frame_tag frame).
  { unfold frame_tag. rewrite lookup_app_l by lia. reflexivity. }
  assert (Hcrc' : check_crc (frame ++ extra) = true).
  { unfold check_crc, py_slice, MIN_RESPONSE_SIZE in *. rewrite drop_0 in *.
    rewrite lookup_app_l by lia. rewrite take_app_le by lia. exact Hcrc. }
  destruct (handler_reaches (frame ++ extra) self) as (Hdec & Hstore & Hbuf).
  - rewrite Hrec, length_app. unfold MIN_RESPONSE_SIZE. lia.
  - rewrite Hrec. exact Hcrc'.
  - rewrite Hrec, Htag in *. repeat split; assumption.
Qed.

(** [plain_frame] followed by the first seven bytes of the next frame. *)
Lemma overlong_fragment_kept_whole_witness :
  valid_frame plain_frame /\
  decoded (events_of (_notification_handler (plain_frame ++ take 7 resync_frame) __init__))
    = [plain_frame ++ take 7 resync_frame] /\
  _buffer (state_of (_notification_handler (plain_frame ++ take 7 resync_frame) __init__))
    = [].
Proof.
  assert (Hv : valid_frame plain_frame) by (repeat split; vm_compute; reflexivity).
  split; [exact Hv|].
  destruct (overlong_fragment_kept_whole plain_frame (take 7 resync_frame) __init__ Hv)
    as (Hdec & _ & Hbuf).
  split; [exact Hdec | apply Hbuf; vm_compute; reflexivity].
Defined.

(** ** Fragments and whole frames *)

Lemma handler_same_received (d1 d2 : bytes) (s1 s2 : JKBt) :
  received d1 s1 = received d2 s2 ->
  (forall b, with_buffer b s1 = with_buffer b s2) ->
  _notification_handler d1 s1 = _notification_handler d2 s2.
Proof.
  intros Hrec Hsame. rewrite !_notification_handler_eq. cbv zeta.
  rewrite Hrec, !Hsame. reflexivity.
Qed.

Lemma preamble_prefix (first : bytes) (more : bytes) :
  py_slice first 0 4 = preamble -> py_slice (first ++ more) 0 4 = preamble.
Proof.
  unfold py_slice. rewrite !drop_0. intros H.
  assert (Hlen : (4 <= length first)%nat).
  { apply (f_equal length) in H. rewrite length_take in H.
    change (length preamble) with 4%nat in H. lia. }
  rewrite take_app_le by lia. exact H.
Qed.

Lemma deliver_as_one (frame first : bytes) (rest : list bytes) (self : JKBt) :
  length frame = MIN_RESPONSE_SIZE ->
  concat (first :: rest) = frame ->
  py_slice first 0 4 = preamble ->
  Forall (fun f => f ≠ []) rest ->
  Forall (fun f => py_slice f 0 4 ≠ preamble) rest ->
  deliver (first :: rest) self =
  (state_of (_notification_handler frame self),
   events_of (_notification_handler frame self)).
Proof.
  intros Hlen Hcat Hfirst Hne Hpre.
  assert (Hframe_pre : py_slice frame 0 4 = preamble).
  { rewrite <- Hcat. cbn [concat]. apply preamble_prefix, Hfirst. }
  assert (Hrec_frame : received frame self = frame).
  { unfold received. rewrite bool_decide_eq_true_2 by exact Hframe_pre. reflexivity. }
  assert (Hrec : received first self = first).
  { unfold received. rewrite bool_decide_eq_true_2 by exact Hfirst. reflexivity. }
  cbn [concat] in Hcat.
  destruct (decide (rest = [])) as [->|Hrest].
  - cbn [concat] in Hcat. rewrite app_nil_r in Hcat. subst first.
    cbn [deliver]. destruct (_notification_handler frame self) as [[r s] evs].
    unfold state_of, events_of. cbn. rewrite app_nil_r. reflexivity.
  - destruct (exists_last Hrest) as (init & last & ->).
    rewrite concat_app in Hcat. cbn [concat] in Hcat. rewrite app_nil_r in Hcat.
    apply Forall_app in Hne as [_ Hne_last].
    apply Forall_app in Hpre as [Hpre_init Hpre_last].
    assert (Hlast : last ≠ []) by (inversion Hne_last; assumption).
    assert (Hlast_pre : py_slice last 0 4 ≠ preamble)
      by (inversion Hpre_last; assumption).
    assert (Hlens : (length first + length (concat init) < MIN_RESPONSE_SIZE)%nat).
    { rewrite <- Hlen, <- Hcat, !length_app.
      destruct last; [contradiction | cbn [length]; lia]. }
    cbn [deliver].
    rewrite (handler_below first self) by (rewrite Hrec; lia). rewrite Hrec.
    rewrite deliver_app.
    rewrite (deliver_below init (with_buffer first self)
               (no_resync_tail _ _ Hpre_init))
      by (cbn [_buffer with_buffer]; rewrite length_app; lia).
    cbn [deliver _buffer with_buffer].
    set (s1 := with_buffer (first ++ concat init) (with_buffer first self)).
    rewrite (handler_same_received last frame s1 self).
    + destruct (_notification_handler frame self) as [[r s] evs].
      unfold state_of, events_of. cbn. rewrite app_nil_r. reflexivity.
    + rewrite Hrec_frame, received_append by (right; exact Hlast_pre).
      unfold s1. cbn [_buffer with_buffer]. rewrite <- app_assoc. exact Hcat.
    + intros b. reflexivity.
Qed.

(** Fragmentation is transparent. Whatever the driver holds, a 300-byte
    frame delivered in fragments, the first opening with the preamble and
    the later ones non-empty and not opening with it, leaves the same
    driver and the same events as the frame delivered in one piece. *)
Theorem fragmentation_is_transparent
    (frame first : bytes) (rest : list bytes) (self : JKBt) :
  length frame = MIN_RESPONSE_SIZE ->
  concat (first :: rest) = frame ->
  py_slice first 0 4 = preamble ->
  Forall (fun f => f ≠ []) rest ->
  Forall (fun f => py_slice f 0 4 ≠ preamble) rest ->
  deliver (first :: rest) self = deliver [frame] self.
Proof.
  intros Hlen Hcat Hfirst Hne Hpre.
  rewrite (deliver_as_one frame first rest self Hlen Hcat Hfirst Hne Hpre).
  cbn [deliver]. destruct (_notification_handler frame self) as [[r s] evs].
  unfold state_of, events_of. cbn. rewrite app_nil_r. reflexivity.
Qed.

(** [info_frame] in fragments of 20, 180 and 100 bytes, with a request
    outstanding for its tag. *)
Lemma fragmentation_is_transparent_witness :
  deliver [take 20 info_frame; take 180 (drop 20 info_frame); drop 200 info_frame]
          query_waiting_state
  = deliver [info_frame] query_waiting_state.
Proof.
  apply (fragmentation_is_transparent info_frame).
  - vm_compute. reflexivity.
  - vm_compute. reflexivity.
  - vm_compute. reflexivity.
  - repeat constructor; vm_compute; discriminate.
  - repeat constructor; vm_compute; discriminate.
Defined.

(** ** Requests that are answered *)

Lemma handler_resolves (frame : bytes) (fut : nat) (self : JKBt) :
  valid_frame frame ->
  _fetch_futures self !! frame_tag frame = Some fut ->
  futures self !! fut = Some Pending ->
  _notification_handler frame self =
  (Ok tt,
   with_buffer []
     (with_futures (<[fut := Finished frame]> (futures self))
        (with_fetch_futures (delete (frame_tag frame) (_fetch_futures self))
           (with_resp_table (<[frame_tag frame := frame]> (_resp_table self)) self))),
   [FrameDecoded frame]).
Proof.
  intros (Hlen & Hpre & Hcrc) Htab Hfut.
  rewrite _notification_handler_eq. cbv zeta.
  assert (Hrec : received frame self = frame).
  { unfold received. rewrite bool_decide_eq_true_2 by exact Hpre. reflexivity. }
  rewrite Hrec. destruct (decide _) as [_|Hlt]; [|lia].
  unfold check_crc in Hcrc.
  destruct (frame !! (MIN_RESPONSE_SIZE - 1)%nat) as [c|] eqn:Hc; [|discriminate].
  rewrite (py_index_lookup _ _ _ Hc).
  apply bool_decide_eq_true in Hcrc.
  rewrite bool_decide_eq_false_2 by (intros Hne; apply Hne, Hcrc).
  rewrite _decode_msg_eq. unfold frame_tag in *.
  destruct (py_index_in_range frame 4) as (b & Hb & Hidx);
    [rewrite Hlen; unfold MIN_RESPONSE_SIZE; lia|].
  rewrite Hidx. rewrite Hb in *. cbv zeta.
  cbn [_fetch_futures futures with_buffer _buffer].
  rewrite Htab, Hfut. reflexivity.
Qed.

(** A query is answered by the next frame of the awaited tag. When a valid
    frame of tag [resp] arrives while [_q] waits (in fragments, the first
    opening with the preamble), [_q] returns that frame; the frame is the
    last known one of its tag and the request is no longer in the table. *)
Theorem query_returns_frame
    (cmd resp : Z) (frame first : bytes) (rest : list bytes) (self : JKBt) :
  _fetch_futures self !! cmd = None ->
  0 <= cmd < 256 ->
  valid_frame frame ->
  frame_tag frame = resp ->
  concat (first :: rest) = frame ->
  py_slice first 0 4 = preamble ->
  Forall (fun f => f ≠ []) rest ->
  Forall (fun f => py_slice f 0 4 ≠ preamble) rest ->
  let after := state_of (_q cmd resp [] (first :: rest) self) in
  value_of (_q cmd resp [] (first :: rest) self) = Ok frame /\
  _resp_table after !! resp = Some frame /\
  _fetch_futures after !! resp = None /\
  _buffer after = [] /\
  decoded (events_of (_q cmd resp [] (first :: rest) self)) = [frame].
Proof.
  intros Hcmd Hrange Hvalid Htag Hcat Hfirst Hne Hpre. cbv zeta.
  rewrite _q_eq.
  rewrite bool_decide_eq_false_2 by (rewrite Hcmd; apply is_Some_None).
  destruct (jk_command_in_range cmd Hrange) as [command ->]. cbv zeta.
  change (deliver [] (register resp self)) with (register resp self, @nil event).
  cbv beta iota. unfold register.
  set (fut := fresh (dom (futures self))).
  set (self1 := with_fetch_futures _ _).
  assert (Htab : _fetch_futures self1 !! resp = Some fut)
    by (unfold self1; cbn; apply lookup_insert_eq).
  assert (Hfut : futures self1 !! fut = Some Pending)
    by (unfold self1; cbn; apply lookup_insert_eq).
  rewrite Htab.
  rewrite (deliver_as_one frame first rest self1 (proj1 Hvalid) Hcat Hfirst Hne Hpre).
  rewrite <- Htag in Htab.
  rewrite (handler_resolves frame fut self1 Hvalid Htab Hfut).
  unfold state_of, events_of, value_of, wait_for_resume.
  cbn [fst snd futures with_buffer with_futures with_fetch_futures with_resp_table].
  rewrite lookup_insert_eq. cbn [fst snd app].
  rewrite Htag.
  split; [reflexivity|]. split; [cbn; apply lookup_insert_eq|].
  split; [cbn; apply lookup_delete_eq|]. split; reflexivity.
Qed.

(** The device-info query on a fresh driver, answered in two fragments. *)
Lemma query_returns_frame_witness :
  value_of (_q 0x97 0x03 [] [take 20 info_frame; drop 20 info_frame] __init__)
    = Ok info_frame /\
  _fetch_futures
    (state_of (_q 0x97 0x03 [] [take 20 info_frame; drop 20 info_frame] __init__))
    !! 3 = None.
Proof.
  destruct (query_returns_frame 0x97 0x03 info_frame (take 20 info_frame)
              [drop 20 info_frame] __init__) as (Hv & _ & Ht & _).
  - reflexivity.
  - lia.
  - repeat split; vm_compute; reflexivity.
  - vm_compute. reflexivity.
  - vm_compute. reflexivity.
  - vm_compute. reflexivity.
  - repeat constructor; vm_compute; discriminate.
  - repeat constructor; vm_compute; discriminate.
  - split; [exact Hv | exact Ht].
Defined.

(** [fetch(wait=True)] decodes the frame it waited for. When a valid
    telemetry frame whose full-charge field matches the capacity arrives
    during the wait, the sample returned is the one of that frame,
    whatever frame was stored before. *)
Theorem fetch_waits_for_next_frame
    (frame first : bytes) (rest : list bytes) (cap : Q) (self : JKBt) :
  capacity self = Some cap ->
  valid_frame frame ->
  frame_tag frame = 2 ->
  (inject_Z (u32_le frame 146) * 0.001 == cap)%Q ->
  concat (first :: rest) = frame ->
  py_slice first 0 4 = preamble ->
  Forall (fun f => f ≠ []) rest ->
  Forall (fun f => py_slice f 0 4 ≠ preamble) rest ->
  value_of (fetch true (first :: rest) self) = Ok (fetched_sample frame cap) /\
  _resp_table (state_of (fetch true (first :: rest) self)) !! 2 = Some frame /\
  _fetch_futures (state_of (fetch true (first :: rest) self)) !! 2 = None.
Proof.
  intros Hcap Hvalid Htag Hmatch Hcat Hfirst Hne Hpre.
  rewrite fetch_eq. cbv zeta. unfold register.
  set (fut := fresh (dom (futures self))).
  set (self1 := with_fetch_futures _ _).
  assert (Htab : _fetch_futures self1 !! frame_tag frame = Some fut)
    by (rewrite Htag; unfold self1; cbn; apply lookup_insert_eq).
  assert (Hfut : futures self1 !! fut = Some Pending)
    by (unfold self1; cbn; apply lookup_insert_eq).
  rewrite (deliver_as_one frame first rest self1 (proj1 Hvalid) Hcat Hfirst Hne Hpre).
  rewrite (handler_resolves frame fut self1 Hvalid Htab Hfut).
  unfold state_of, events_of, wait_for_resume.
  cbn [fst snd futures with_buffer with_futures with_fetch_futures with_resp_table].
  rewrite lookup_insert_eq. rewrite Htag.
  match goal with |- context [fetch_decode ?s] => set (self3 := s) end.
  assert (Hstore : _resp_table self3 !! 2 = Some frame)
    by (unfold self3; cbn; apply lookup_insert_eq).
  assert (Hcap3 : capacity self3 = Some cap) by exact Hcap.
  destruct Hvalid as (Hlen & _). unfold MIN_RESPONSE_SIZE in Hlen.
  rewrite (fetch_decode_eq frame cap self3 Hstore) by (assumption || lia).
  apply Qeq_bool_iff in Hmatch. rewrite Hmatch.
  unfold value_of. cbn [fst snd].
  split; [reflexivity|]. split; [exact Hstore|].
  unfold self3. cbn. apply lookup_delete_eq.
Qed.

(** A 100 Ah driver that holds the 99.5 Ah frame and waits: [cold_frame]
    arrives in two fragments. *)
Lemma fetch_waits_for_next_frame_witness :
  _resp_table mismatch_state !! 2 = Some mismatch_frame /\
  value_of (fetch true [take 100 cold_frame; drop 100 cold_frame] mismatch_state)
    = Ok (fetched_sample cold_frame 100).
Proof.
  split; [reflexivity|].
  destruct (fetch_waits_for_next_frame cold_frame (take 100 cold_frame)
              [drop 100 cold_frame] 100 mismatch_state) as (Hv & _).
  - reflexivity.
  - repeat split; vm_compute; reflexivity.
  - vm_compute. reflexivity.
  - vm_compute. reflexivity.
  - vm_compute. reflexivity.
  - vm_compute. reflexivity.
  - repeat constructor; vm_compute; discriminate.
  - repeat constructor; vm_compute; discriminate.
  - exact Hv.
Defined.

(** ** Reading telemetry *)

(** [fetch(wait=False)] before any telemetry frame was received raises
    [KeyError(2)]; with a frame but before [connect] has assigned the
    capacity it raises [AttributeError]. Both leave the driver as it was. *)
Theorem fetch_without_data (self : JKBt) :
  (_resp_table self !! 2 = None ->
     fetch false [] self = (Raise (KeyError 2), self, [])) /\
  (is_Some (_resp_table self !! 2) -> capacity self = None ->
     fetch false [] self = (Raise AttributeError, self, [])).
Proof.
  split.
  - intros Hnone. rewrite fetch_nowait_eq.
    unfold fetch_decode, resp_table_get. io_unfold. rewrite Hnone. reflexivity.
  - intros [buf Hbuf] Hcap. rewrite fetch_nowait_eq.
    unfold fetch_decode, resp_table_get, get_capacity. io_unfold.
    rewrite Hbuf, Hcap. reflexivity.
Qed.

(** A fresh driver, and a driver that holds a frame but no capacity. *)
Lemma fetch_without_data_witness :
  fetch false [] __init__ = (Raise (KeyError 2), __init__, []) /\
  value_of (fetch false [] (with_resp_table {[ 2 := plain_frame ]} __init__))
    = Raise AttributeError.
Proof.
  destruct (fetch_without_data __init__) as [Hkey _].
  destruct (fetch_without_data (with_resp_table {[ 2 := plain_frame ]} __init__))
    as [_ Hattr].
  split.
  - apply Hkey. reflexivity.
  - rewrite Hattr; [reflexivity | eexists; reflexivity | reflexivity].
Defined.

(** What [fetch(wait=False)] returns for a stored telemetry frame whose
    full-charge field matches the capacity, field by field: the voltage,
    the current and the charge from four bytes (the current in two's
    complement), the temperatures, the balance current and the cycle
    count from two unsigned bytes. The driver is left as it was. *)
Theorem fetch_decodes_stored_frame (buf : bytes) (cap : Q) (self : JKBt) :
  _resp_table self !! 2 = Some buf ->
  (MIN_RESPONSE_SIZE <= length buf)%nat ->
  capacity self = Some cap ->
  (inject_Z (u32_le buf 146) * 0.001 == cap)%Q ->
  fetch false [] self =
    (Ok {| voltage := inject_Z (u32_le buf 118) * 0.001;
           current := inject_Z (s32_le buf 126) * 0.001;
           charge_full := cap;
           temperatures := [inject_Z (u16_le buf 130) / 10;
                            inject_Z (u16_le buf 132) / 10];
           mos_temperature := inject_Z (u16_le buf 134) / 10;
           balance_current := inject_Z (u16_le buf 138) / 1000;
           charge := inject_Z (u32_le buf 142) * 0.001;
           num_cycles := u16_le buf 150 |}%Q,
     self, []).
Proof.
  intros Hbuf Hlen Hcap Hmatch. unfold MIN_RESPONSE_SIZE in Hlen.
  rewrite fetch_nowait_eq, (fetch_decode_eq buf cap self Hbuf) by (assumption || lia).
  apply Qeq_bool_iff in Hmatch. rewrite Hmatch. reflexivity.
Qed.

(** The 100 Ah driver with [cold_frame]. *)
Lemma fetch_decodes_stored_frame_witness :
  exists sample,
    fetch false [] cold_state = (Ok sample, cold_state, []) /\
    charge_full sample = 100%Q /\
    current sample = (inject_Z 0 * 0.001)%Q.
Proof.
  eexists. split.
  - apply (fetch_decodes_stored_frame cold_frame 100 cold_state).
    + reflexivity.
    + vm_compute. lia.
    + reflexivity.
    + vm_compute. reflexivity.
  - split; [reflexivity | vm_compute; reflexivity].
Defined.

Lemma u16_le_range (frame : bytes) (offset : nat) :
  0 <= u16_le frame offset < 65536.
Proof.
  unfold u16_le, byte_at.
  pose proof (byte_val_range (nth offset frame x00)).
  pose proof (byte_val_range (nth (offset + 1) frame x00)).
  lia.
Qed.

(** ** Cell voltages *)

Lemma fetch_voltages_eq (buf : bytes) (n : Z) (self : JKBt) :
  _resp_table self !! 2 = Some buf ->
  num_cells self = Some n ->
  fetch_voltages self =
  (Ok (map (fun i : nat =>
              (inject_Z (from_bytes_le (py_slice buf (6 + i * 2) (6 + i * 2 + 2)))
               / 1000)%Q)
           (seq 0 (Z.to_nat n))), self, []).
Proof.
  intros Hbuf Hn. unfold fetch_voltages, resp_table_get, get_num_cells.
  io_unfold. rewrite Hbuf, Hn. reflexivity.
Qed.

(** [fetch_voltages] returns one voltage per cell of Device Identity, in
    cell order: for cell [i] the unsigned two bytes at offset [6 + 2 i] of
    the last telemetry frame, divided by 1000. The driver is left as it
    was. *)
Theorem fetch_voltages_per_cell (buf : bytes) (n : Z) (self : JKBt) :
  _resp_table self !! 2 = Some buf ->
  (MIN_RESPONSE_SIZE <= length buf)%nat ->
  num_cells self = Some n ->
  0 <= n <= 48 ->
  fetch_voltages self = (Ok (cell_voltages buf (Z.to_nat n)), self, []) /\
  Z.of_nat (length (cell_voltages buf (Z.to_nat n))) = n.
Proof.
  intros Hbuf Hlen Hn Hrange. unfold MIN_RESPONSE_SIZE in Hlen.
  rewrite (fetch_voltages_eq buf n self Hbuf Hn). unfold cell_voltages.
  split; [|rewrite length_map, length_seq; lia].
  do 3 f_equal. apply map_ext_in. intros i Hi.
  apply in_seq in Hi.
  replace (6 + i * 2)%nat with (6 + 2 * i)%nat by lia.
  rewrite slice_u16 by lia. reflexivity.
Qed.

(** The driver of two cells: 3.300 V and 3.295 V. *)
Lemma fetch_voltages_per_cell_witness :
  fetch_voltages two_cell_state
    = (Ok (cell_voltages two_cell_frame 2), two_cell_state, []) /\
  cell_voltages two_cell_frame 2 = [3300 # 1000; 3295 # 1000]%Q.
Proof.
  destruct (fetch_voltages_per_cell two_cell_frame 2 two_cell_state) as [Hrun _].
  - reflexivity.
  - vm_compute. lia.
  - reflexivity.
  - lia.
  - split; [exact Hrun | vm_compute; reflexivity].
Defined.

(** [fetch_voltages] raises [KeyError(2)] before any telemetry frame was
    received and [AttributeError] before [connect] has assigned the cell
    count; it returns the empty list for a count of zero cells. *)
Theorem fetch_voltages_without_data (self : JKBt) :
  (_resp_table self !! 2 = None ->
     fetch_voltages self = (Raise (KeyError 2), self, [])) /\
  (is_Some (_resp_table self !! 2) -> num_cells self = None ->
     fetch_voltages self = (Raise AttributeError, self, [])) /\
  (is_Some (_resp_table self !! 2) -> num_cells self = Some 0 ->
     fetch_voltages self = (Ok [], self, [])).
Proof.
  repeat split.
  - intros Hnone. unfold fetch_voltages, resp_table_get. io_unfold.
    rewrite Hnone. reflexivity.
  - intros [buf Hbuf] Hn. unfold fetch_voltages, resp_table_get, get_num_cells.
    io_unfold. rewrite Hbuf, Hn. reflexivity.
  - intros [buf Hbuf] Hn. rewrite (fetch_voltages_eq buf 0 self Hbuf Hn).
    reflexivity.
Qed.

(** A fresh driver. *)
Lemma fetch_voltages_without_data_witness :
  fetch_voltages __init__ = (Raise (KeyError 2), __init__, []).
Proof.
  destruct (fetch_voltages_without_data __init__) as [Hkey _].
  apply Hkey. reflexivity.
Defined.

Lemma from_bytes_le_two (buf : bytes) (i j : nat) :
  (j - i = 2)%nat -> 0 <= from_bytes_le (py_slice buf i j) < 65536.
Proof.
  intros Hw. unfold py_slice. rewrite Hw.
  destruct (drop i buf) as [|a [|b more]]; simpl.
  - lia.
  - pose proof (byte_val_range a). lia.
  - pose proof (byte_val_range a). pose proof (byte_val_range b). lia.
Qed.

(** Every cell voltage that [fetch_voltages] returns lies between 0 and
    65.535 volts, whatever the frame and the cell count. *)
Theorem fetch_voltages_range (voltages : list Q) (self : JKBt) :
  value_of (fetch_voltages self) = Ok voltages ->
  Forall (fun v => (0 <= v /\ v <= 65.535)%Q) voltages.
Proof.
  unfold fetch_voltages, resp_table_get, get_num_cells. io_unfold.
  destruct (_resp_table self !! 2) as [buf|]; [|discriminate].
  destruct (num_cells self) as [n|]; [|discriminate].
  unfold value_of. cbn [fst]. intros [= <-].
  apply Forall_forall. intros v Hv. apply list_elem_of_In, in_map_iff in Hv.
  destruct Hv as (i & <- & _).
  match goal with |- context [from_bytes_le (py_slice buf ?a ?b)] =>
    pose proof (from_bytes_le_two buf a b ltac:(lia)) as Hraw;
    set (raw := from_bytes_le (py_slice buf a b)) in * end.
  clearbody raw.
  unfold Qle, Qdiv, Qmult, Qinv, inject_Z. cbn. lia.
Qed.

(** The driver of two cells. *)
Lemma fetch_voltages_range_witness :
  Forall (fun v => (0 <= v /\ v <= 65.535)%Q) (cell_voltages two_cell_frame 2).
Proof.
  apply (fetch_voltages_range (cell_voltages two_cell_frame 2) two_cell_state).
  vm_compute. reflexivity.
Defined.

(** ** The connect loop on any transport *)

Lemma retry_prefix (transport : nat -> attempt_outcome) (n : nat) :
  forall attempt,
    (attempt + n <= 8)%nat ->
    (forall j, (attempt <= j < attempt + n)%nat ->
       exists e, transport j = ConnectError e /\ is_exception e = true) ->
    connect_retry transport attempt =
    (fst (connect_retry transport (attempt + n)),
     flat_map failed_attempt (seq attempt n)
     ++ snd (connect_retry transport (attempt + n))).
Proof.
  induction n as [|n IH]; intros attempt Hle Hfail.
  - rewrite Nat.add_0_r. destruct (connect_retry transport attempt). reflexivity.
  - destruct (Hfail attempt) as (e & He & Hcaught); [lia|].
    rewrite (connect_retry_again transport attempt e [ConnectAttempt attempt]);
      [|rewrite He; reflexivity | exact Hcaught | lia].
    rewrite (IH (S attempt)); [| lia | intros j Hj; apply Hfail; lia].
    replace (S attempt + n)%nat with (attempt + S n)%nat by lia.
    cbn [fst snd seq flat_map failed_attempt app]. reflexivity.
Qed.

Lemma retry_until_connected (transport : nat -> attempt_outcome) (n : nat) :
  forall attempt,
    (attempt + n <= 8)%nat ->
    (forall j, (attempt <= j < attempt + n)%nat ->
       exists e, transport j = ConnectError e /\ is_exception e = true) ->
    transport (attempt + n)%nat = Connected ->
    connect_retry transport attempt =
    (Ok tt, flat_map failed_attempt (seq attempt n) ++ [ConnectAttempt (attempt + n)]).
Proof.
  intros attempt Hle Hfail Hok.
  rewrite (retry_prefix transport n attempt Hle Hfail).
  rewrite (connect_retry_success transport (attempt + n) Hok). reflexivity.
Qed.

Lemma attempts_app (xs ys : list event) :
  attempts (xs ++ ys) = attempts xs ++ attempts ys.
Proof. apply omap_app. Qed.

Lemma sleeps_app (xs ys : list event) :
  sleeps (xs ++ ys) = sleeps xs ++ sleeps ys.
Proof. apply omap_app. Qed.

Lemma failed_attempts_trace (n a : nat) :
  attempts (flat_map failed_attempt (seq a n)) = seq a n /\
  sleeps (flat_map failed_attempt (seq a n)) = map backoff (seq a n).
Proof.
  revert a. induction n as [|n IH]; intros a; cbn [seq flat_map map];
    [split; reflexivity|].
  rewrite attempts_app, sleeps_app. destruct (IH (S a)) as [-> ->].
  split; reflexivity.
Qed.

(** The delays and the events of the first [m] failed attempts. *)
Lemma backoff_delays (m : nat) :
  (m <= 7)%nat ->
  map backoff (seq 1 m) = take m retry_delays /\
  flat_map failed_attempt (seq 1 m) = take (3 * m) retry_trace.
Proof.
  intros Hm.
  do 8 (destruct m as [|m]; [split; reflexivity|]).
  lia.
Qed.

Lemma retry_delays_prefix_specified (m : nat) :
  Forall2 approximates (take m retry_delays) (map specified_delay (seq 1 (min m 7))).
Proof.
  do 7 (destruct m as [|m];
        [repeat constructor; vm_compute; intros Hc; discriminate Hc|]).
  rewrite take_ge by (cbn [length retry_delays]; lia).
  replace (min (S (S (S (S (S (S (S m))))))) 7) with 7%nat by lia.
  exact retry_delays_specified.
Qed.

(** When the transport fails the attempts before the [k]-th with
    errors that [except Exception] catches and accepts the [k]-th, for [k]
    at most 8, the loop of [connect] ends normally after the attempts 1 to
    [k], with a disconnect and a sleep after each failed one and without
    stopping discovery itself. The [k - 1] delays are the first of
    0x1.3333333333334p-2, 0x1.ccccccccccccdp-2, 0x1.599999999999ap-1,
    0x1.0333333333333p+0, 0x1.84ccccccccccdp+0, 0x1.239999999999ap+1 and
    0x1.b566666666667p+1, the [j]-th within [1e-15] of [0.2 * 1.5 ^ j]
    seconds. *)
Theorem connect_retry_succeeds (transport : nat -> attempt_outcome) (k : nat) :
  (1 <= k <= 8)%nat ->
  (forall j, (1 <= j < k)%nat ->
     exists e, transport j = ConnectError e /\ is_exception e = true) ->
  transport k = Connected ->
  connect_retry transport 1 =
    (Ok tt, take (3 * (k - 1)) retry_trace ++ [ConnectAttempt k]) /\
  attempts (snd (connect_retry transport 1)) = seq 1 k /\
  sleeps (snd (connect_retry transport 1)) =
    take (k - 1)
      [0x1.3333333333334p-2; 0x1.ccccccccccccdp-2; 0x1.599999999999ap-1;
       0x1.0333333333333p+0; 0x1.84ccccccccccdp+0; 0x1.239999999999ap+1;
       0x1.b566666666667p+1]%float /\
  Forall2 approximates (sleeps (snd (connect_retry transport 1)))
    (map (fun j : nat => 0.2 * 1.5 ^ Z.of_nat j)%Q (seq 1 (k - 1))).
Proof.
  intros Hk Hfail Hok.
  assert (Hrun : connect_retry transport 1 =
    (Ok tt, flat_map failed_attempt (seq 1 (k - 1)) ++ [ConnectAttempt k])).
  { rewrite (retry_until_connected transport (k - 1) 1).
    - replace (1 + (k - 1))%nat with k by lia. reflexivity.
    - lia.
    - intros j Hj. apply Hfail. lia.
    - replace (1 + (k - 1))%nat with k by lia. exact Hok. }
  destruct (backoff_delays (k - 1)) as [Hdelays Htrace]; [lia|].
  split; [rewrite Hrun, Htrace; reflexivity|]. rewrite Hrun. cbn [snd].
  rewrite attempts_app, sleeps_app.
  destruct (failed_attempts_trace (k - 1) 1) as [-> ->].
  change (sleeps [ConnectAttempt k]) with (@nil float). rewrite app_nil_r.
  rewrite Hdelays.
  split; [|split; [reflexivity|]].
  - change (attempts [ConnectAttempt k]) with [k].
    replace (seq 1 k) with (seq 1 (S (k - 1))) by (f_equal; lia).
    rewrite seq_S. replace (1 + (k - 1))%nat with k by lia. reflexivity.
  - pose proof (retry_delays_prefix_specified (k - 1)) as Hspec.
    replace (min (k - 1) 7) with (k - 1)%nat in Hspec by lia.
    exact Hspec.
Qed.

(** Two refusals, then a connection. *)
Lemma connect_retry_succeeds_witness :
  connect_retry third_time_transport 1 =
    (Ok tt,
     [ConnectAttempt 1; ClientDisconnect; Sleep 0x1.3333333333334p-2;
      ConnectAttempt 2; ClientDisconnect; Sleep 0x1.ccccccccccccdp-2;
      ConnectAttempt 3]).
Proof.
  destruct (connect_retry_succeeds third_time_transport 3) as [Hrun _].
  - lia.
  - intros j Hj. exists (TransportError j). unfold third_time_transport.
    destruct (Nat.ltb_spec j 3); [split; reflexivity | lia].
  - reflexivity.
  - exact Hrun.
Defined.

Lemma try_connect_trace (o : attempt_outcome) (attempt : nat) :
  sleeps (snd (try_connect o attempt)) = [] /\
  (length (attempts (snd (try_connect o attempt))) <= 1)%nat.
Proof. destruct o; split; cbn; lia || reflexivity. Qed.

Lemma connect_retry_ok (transport : nat -> attempt_outcome) (attempt : nat)
    (u : unit) (evs : list event) :
  try_connect (transport attempt) attempt = (Ok u, evs) ->
  connect_retry transport attempt = (Ok tt, evs).
Proof. intros H. rewrite connect_retry_equation_1, H. reflexivity. Qed.

Lemma retry_bounded (transport : nat -> attempt_outcome) (n : nat) :
  forall attempt,
    (attempt + n = 8)%nat ->
    (length (attempts (snd (connect_retry transport attempt))) <= S n)%nat /\
    exists m, (m <= n)%nat /\
      sleeps (snd (connect_retry transport attempt)) = map backoff (seq attempt m).
Proof.
  induction n as [|n IH]; intros attempt Hsum;
    destruct (try_connect_trace (transport attempt) attempt) as [Hs Ha];
    destruct (try_connect (transport attempt) attempt) as [[[]|e] evs] eqn:Htry;
    cbn [snd] in Hs, Ha;
    try destruct (is_exception e) eqn:Hcaught.
  - rewrite (connect_retry_ok transport attempt _ evs Htry). cbn [snd].
    split; [exact Ha | exists 0%nat; split; [lia | exact Hs]].
  - rewrite (connect_retry_give_up transport attempt e evs Htry Hcaught) by lia.
    cbn [snd]. rewrite attempts_app, sleeps_app, Hs, length_app.
    split; [cbn; lia | exists 0%nat; split; [lia | reflexivity]].
  - rewrite (connect_retry_uncaught transport attempt e evs Htry Hcaught).
    cbn [snd]. split; [lia | exists 0%nat; split; [lia | exact Hs]].
  - rewrite (connect_retry_ok transport attempt _ evs Htry). cbn [snd].
    split; [lia | exists 0%nat; split; [lia | exact Hs]].
  - rewrite (connect_retry_again transport attempt e evs Htry Hcaught) by lia.
    destruct (IH (S attempt)) as (IHa & m & Hm & IHs); [lia|].
    cbn [snd]. rewrite !attempts_app, !sleeps_app, Hs, IHs, !length_app.
    change (attempts [ClientDisconnect; Sleep (backoff attempt)]) with (@nil nat).
    change (sleeps [ClientDisconnect; Sleep (backoff attempt)]) with [backoff attempt].
    split; [cbn [length app]; lia|].
    exists (S m). split; [lia | reflexivity].
  - rewrite (connect_retry_uncaught transport attempt e evs Htry Hcaught).
    cbn [snd]. split; [lia | exists 0%nat; split; [lia | exact Hs]].
Qed.

(** Whatever discovery and the transport answer, the loop of
    [connect] makes at most 8 connect attempts and sleeps at most 7 times;
    the delays are the first of 0x1.3333333333334p-2,
    0x1.ccccccccccccdp-2, 0x1.599999999999ap-1, 0x1.0333333333333p+0,
    0x1.84ccccccccccdp+0, 0x1.239999999999ap+1 and 0x1.b566666666667p+1,
    and it sleeps less than 9.66 seconds in all. *)
Theorem connect_retry_bounded (transport : nat -> attempt_outcome) :
  (length (attempts (snd (connect_retry transport 1))) <= 8)%nat /\
  (exists m, (m <= 7)%nat /\
     sleeps (snd (connect_retry transport 1)) =
       take m
         [0x1.3333333333334p-2; 0x1.ccccccccccccdp-2; 0x1.599999999999ap-1;
          0x1.0333333333333p+0; 0x1.84ccccccccccdp+0; 0x1.239999999999ap+1;
          0x1.b566666666667p+1]%float) /\
  (total_sleep (snd (connect_retry transport 1)) < 9.66)%Q.
Proof.
  destruct (retry_bounded transport 7 1 eq_refl) as (Ha & m & Hm & Hs).
  destruct (backoff_delays m Hm) as [Hdelays _]. rewrite Hdelays in Hs.
  split; [exact Ha|]. split; [exists m; split; assumption|].
  unfold total_sleep. rewrite Hs.
  do 8 (destruct m as [|m]; [vm_compute; reflexivity|]).
  lia.
Qed.

(** A transport on which the device is discovered now and then, and that
    never accepts. *)
Lemma connect_retry_bounded_witness :
  sleeps (snd (connect_retry flaky_transport 1)) = retry_delays /\
  (total_sleep (snd (connect_retry flaky_transport 1)) < 9.66)%Q.
Proof.
  destruct (connect_retry_bounded flaky_transport) as (_ & _ & Htotal).
  split; [|exact Htotal].
  vm_compute. reflexivity.
Defined.

(** A connect attempt that ends with [asyncio.CancelledError] is not
    retried: [except Exception] does not catch it, so after the failed
    attempts before it, the loop raises it at once, and [connect] with it,
    without a disconnect or a sleep after that attempt and without
    stopping discovery. *)
Theorem cancelled_attempt_is_not_retried
    (transport : nat -> attempt_outcome) (k : nat)
    (w1 w2 w3 w4 : list bytes) (self : JKBt) :
  (1 <= k <= 8)%nat ->
  (forall j, (1 <= j < k)%nat ->
     exists e, transport j = ConnectError e /\ is_exception e = true) ->
  transport k = ConnectError CancelledError ->
  connect_retry transport 1 =
    (Raise CancelledError, take (3 * (k - 1)) retry_trace ++ [ConnectAttempt k]) /\
  connect transport w1 w2 w3 w4 self =
    (Raise CancelledError, self,
     ScannerStart :: take (3 * (k - 1)) retry_trace ++ [ConnectAttempt k]) /\
  attempts (snd (connect_retry transport 1)) = seq 1 k /\
  last (snd (connect_retry transport 1)) = Some (ConnectAttempt k).
Proof.
  intros Hk Hfail Hcancel.
  assert (Hrun : connect_retry transport 1 =
    (Raise CancelledError, take (3 * (k - 1)) retry_trace ++ [ConnectAttempt k])).
  { rewrite (retry_prefix transport (k - 1) 1);
      [| lia | intros j Hj; apply Hfail; lia].
    replace (1 + (k - 1))%nat with k by lia.
    rewrite (connect_retry_uncaught transport k CancelledError [ConnectAttempt k]);
      [| rewrite Hcancel; reflexivity | reflexivity].
    destruct (backoff_delays (k - 1)) as [_ ->]; [lia|]. reflexivity. }
  split; [exact Hrun|]. split.
  { unfold connect. io_unfold. unfold outside. rewrite Hrun. reflexivity. }
  rewrite Hrun. cbn [snd]. split; [|apply last_snoc].
  destruct (backoff_delays (k - 1)) as [_ <-]; [lia|].
  rewrite attempts_app. destruct (failed_attempts_trace (k - 1) 1) as [-> _].
  change (attempts [ConnectAttempt k]) with [k].
  replace (seq 1 k) with (seq 1 (S (k - 1))) by (f_equal; lia).
  rewrite seq_S. replace (1 + (k - 1))%nat with k by lia. reflexivity.
Qed.

(** The second attempt is cancelled. *)
Lemma cancelled_attempt_is_not_retried_witness :
  connect cancelled_transport [] [] [] [] __init__ =
    (Raise CancelledError, __init__,
     [ScannerStart; ConnectAttempt 1; ClientDisconnect; Sleep 0x1.3333333333334p-2;
      ConnectAttempt 2]).
Proof.
  destruct (cancelled_attempt_is_not_retried cancelled_transport 2 [] [] [] [] __init__)
    as (_ & Hconnect & _).
  - lia.
  - intros j Hj. exists (TransportError j). unfold cancelled_transport.
    destruct (Nat.ltb_spec j 2); [split; reflexivity | lia].
  - reflexivity.
  - exact Hconnect.
Defined.

(** ** What [connect] has done when it returns *)

Lemma bind_ok {A B : Type} (m : io A) (k : A -> io B) (self : JKBt) (b : B) :
  value_of ((m ≫= k) self) = Ok b ->
  exists a,
    value_of (m self) = Ok a /\
    value_of (k a (state_of (m self))) = Ok b /\
    state_of ((m ≫= k) self) = state_of (k a (state_of (m self))).
Proof.
  unfold mbind, io_bind, value_of, state_of.
  destruct (m self) as [[[a|e] s1] evs1]; simpl; [|discriminate].
  destruct (k a s1) as [[r s2] evs2] eqn:Hk; simpl.
  intros ->. exists a. rewrite Hk. simpl. split; [reflexivity|].
  split; reflexivity.
Qed.

Lemma connect_identity_ok (self : JKBt) :
  value_of (connect_identity self) = Ok tt ->
  exists buf b,
    _resp_table self !! 1 = Some buf /\
    buf !! 114%nat = Some b /\
    0 < byte_val b <= 48 /\
    state_of (connect_identity self) =
      with_capacity (inject_Z (from_bytes_le (py_slice buf 130 134)) * 0.001)
        (with_num_cells (byte_val b) self).
Proof.
  unfold connect_identity, resp_table_get, py_index. io_unfold.
  unfold value_of, state_of.
  destruct (_resp_table self !! 1) as [buf|] eqn:Hbuf; [|discriminate].
  destruct (buf !! 114%nat) as [b|] eqn:Hb; [|discriminate].
  cbn [fst snd].
  destruct (Z.ltb_spec 0 (byte_val b)); destruct (Z.leb_spec (byte_val b) 48);
    cbn [andb fst snd]; try discriminate.
  intros _. exists buf, b. repeat split; try reflexivity; assumption || lia.
Qed.

Lemma try_connect_ok (o : attempt_outcome) (attempt : nat) (u : unit)
    (evs : list event) :
  try_connect o attempt = (Ok u, evs) -> o = Connected.
Proof. destruct o; cbn; intros H; congruence. Qed.

Lemma retry_ok_connected (transport : nat -> attempt_outcome) (n : nat) :
  forall attempt,
    (attempt + n = 8)%nat ->
    fst (connect_retry transport attempt) = Ok tt ->
    exists k, (attempt <= k <= 8)%nat /\ transport k = Connected.
Proof.
  induction n as [|n IH]; intros attempt Hsum;
    destruct (try_connect (transport attempt) attempt) as [[u|e] evs] eqn:Htry;
    try destruct (is_exception e) eqn:Hcaught.
  - intros _. exists attempt. split; [lia | exact (try_connect_ok _ _ _ _ Htry)].
  - rewrite (connect_retry_give_up transport attempt e evs Htry Hcaught) by lia.
    discriminate.
  - rewrite (connect_retry_uncaught transport attempt e evs Htry Hcaught).
    discriminate.
  - intros _. exists attempt. split; [lia | exact (try_connect_ok _ _ _ _ Htry)].
  - rewrite (connect_retry_again transport attempt e evs Htry Hcaught) by lia.
    cbn [fst]. intros Hok. destruct (IH (S attempt)) as (k & Hk & Hc);
      [lia | exact Hok | exists k; split; [lia | exact Hc]].
  - rewrite (connect_retry_uncaught transport attempt e evs Htry Hcaught).
    discriminate.
Qed.

(** When [connect] returns normally, the transport has accepted one of the
    attempts 1 to 8, a frame of tag 0x01 is stored, and Device Identity is
    set from it: the cell count is its byte at offset 114 and lies between
    1 and 48, and the capacity is assigned. *)
Theorem connect_establishes_identity
    (transport : nat -> attempt_outcome) (w1 w2 w3 w4 : list bytes) (self : JKBt) :
  value_of (connect transport w1 w2 w3 w4 self) = Ok tt ->
  let after := state_of (connect transport w1 w2 w3 w4 self) in
  (exists k, (1 <= k <= 8)%nat /\ transport k = Connected) /\
  exists buf b,
    _resp_table after !! 1 = Some buf /\
    buf !! 114%nat = Some b /\
    num_cells after = Some (byte_val b) /\
    0 < byte_val b <= 48 /\
    capacity after
      = Some (inject_Z (from_bytes_le (py_slice buf 130 134)) * 0.001)%Q.
Proof.
  intros Hok. cbv zeta. unfold connect in *.
  apply bind_ok in Hok as (u1 & _ & Hok & ->).
  apply bind_ok in Hok as (u2 & Hloop & Hok & ->).
  apply bind_ok in Hok as (u3 & _ & Hok & ->).
  apply bind_ok in Hok as (u4 & _ & Hok & ->).
  apply bind_ok in Hok as (r1 & _ & Hok & ->).
  apply bind_ok in Hok as (r2 & _ & Hok & ->).
  split.
  - unfold outside, value_of in Hloop. cbn [fst] in Hloop.
    destruct u2. apply (retry_ok_connected transport 7 1 eq_refl Hloop).
  - destruct (connect_identity_ok _ Hok) as (buf & b & Hbuf & Hb & Hrange & ->).
    exists buf, b. repeat split; assumption || lia.
Qed.

(** The transport accepts at once; the frame of tag 0x01 arrives before
    the answer to the first query. *)
Lemma connect_establishes_identity_witness :
  value_of (connect willing_transport [] [identity_frame; info_frame] [] [plain_frame]
              __init__) = Ok tt /\
  num_cells (state_of (connect willing_transport [] [identity_frame; info_frame] []
                         [plain_frame] __init__)) = Some 16.
Proof.
  assert (Hok : value_of (connect willing_transport [] [identity_frame; info_frame] []
                            [plain_frame] __init__) = Ok tt)
    by (vm_compute; reflexivity).
  split; [exact Hok|].
  destruct (connect_establishes_identity _ _ _ _ _ _ Hok)
    as (_ & buf & b & Hbuf & Hb & Hcells & _).
  rewrite Hcells. f_equal.
  assert (Hstore : _resp_table (state_of (connect willing_transport []
            [identity_frame; info_frame] [] [plain_frame] __init__)) !! 1
          = Some identity_frame) by (vm_compute; reflexivity).
  rewrite Hstore in Hbuf. injection Hbuf as <-.
  assert (Hcell : identity_frame !! 114%nat = Some Byte.x10) by (vm_compute; reflexivity).
  rewrite Hcell in Hb. injection Hb as <-. reflexivity.
Defined.

(** ** The bootstrap of [connect] *)

Lemma handler_stores (frame : bytes) (self : JKBt) :
  valid_frame frame ->
  _fetch_futures self !! frame_tag frame = None ->
  _notification_handler frame self =
  (Ok tt,
   with_buffer [] (with_resp_table (<[frame_tag frame := frame]> (_resp_table self)) self),
   [FrameDecoded frame]).
Proof.
  intros (Hlen & Hpre & Hcrc) Htab.
  rewrite _notification_handler_eq. cbv zeta.
  assert (Hrec : received frame self = frame).
  { unfold received. rewrite bool_decide_eq_true_2 by exact Hpre. reflexivity. }
  rewrite Hrec. destruct (decide _) as [_|Hlt]; [|lia].
  unfold check_crc in Hcrc.
  destruct (frame !! (MIN_RESPONSE_SIZE - 1)%nat) as [c|] eqn:Hc; [|discriminate].
  rewrite (py_index_lookup _ _ _ Hc).
  apply bool_decide_eq_true in Hcrc.
  rewrite bool_decide_eq_false_2 by (intros Hne; apply Hne, Hcrc).
  rewrite _decode_msg_eq. unfold frame_tag in *.
  destruct (py_index_in_range frame 4) as (b & Hb & Hidx);
    [rewrite Hlen; unfold MIN_RESPONSE_SIZE; lia|].
  rewrite Hidx. rewrite Hb in *. cbv zeta.
  cbn [_fetch_futures futures with_buffer _buffer].
  rewrite Htab. reflexivity.
Qed.

Lemma q_answered_after
    (cmd resp : Z) (early : list bytes) (frame : bytes) (self : JKBt) :
  _fetch_futures self !! cmd = None ->
  0 <= cmd < 256 ->
  valid_frame frame ->
  frame_tag frame = resp ->
  let fut := fresh (dom (futures self)) in
  let self2 := fst (deliver early (register resp self)) in
  _fetch_futures self2 !! resp = Some fut ->
  futures self2 !! fut = Some Pending ->
  exists command,
    _q cmd resp [] (early ++ [frame]) self =
    (Ok frame,
     with_buffer []
       (with_futures (<[fut := Finished frame]> (futures self2))
          (with_fetch_futures (delete resp (_fetch_futures self2))
             (with_resp_table (<[resp := frame]> (_resp_table self2)) self2))),
     WriteGattChar command :: snd (deliver early (register resp self))
       ++ [FrameDecoded frame]).
Proof.
  intros Hcmd Hrange Hvalid Htag fut self2 Htab Hfut.
  rewrite _q_eq.
  rewrite bool_decide_eq_false_2 by (rewrite Hcmd; apply is_Some_None).
  destruct (jk_command_in_range cmd Hrange) as [command ->]. cbv zeta.
  exists command.
  change (deliver [] (register resp self)) with (register resp self, @nil event).
  cbv beta iota.
  assert (Hreg : _fetch_futures (register resp self) !! resp = Some fut)
    by (unfold register; cbn; apply lookup_insert_eq).
  rewrite Hreg. rewrite deliver_app.
  subst self2. destruct (deliver early (register resp self)) as [self2 evs2].
  cbn [fst snd] in *. cbn [deliver].
  rewrite <- Htag in Htab.
  rewrite (handler_resolves frame fut self2 Hvalid Htab Hfut). rewrite Htag.
  unfold wait_for_resume.
  cbn [futures with_buffer with_futures with_fetch_futures with_resp_table].
  rewrite lookup_insert_eq. cbn [app]. rewrite ?app_nil_r. reflexivity.
Qed.

(** [connect] waits for frames of the tags 0x03 and 0x02 and reads Device
    Identity from the frame of tag 0x01. When the transport accepts the
    first attempt and the two queries are answered, but no frame of tag
    0x01 has ever arrived, [connect] raises [KeyError(1)] and assigns
    neither the cell count nor the capacity. *)
Theorem connect_needs_frame_01
    (transport : nat -> attempt_outcome) (f3 f2 : bytes) (self : JKBt) :
  transport 1%nat = Connected ->
  _fetch_futures self !! 0x97 = None ->
  _fetch_futures self !! 0x96 = None ->
  _resp_table self !! 1 = None ->
  valid_frame f3 -> frame_tag f3 = 3 ->
  valid_frame f2 -> frame_tag f2 = 2 ->
  let after := state_of (connect transport [] [f3] [] [f2] self) in
  value_of (connect transport [] [f3] [] [f2] self) = Raise (KeyError 1) /\
  _resp_table after !! 3 = Some f3 /\
  _resp_table after !! 2 = Some f2 /\
  num_cells after = num_cells self /\
  capacity after = capacity self.
Proof.
  intros Hconn H97 H96 Hstore Hv3 Ht3 Hv2 Ht2. cbv zeta.
  unfold connect. io_unfold.
  rewrite (connect_retry_success transport 1 Hconn). cbn [fst snd app].
  destruct (q_answered_after 0x97 3 [] f3 self H97 ltac:(lia) Hv3 Ht3)
    as [c1 Hq1].
  { unfold register. cbn. apply lookup_insert_eq. }
  { unfold register. cbn. apply lookup_insert_eq. }
  cbn [app] in Hq1. rewrite Hq1. clear Hq1.
  cbn [deliver fst snd].
  match goal with |- context [_q 150 2 [] [f2] ?s] => set (s1 := s) end.
  assert (H96' : _fetch_futures s1 !! 0x96 = None).
  { unfold s1, register. cbn. rewrite lookup_delete_ne by lia.
    rewrite lookup_insert_ne by lia. exact H96. }
  destruct (q_answered_after 0x96 2 [] f2 s1 H96' ltac:(lia) Hv2 Ht2)
    as [c2 Hq2].
  { unfold register. cbn. apply lookup_insert_eq. }
  { unfold register. cbn. apply lookup_insert_eq. }
  cbn [app] in Hq2. rewrite Hq2. clear Hq2.
  cbn [deliver fst snd].
  match goal with |- context [connect_identity ?s] => set (s2 := s) end.
  assert (Hnone : _resp_table s2 !! 1 = None).
  { unfold s2, s1, register. cbn. rewrite !lookup_insert_ne by lia. exact Hstore. }
  assert (H3 : _resp_table s2 !! 3 = Some f3).
  { unfold s2, s1, register. cbn. rewrite lookup_insert_ne by lia.
    apply lookup_insert_eq. }
  assert (H2 : _resp_table s2 !! 2 = Some f2).
  { unfold s2, register. cbn. apply lookup_insert_eq. }
  unfold connect_identity, resp_table_get. io_unfold. rewrite Hnone.
  unfold value_of, state_of. cbn [fst snd].
  repeat split; assumption || reflexivity.
Qed.

(** A fresh driver that receives the answers to both queries only. *)
Lemma connect_needs_frame_01_witness :
  value_of (connect willing_transport [] [info_frame] [] [plain_frame] __init__)
    = Raise (KeyError 1).
Proof.
  assert (Hv3 : valid_frame info_frame) by (repeat split; vm_compute; reflexivity).
  assert (Hv2 : valid_frame plain_frame) by (repeat split; vm_compute; reflexivity).
  assert (Ht3 : frame_tag info_frame = 3) by (vm_compute; reflexivity).
  assert (Ht2 : frame_tag plain_frame = 2) by (vm_compute; reflexivity).
  apply (connect_needs_frame_01 willing_transport info_frame plain_frame __init__
           eq_refl eq_refl eq_refl eq_refl Hv3 Ht3 Hv2 Ht2).
Defined.

(** When the transport accepts the first attempt, a valid frame of tag
    0x01 with a cell count between 1 and 48 arrives before the answer to
    the first query, and both queries are answered, [connect] returns
    normally with Device Identity read from the frame of tag 0x01, after
    one connect attempt and two commands. *)
Theorem connect_bootstraps
    (transport : nat -> attempt_outcome) (f1 f3 f2 : bytes) (self : JKBt) :
  transport 1%nat = Connected ->
  _fetch_futures self !! 0x97 = None ->
  _fetch_futures self !! 0x96 = None ->
  _fetch_futures self !! 1 = None ->
  valid_frame f1 -> frame_tag f1 = 1 ->
  valid_frame f3 -> frame_tag f3 = 3 ->
  valid_frame f2 -> frame_tag f2 = 2 ->
  0 < byte_at f1 114 <= 48 ->
  let after := state_of (connect transport [] [f1; f3] [] [f2] self) in
  value_of (connect transport [] [f1; f3] [] [f2] self) = Ok tt /\
  num_cells after = Some (byte_at f1 114) /\
  capacity after = Some (inject_Z (u32_le f1 130) * 0.001)%Q /\
  attempts (events_of (connect transport [] [f1; f3] [] [f2] self)) = [1%nat] /\
  decoded (events_of (connect transport [] [f1; f3] [] [f2] self)) = [f1; f3; f2].
Proof.
  intros Hconn H97 H96 H1 Hv1 Ht1 Hv3 Ht3 Hv2 Ht2 Hcells. cbv zeta.
  unfold connect. io_unfold.
  rewrite (connect_retry_success transport 1 Hconn). cbn [fst snd app].
  assert (Hearly : deliver [f1] (register 3 self) =
    (with_buffer []
       (with_resp_table (<[1 := f1]> (_resp_table (register 3 self))) (register 3 self)),
     [FrameDecoded f1])).
  { cbn [deliver]. rewrite (handler_stores f1 (register 3 self) Hv1).
    - rewrite Ht1. reflexivity.
    - rewrite Ht1. unfold register. cbn. rewrite lookup_insert_ne by lia. exact H1. }
  destruct (q_answered_after 0x97 3 [f1] f3 self H97 ltac:(lia) Hv3 Ht3)
    as [c1 Hq1].
  { rewrite Hearly. unfold register. cbn. apply lookup_insert_eq. }
  { rewrite Hearly. unfold register. cbn. apply lookup_insert_eq. }
  rewrite Hearly in Hq1. cbn [app fst snd] in Hq1. rewrite Hq1. clear Hq1 Hearly.
  match goal with |- context [_q 150 2 [] [f2] ?s] => set (s1 := s) end.
  assert (H96' : _fetch_futures s1 !! 0x96 = None).
  { unfold s1, register. cbn. rewrite lookup_delete_ne by lia.
    rewrite lookup_insert_ne by lia. exact H96. }
  destruct (q_answered_after 0x96 2 [] f2 s1 H96' ltac:(lia) Hv2 Ht2)
    as [c2 Hq2].
  { unfold register. cbn. apply lookup_insert_eq. }
  { unfold register. cbn. apply lookup_insert_eq. }
  cbn [app] in Hq2. rewrite Hq2. clear Hq2.
  cbn [deliver fst snd].
  match goal with |- context [connect_identity ?s] => set (s2 := s) end.
  assert (Hstore : _resp_table s2 !! 1 = Some f1).
  { unfold s2, s1, register. cbn. rewrite !lookup_insert_ne by lia.
    apply lookup_insert_eq. }
  destruct Hv1 as (Hlen1 & _).
  rewrite (connect_identity_eq f1 s2 Hstore) by (rewrite Hlen1; reflexivity).
  rewrite (proj2 (Z.ltb_lt _ _)) by lia. rewrite (proj2 (Z.leb_le _ _)) by lia.
  unfold value_of, state_of, events_of. cbn [andb fst snd].
  repeat split; reflexivity.
Qed.

(** A fresh driver, the frames [identity_frame], [info_frame] and
    [plain_frame]: 16 cells and 100 Ah. *)
Lemma connect_bootstraps_witness :
  value_of (connect willing_transport [] [identity_frame; info_frame] []
              [plain_frame] __init__) = Ok tt /\
  capacity (state_of (connect willing_transport [] [identity_frame; info_frame] []
                        [plain_frame] __init__))
    = Some (inject_Z (u32_le identity_frame 130) * 0.001)%Q /\
  u32_le identity_frame 130 = 100000.
Proof.
  assert (Hv1 : valid_frame identity_frame) by (repeat split; vm_compute; reflexivity).
  assert (Hv3 : valid_frame info_frame) by (repeat split; vm_compute; reflexivity).
  assert (Hv2 : valid_frame plain_frame) by (repeat split; vm_compute; reflexivity).
  assert (Ht1 : frame_tag identity_frame = 1) by (vm_compute; reflexivity).
  assert (Ht3 : frame_tag info_frame = 3) by (vm_compute; reflexivity).
  assert (Ht2 : frame_tag plain_frame = 2) by (vm_compute; reflexivity).
  assert (Hcells : 0 < byte_at identity_frame 114 <= 48) by (vm_compute; split; [reflexivity | discriminate]).
  destruct (connect_bootstraps willing_transport identity_frame info_frame plain_frame
              __init__ eq_refl eq_refl eq_refl eq_refl Hv1 Ht1 Hv3 Ht3 Hv2 Ht2 Hcells)
    as (Hok & _ & Hcap & _).
  split; [exact Hok|]. split; [exact Hcap | vm_compute; reflexivity].
Defined.

(** ** Requests and frames of other tags *)

(** A request is touched only by a frame of its own tag: while no frame
    of tag [resp] is handed to the router, the future registered under
    [resp] stays registered and pending, whatever else arrives. *)
Theorem other_frames_leave_request
    (fragments : list bytes) (resp : Z) (fut : nat) (self : JKBt) :
  _fetch_futures self !! resp = Some fut ->
  futures self !! fut = Some Pending ->
  (forall tag, tag ≠ resp -> _fetch_futures self !! tag ≠ Some fut) ->
  no_frame_of resp (snd (deliver fragments self)) ->
  _fetch_futures (fst (deliver fragments self)) !! resp = Some fut /\
  futures (fst (deliver fragments self)) !! fut = Some Pending.
Proof.
  intros Htab Hfut Huniq Hno.
  destruct (deliver_waits fragments resp fut self) as (H1 & H2 & _);
    [repeat split; assumption | exact Hno | split; assumption].
Qed.

(** A telemetry frame arrives while a request for tag 0x03 is outstanding. *)
Lemma other_frames_leave_request_witness :
  decoded (snd (deliver plain_fragments query_waiting_state)) = [plain_frame] /\
  _fetch_futures (fst (deliver plain_fragments query_waiting_state)) !! 3 = Some 0%nat /\
  futures (fst (deliver plain_fragments query_waiting_state)) !! 0%nat = Some Pending.
Proof.
  split; [vm_compute; reflexivity|].
  apply (other_frames_leave_request plain_fragments 3 0 query_waiting_state).
  - reflexivity.
  - reflexivity.
  - intros tag Hne H. unfold query_waiting_state in H. cbn [_fetch_futures] in H.
    apply lookup_singleton_Some in H as [Heq _]. congruence.
  - vm_compute. repeat constructor. discriminate.
Defined.

(** ** Requests that timed out *)

Lemma q_times_out (cmd resp : Z) (self : JKBt) :
  _fetch_futures self !! cmd = None ->
  0 <= cmd < 256 ->
  exists command,
    _q cmd resp [] [] self =
    (Raise TimeoutError,
     with_futures (<[fresh (dom (futures self)) := Cancelled]>
                     (futures (register resp self)))
       (register resp self),
     [WriteGattChar command]).
Proof.
  intros Hcmd Hrange. rewrite _q_eq.
  rewrite bool_decide_eq_false_2 by (rewrite Hcmd; apply is_Some_None).
  destruct (jk_command_in_range cmd Hrange) as [command ->]. cbv zeta.
  exists command. cbn [deliver].
  assert (Htab : _fetch_futures (register resp self) !! resp
                 = Some (fresh (dom (futures self))))
    by (unfold register; cbn; apply lookup_insert_eq).
  assert (Hfut : futures (register resp self) !! fresh (dom (futures self))
                 = Some Pending)
    by (unfold register; cbn; apply lookup_insert_eq).
  rewrite Htab. unfold wait_for_resume. rewrite Hfut. reflexivity.
Qed.

Lemma handler_stale (frame : bytes) (fut : nat) (self : JKBt) :
  valid_frame frame ->
  _fetch_futures self !! frame_tag frame = Some fut ->
  futures self !! fut = Some Cancelled ->
  _notification_handler frame self =
  (Raise InvalidStateError,
   with_fetch_futures (delete (frame_tag frame) (_fetch_futures self))
     (with_resp_table (<[frame_tag frame := frame]> (_resp_table self))
        (with_buffer frame self)),
   [FrameDecoded frame]).
Proof.
  intros (Hlen & Hpre & Hcrc) Htab Hfut.
  rewrite _notification_handler_eq. cbv zeta.
  assert (Hrec : received frame self = frame).
  { unfold received. rewrite bool_decide_eq_true_2 by exact Hpre. reflexivity. }
  rewrite Hrec. destruct (decide _) as [_|Hlt]; [|lia].
  unfold check_crc in Hcrc.
  destruct (frame !! (MIN_RESPONSE_SIZE - 1)%nat) as [c|] eqn:Hc; [|discriminate].
  rewrite (py_index_lookup _ _ _ Hc).
  apply bool_decide_eq_true in Hcrc.
  rewrite bool_decide_eq_false_2 by (intros Hne; apply Hne, Hcrc).
  rewrite _decode_msg_eq. unfold frame_tag in *.
  destruct (py_index_in_range frame 4) as (b & Hb & Hidx);
    [rewrite Hlen; unfold MIN_RESPONSE_SIZE; lia|].
  rewrite Hidx. rewrite Hb in *. cbv zeta.
  cbn [_fetch_futures futures with_buffer _buffer].
  rewrite Htab, Hfut. reflexivity.
Qed.

(** After a query has timed out, the next frame of its tag makes the
    handler raise: [set_result] refuses the cancelled future that is still
    registered. The frame is stored and the entry removed all the same,
    but the buffer is not cleared. *)
Theorem frame_after_timeout_raises
    (cmd resp : Z) (frame : bytes) (self : JKBt) :
  _fetch_futures self !! cmd = None ->
  0 <= cmd < 256 ->
  valid_frame frame ->
  frame_tag frame = resp ->
  let timed_out := state_of (_q cmd resp [] [] self) in
  let out := _notification_handler frame timed_out in
  value_of (_q cmd resp [] [] self) = Raise TimeoutError /\
  value_of out = Raise InvalidStateError /\
  _resp_table (state_of out) !! resp = Some frame /\
  _fetch_futures (state_of out) !! resp = None /\
  _buffer (state_of out) = frame.
Proof.
  intros Hcmd Hrange Hvalid Htag. cbv zeta.
  destruct (q_times_out cmd resp self Hcmd Hrange) as [command ->].
  rewrite !(io_state (A := bytes)), (io_value (A := bytes)).
  split; [reflexivity|].
  set (fut := fresh (dom (futures self))).
  set (s1 := with_futures _ _).
  assert (Htab : _fetch_futures s1 !! frame_tag frame = Some fut)
    by (rewrite Htag; unfold s1, register; cbn; apply lookup_insert_eq).
  assert (Hfut : futures s1 !! fut = Some Cancelled)
    by (unfold s1; cbn; apply lookup_insert_eq).
  rewrite (handler_stale frame fut s1 Hvalid Htab Hfut), Htag.
  unfold value_of, state_of. cbn [fst snd].
  split; [reflexivity|].
  split; [cbn; apply lookup_insert_eq|].
  split; [cbn; apply lookup_delete_eq | reflexivity].
Qed.

(** The device-info query times out; its answer arrives late. *)
Lemma frame_after_timeout_raises_witness :
  value_of (_notification_handler info_frame (state_of (_q 0x97 0x03 [] [] __init__)))
    = Raise InvalidStateError.
Proof.
  destruct (frame_after_timeout_raises 0x97 0x03 info_frame __init__) as (_ & Hraise & _).
  - reflexivity.
  - lia.
  - repeat split; vm_compute; reflexivity.
  - vm_compute. reflexivity.
  - exact Hraise.
Defined.

(** ** A table in order *)

Lemma decode_msg_in_order (buf : bytes) (self : JKBt) :
  (4 < length buf)%nat ->
  table_in_order self ->
  value_of (_decode_msg buf self) = Ok tt /\
  table_in_order (state_of (_decode_msg buf self)).
Proof.
  intros Hlen [Hout Hinj]. rewrite _decode_msg_eq.
  destruct (py_index_in_range buf 4 Hlen) as (b & _ & ->). cbv zeta.
  destruct (_fetch_futures self !! byte_val b) as [fut|] eqn:Hpop.
  - rewrite (Hout _ _ Hpop). split; [reflexivity|].
    unfold state_of. cbn [fst snd]. split.
    + intros tag fut' Hx. cbn in *. rewrite lookup_delete in Hx.
      case_decide as Htag; [discriminate|].
      rewrite lookup_insert_ne; [exact (Hout _ _ Hx)|].
      intros ->. apply Htag. exact (Hinj _ _ _ Hpop Hx).
    + intros tag1 tag2 fut' H1 H2. cbn in *. rewrite lookup_delete in H1, H2.
      case_decide; [discriminate|]. case_decide; [discriminate|].
      exact (Hinj _ _ _ H1 H2).
  - split; [reflexivity|]. split; [exact Hout | exact Hinj].
Qed.

Lemma handler_in_order (data : bytes) (self : JKBt) :
  table_in_order self ->
  value_of (_notification_handler data self) = Ok tt /\
  table_in_order (state_of (_notification_handler data self)) /\
  (length (_buffer (state_of (_notification_handler data self)))
     < MIN_RESPONSE_SIZE)%nat.
Proof.
  intros Hin. rewrite _notification_handler_eq. cbv zeta.
  set (buf := received data self).
  destruct (decide _) as [Hge|Hlt];
    [|split; [reflexivity|]; split; [exact Hin | cbn; lia]].
  unfold MIN_RESPONSE_SIZE in Hge.
  destruct (py_index_in_range buf (MIN_RESPONSE_SIZE - 1)) as (c & _ & ->);
    [unfold MIN_RESPONSE_SIZE; lia|].
  case_bool_decide;
    [split; [reflexivity|]; split; [exact Hin | cbn; unfold MIN_RESPONSE_SIZE; lia]|].
  destruct (decode_msg_in_order buf (with_buffer buf self)) as [Hok Hnext];
    [lia | exact Hin |].
  destruct (_decode_msg buf (with_buffer buf self)) as [[[[]|e] self2] evs];
    [|discriminate Hok].
  split; [reflexivity|].
  split; [exact Hnext | cbn; unfold MIN_RESPONSE_SIZE; lia].
Qed.

(** While the table of pending requests is in order (every registered
    future pending, none under two tags), no sequence of fragments makes
    the handler raise; the table stays in order, and after each call
    fewer than 300 bytes are buffered. *)
Theorem deliver_never_raises (fragments : list bytes) (self : JKBt) :
  table_in_order self ->
  Forall (fun r => r = Ok tt) (deliver_results fragments self) /\
  table_in_order (fst (deliver fragments self)) /\
  (fragments ≠ [] ->
   (length (_buffer (fst (deliver fragments self))) < MIN_RESPONSE_SIZE)%nat).
Proof.
  revert self. induction fragments as [|f rest IH]; intros self Hin.
  - split; [constructor|]. split; [exact Hin | congruence].
  - destruct (handler_in_order f self Hin) as (Hok & Hnext & Hbuf).
    cbn [deliver deliver_results].
    destruct (_notification_handler f self) as [[r self1] evs1].
    unfold value_of, state_of in *. cbn [fst snd] in *.
    destruct (IH self1 Hnext) as (IHr & IHin & IHbuf).
    split; [constructor; assumption|].
    destruct rest as [|g rest].
    + cbn [deliver fst]. split; [exact Hnext | intros _; exact Hbuf].
    + destruct (deliver (g :: rest) self1) as [self2 evs2]. cbn [fst] in *.
      split; [exact IHin | intros _; apply IHbuf; discriminate].
Qed.

(** Six stray bytes, then [plain_frame] in two fragments, with a request
    outstanding for its tag. *)
Lemma deliver_never_raises_witness :
  table_in_order waiting_state /\
  Forall (fun r => r = Ok tt)
    (deliver_results [take 6 resync_frame; take 20 plain_frame; drop 20 plain_frame]
       waiting_state) /\
  futures (fst (deliver [take 6 resync_frame; take 20 plain_frame; drop 20 plain_frame]
                  waiting_state)) !! 0%nat = Some (Finished plain_frame).
Proof.
  assert (Hin : table_in_order waiting_state).
  { split.
    - intros tag fut H. unfold waiting_state in H. cbn [_fetch_futures] in H.
      apply lookup_singleton_Some in H as [<- <-]. reflexivity.
    - intros tag1 tag2 fut H1 H2. unfold waiting_state in H1, H2.
      cbn [_fetch_futures] in H1, H2.
      apply lookup_singleton_Some in H1 as [<- _].
      apply lookup_singleton_Some in H2 as [<- _]. reflexivity. }
  split; [exact Hin|].
  destruct (deliver_never_raises
              [take 6 resync_frame; take 20 plain_frame; drop 20 plain_frame]
              waiting_state Hin) as (Hall & _ & _).
  split; [exact Hall | vm_compute; reflexivity].
Defined.

(** ** The hexadecimal dump *)

Lemma py_hex_shape (b : byte) :
  exists c1, c1 ≠ space /\
    (py_hex b = String.String c1 String.EmptyString \/
     exists c2, c2 ≠ space /\
       py_hex b = String.String c1 (String.String c2 String.EmptyString)).
Proof.
  destruct b; vm_compute; eexists;
    (split; [|first [left; reflexivity
                    | right; eexists; split; [|reflexivity]]]);
    discriminate.
Qed.

Lemma py_hex_value (b : byte) : hex_value 0 (py_hex b) = Byte.to_N b.
Proof. destruct b; vm_compute; reflexivity. Qed.

Lemma py_hex_inj (a b : byte) : py_hex a = py_hex b -> a = b.
Proof.
  intros H. apply (f_equal (hex_value 0)) in H. rewrite !py_hex_value in H.
  apply byte_val_inj. unfold byte_val. rewrite H. reflexivity.
Qed.

Lemma append_empty_r (s : String.string) :
  String.append s String.EmptyString = s.
Proof.
  induction s as [|c s IH]; [reflexivity|].
  change (String.String c (String.append s String.EmptyString) = String.String c s).
  f_equal. exact IH.
Qed.

Lemma to_hex_str_cons (b : byte) (data : bytes) :
  to_hex_str (b :: data) = String.append (py_hex b) (dump_rest data).
Proof.
  unfold to_hex_str. destruct data as [|c data]; cbn [map String.concat dump_rest].
  - symmetry. apply append_empty_r.
  - reflexivity.
Qed.

Lemma dump_rest_head (data : bytes) :
  dump_rest data = String.EmptyString \/
  exists s, dump_rest data = String.String space s.
Proof. destruct data; [left | right; eexists]; reflexivity. Qed.

Lemma dump_split (a b : byte) (ra rb : String.string) :
  (ra = String.EmptyString \/ exists s, ra = String.String space s) ->
  (rb = String.EmptyString \/ exists s, rb = String.String space s) ->
  String.append (py_hex a) ra = String.append (py_hex b) rb ->
  a = b /\ ra = rb.
Proof.
  intros Hra Hrb Heq.
  destruct (py_hex_shape a) as (a1 & Ha1 & [Ha|(a2 & Ha2 & Ha)]);
    destruct (py_hex_shape b) as (b1 & Hb1 & [Hb|(b2 & Hb2 & Hb)]);
    pose proof Heq as Heq'; rewrite Ha, Hb in Heq';
    change (String.append (String.String ?c ?s) ?t)
      with (String.String c (String.append s t)) in Heq';
    change (String.append String.EmptyString ?t) with t in Heq'.
  - injection Heq' as Hc Htail.
    split; [apply py_hex_inj; congruence | exact Htail].
  - exfalso. injection Heq' as _ Htail.
    destruct Hra as [->|[s ->]]; [discriminate Htail|].
    injection Htail as Hc _. apply Hb2. symmetry. exact Hc.
  - exfalso. injection Heq' as _ Htail.
    destruct Hrb as [->|[s ->]]; [discriminate Htail|].
    injection Htail as Hc _. apply Ha2. exact Hc.
  - injection Heq' as Hc1 Hc2 Htail.
    split; [apply py_hex_inj; congruence | exact Htail].
Qed.

(** The dump of [to_hex_str] determines the bytes: two byte sequences
    with the same dump are equal, although the digits are not padded. *)
Theorem to_hex_str_injective (a b : bytes) :
  to_hex_str a = to_hex_str b -> a = b.
Proof.
  revert b. induction a as [|x a IH]; intros [|y b] Heq.
  - reflexivity.
  - exfalso. rewrite to_hex_str_cons in Heq.
    destruct (py_hex_shape y) as (c1 & _ & [Hy|(c2 & _ & Hy)]);
      rewrite Hy in Heq; discriminate Heq.
  - exfalso. rewrite to_hex_str_cons in Heq.
    destruct (py_hex_shape x) as (c1 & _ & [Hx|(c2 & _ & Hx)]);
      rewrite Hx in Heq; discriminate Heq.
  - rewrite !to_hex_str_cons in Heq.
    destruct (dump_split x y _ _ (dump_rest_head a) (dump_rest_head b) Heq)
      as [-> Hrest].
    f_equal. destruct a as [|x' a]; destruct b as [|y' b]; cbn [dump_rest] in Hrest;
      try reflexivity; try discriminate Hrest.
    injection Hrest as Hrest. apply IH, Hrest.
Qed.

(** The dump of [n] bytes, [n] at least 1, has between [2 n - 1] and
    [3 n - 1] characters. *)
Theorem to_hex_str_length (data : bytes) :
  data ≠ [] ->
  (2 * length data - 1 <= String.length (to_hex_str data) <= 3 * length data - 1)%nat.
Proof.
  induction data as [|x data IH]; intros Hne; [contradiction|].
  rewrite to_hex_str_cons.
  assert (Happ : forall s t,
            String.length (String.append s t) = (String.length s + String.length t)%nat).
  { induction s as [|c s IHs]; intros t; [reflexivity|].
    change (S (String.length (String.append s t))
            = S (String.length s + String.length t)).
    f_equal. apply IHs. }
  rewrite Happ.
  assert (Hx : (1 <= String.length (py_hex x) <= 2)%nat).
  { destruct (py_hex_shape x) as (c1 & _ & [->|(c2 & _ & ->)]); cbn; lia. }
  destruct data as [|y data]; cbn [dump_rest length String.length] in *.
  - lia.
  - specialize (IH ltac:(discriminate)). lia.
Qed.

(** The preamble: "55 aa eb 90", 11 characters. *)
Lemma to_hex_str_length_witness :
  (2 * length preamble - 1 <= String.length (to_hex_str preamble)
   <= 3 * length preamble - 1)%nat /\
  String.length (to_hex_str preamble) = 11%nat.
Proof.
  split; [apply (to_hex_str_length preamble); discriminate | reflexivity].
Defined.

(** Two dumps of the same bytes. *)
Lemma to_hex_str_injective_witness :
  [Byte.x01; Byte.x11] = [Byte.x01; Byte.x11].
Proof.
  apply (to_hex_str_injective [Byte.x01; Byte.x11] [Byte.x01; Byte.x11]).
  reflexivity.
Defined.
